(** * FinanceHub: metrics, portfolio analytics, CSV export and search history

    A shallow embedding of the numeric core of the FinanceHub dashboard
    ([utils/metrics_calculator.py], [utils/portfolio_manager.py],
    [utils/data_exporter.py], [utils/cache_manager.py]) and the properties
    its specification states about it; then of the code around it (the
    fetchers of [utils/data_fetcher.py] and [utils/crypto_fetcher.py], the
    stored preferences and portfolios, the data of the portfolio charts,
    the portfolio endpoint of [backend/app.py]) and further properties of
    the whole.

    Conventions of the embedding.
    - A Python [float] that comes from user input (shares, purchase price)
      is a rational [Q]; dividing by zero raises [ZeroDivisionError].
    - A [numpy.float64] / pandas value is an [fl]: a rational or one of the
      IEEE special values +inf, -inf, NaN.  Dividing by zero does not raise:
      it yields an infinity or NaN.  Rounding and signed zeros are not
      modelled: finite arithmetic is exact.
    - A raised exception is the [Raise] branch of [result]; [try/except]
      is a [match] on it.
    - A Python [dict] is an association list in insertion order (the code
      iterates dictionaries and takes [next(iter(...))]).
    - A [str] is a [string] of bytes; [str.upper] is modelled on ASCII. *)

From Stdlib Require Import QArith Qabs ZArith String Ascii Bool Lia Lqa Arith List
  DecimalString.
Import ListNotations.

Local Open Scope Q_scope.

(** ** Exceptions *)

Inductive exn : Type :=
| KeyError
| IndexError
| TypeError
| ValueError
| ZeroDivisionError
| AttributeError.

Inductive result (A : Type) : Type :=
| Ok (a : A)
| Raise (e : exn).

Arguments Ok {A} a.
Arguments Raise {A} e.

Definition bind {A B : Type} (r : result A) (k : A -> result B) : result B :=
  match r with
  | Ok a => k a
  | Raise e => Raise e
  end.

Notation "x <- r ;; k" := (bind r (fun x => k))
  (at level 61, r at next level, right associativity).

Notation "' pat <- r ;; k" := (bind r (fun x => match x with pat => k end))
  (at level 61, pat pattern, r at next level, right associativity).

(** [try: body except: handler] *)
Definition catch {A : Type} (body : result A) (handler : result A) : result A :=
  match body with
  | Ok a => Ok a
  | Raise _ => handler
  end.

Notation "'TRY' body 'EXCEPT' handler" := (catch body handler)
  (at level 10, body at level 200, handler at level 200).

(** A loop whose body may raise. *)
Fixpoint foldM {A B : Type} (f : B -> A -> result B) (l : list A) (b : B)
  : result B :=
  match l with
  | [] => Ok b
  | a :: l' => b' <- f b a ;; foldM f l' b'
  end.

Fixpoint mapM {A B : Type} (f : A -> result B) (l : list A) : result (list B) :=
  match l with
  | [] => Ok []
  | a :: l' => b <- f a ;; bs <- mapM f l' ;; Ok (b :: bs)
  end.

(** ** Search history ([utils/cache_manager.py]) *)

Module CacheManager.

Definition upper_ascii (c : ascii) : ascii :=
  let n := nat_of_ascii c in
  if ((97 <=? n) && (n <=? 122))%nat then ascii_of_nat (n - 32) else c.

(** [str.upper()] *)
Fixpoint upper (s : string) : string :=
  match s with
  | EmptyString => EmptyString
  | String c s' => String (upper_ascii c) (upper s')
  end.

(** [x in l] *)
Fixpoint contains (x : string) (l : list string) : bool :=
  match l with
  | [] => false
  | y :: l' => if String.eqb x y then true else contains x l'
  end.

(** [l.remove(x)]: drops the first occurrence.  The code only calls it
    under [x in l], so the [ValueError] of an absent element is not
    reachable; on an absent element this model returns the list as is. *)
Fixpoint remove_first (x : string) (l : list string) : list string :=
  match l with
  | [] => []
  | y :: l' => if String.eqb x y then l' else y :: remove_first x l'
  end.

Definition max_history : nat := 10.

(** [st.session_state]: the [search_history] key is absent ([None]) or
    bound to a list. *)
Definition session_state : Type := option (list string).

Definition add_to_search_history (symbol : string) (st : session_state)
  : session_state :=
  let history := match st with None => [] | Some h => h end in
  let symbol := upper symbol in
  let history :=
    if contains symbol history then remove_first symbol history
    else history in
  let history := symbol :: history in
  let history :=
    if (max_history <? length history)%nat then firstn max_history history
    else history in
  Some history.

(** [st.session_state.get('search_history', [])] *)
Definition get_search_history (st : session_state) : list string :=
  match st with None => [] | Some h => h end.

Definition clear_search_history (st : session_state) : session_state :=
  Some [].

(** A sequence of calls, oldest first. *)
Definition add_all (symbols : list string) (st : session_state)
  : session_state :=
  fold_left (fun s sym => add_to_search_history sym s) symbols st.

(** The list the call leaves in the session, before truncation. *)
Definition moved_to_front (symbol : string) (h : list string) : list string :=
  upper symbol ::
    (if contains (upper symbol) h then remove_first (upper symbol) h else h).

Definition uppercased (s : string) : Prop := upper s = s.

Definition history_ok (h : list string) : Prop :=
  (length h <= max_history)%nat /\ NoDup h /\ Forall uppercased h.

End CacheManager.

(** ** Numbers *)

(** A [numpy.float64]: exact rationals plus the IEEE special values. *)
Inductive fl : Type :=
| Fin (q : Q)
| PInf
| NInf
| NaN.

Module Float.

Definition inf_of_sign (c : comparison) : fl :=
  match c with
  | Gt => PInf
  | Lt => NInf
  | Eq => NaN
  end.

Definition fopp (x : fl) : fl :=
  match x with
  | Fin q => Fin (- q)
  | PInf => NInf
  | NInf => PInf
  | NaN => NaN
  end.

Definition fadd (x y : fl) : fl :=
  match x, y with
  | NaN, _ | _, NaN => NaN
  | Fin a, Fin b => Fin (a + b)
  | PInf, NInf | NInf, PInf => NaN
  | PInf, _ | _, PInf => PInf
  | NInf, _ | _, NInf => NInf
  end.

Definition fsub (x y : fl) : fl := fadd x (fopp y).

Definition fmul (x y : fl) : fl :=
  match x, y with
  | NaN, _ | _, NaN => NaN
  | Fin a, Fin b => Fin (a * b)
  | Fin a, PInf | PInf, Fin a => inf_of_sign (a ?= 0)
  | Fin a, NInf | NInf, Fin a => inf_of_sign (0 ?= a)
  | PInf, PInf | NInf, NInf => PInf
  | PInf, NInf | NInf, PInf => NInf
  end.

(** numpy division: a zero divisor gives an infinity or NaN, no exception. *)
Definition fdiv (x y : fl) : fl :=
  match x, y with
  | NaN, _ | _, NaN => NaN
  | Fin a, Fin b =>
      if Qeq_bool b 0 then inf_of_sign (a ?= 0) else Fin (a / b)
  | Fin _, PInf | Fin _, NInf => Fin 0
  | PInf, Fin b => if Qle_bool 0 b then PInf else NInf
  | NInf, Fin b => if Qle_bool 0 b then NInf else PInf
  | PInf, PInf | PInf, NInf | NInf, PInf | NInf, NInf => NaN
  end.

(** Comparisons: every comparison with NaN is false, except [!=]. *)
Definition flt (x y : fl) : bool :=
  match x, y with
  | NaN, _ | _, NaN => false
  | Fin a, Fin b => negb (Qle_bool b a)
  | NInf, NInf => false
  | NInf, _ => true
  | _, PInf => match x with PInf => false | _ => true end
  | _, _ => false
  end.

Definition fgt (x y : fl) : bool := flt y x.

Definition feqb (x y : fl) : bool :=
  match x, y with
  | Fin a, Fin b => Qeq_bool a b
  | PInf, PInf | NInf, NInf => true
  | _, _ => false
  end.

Definition fne (x y : fl) : bool := negb (feqb x y).

Definition fge (x y : fl) : bool := flt y x || feqb x y.

(** [np.isnan] *)
Definition isnan (x : fl) : bool :=
  match x with NaN => true | _ => false end.

Definition isfinite (x : fl) : bool :=
  match x with Fin _ => true | _ => false end.

(** [abs] *)
Definition fabs (x : fl) : fl :=
  match x with
  | Fin q => Fin (Qabs q)
  | PInf | NInf => PInf
  | NaN => NaN
  end.

(** [np.maximum], [np.minimum]: NaN propagates. *)
Definition fmax (x y : fl) : fl :=
  match x, y with
  | NaN, _ | _, NaN => NaN
  | _, _ => if flt x y then y else x
  end.

Definition fmin (x y : fl) : fl :=
  match x, y with
  | NaN, _ | _, NaN => NaN
  | _, _ => if flt y x then y else x
  end.

(** Equality of values: [Fin] up to equality of rationals. *)
Definition fl_eq (x y : fl) : Prop :=
  match x, y with
  | Fin a, Fin b => a == b
  | PInf, PInf | NInf, NInf | NaN, NaN => True
  | _, _ => False
  end.

Definition finite (x : fl) : Prop := exists q, x = Fin q.

(** A Python [float] division: raises on a zero divisor. *)
Definition pydiv (a b : Q) : result Q :=
  if Qeq_bool b 0 then Raise ZeroDivisionError else Ok (a / b).

(** [int(x)]: truncation toward zero; NaN and the infinities raise
    ([ValueError], [OverflowError]; both are [Exception]s). *)
Definition py_int (x : fl) : result Z :=
  match x with
  | Fin q => Ok (Z.quot (Qnum q) (Zpos (Qden q)))
  | NaN => Raise ValueError
  | PInf | NInf => Raise ValueError
  end.

Definition Qsum (l : list Q) : Q := fold_right Qplus 0 l.

Definition fsum (l : list fl) : fl := fold_left fadd l (Fin 0).

(** The finite values of a list, if all of them are finite. *)
Fixpoint all_finite (l : list fl) : option (list Q) :=
  match l with
  | [] => Some []
  | Fin q :: l' =>
      match all_finite l' with
      | Some qs => Some (q :: qs)
      | None => None
      end
  | _ :: _ => None
  end.

Definition Qmean (l : list Q) : Q :=
  Qsum l / inject_Z (Z.of_nat (length l)).

(** Sum of squared deviations from the mean. *)
Definition Qsumsq (l : list Q) : Q :=
  let m := Qmean l in Qsum (map (fun x => (x - m) * (x - m)) l).

End Float.

Infix "=f=" := Float.fl_eq (at level 70, no associativity).

(** ** pandas Series and DataFrame *)

Module Pandas.
Import Float.

(** A numeric Series, without its index. *)
Definition Series : Type := list fl.

(** [s.iloc[-k]] for [k >= 1]. *)
Definition iloc_neg (k : nat) (s : Series) : result fl :=
  if ((1 <=? k) && (k <=? length s))%nat
  then match nth_error s (length s - k) with
       | Some x => Ok x
       | None => Raise IndexError
       end
  else Raise IndexError.

(** [s.iloc[i]] for [i >= 0]. *)
Definition iloc (i : nat) (s : Series) : result fl :=
  match nth_error s i with
  | Some x => Ok x
  | None => Raise IndexError
  end.

(** [s.diff()] *)
Definition diff (s : Series) : Series :=
  match s with
  | [] => []
  | _ :: t => NaN :: map (fun p => fsub (snd p) (fst p)) (combine s t)
  end.

(** [s.pct_change()]: [s / s.shift(1) - 1], on a series without missing
    values (pandas first fills those forward). *)
Definition pct_change (s : Series) : Series :=
  match s with
  | [] => []
  | _ :: t =>
      NaN :: map (fun p => fsub (fdiv (snd p) (fst p)) (Fin 1)) (combine s t)
  end.

(** [s.where(cond, other)] with the condition computed from the element. *)
Definition where_ (cond : fl -> bool) (other : fl) (s : Series) : Series :=
  map (fun x => if cond x then x else other) s.

(** The trailing window of [w] values that ends at position [i]. *)
Definition window (w i : nat) (s : Series) : Series :=
  skipn (S i - w) (firstn (S i) s).

(** [s.rolling(window=w).agg()] at position [i]: [min_periods] is the
    window length, and a window holding a NaN or an infinity has fewer
    observations than that, so its value is NaN. *)
Definition rolling_at (w : nat) (agg : list Q -> fl) (s : Series) (i : nat) : fl :=
  let win := window w i s in
  if (length win <? w)%nat then NaN
  else match all_finite win with
       | Some qs => agg qs
       | None => NaN
       end.

Definition rolling (w : nat) (agg : list Q -> fl) (s : Series) : Series :=
  map (rolling_at w agg s) (seq 0 (length s)).

Definition rolling_mean (w : nat) (s : Series) : Series :=
  rolling w (fun qs => Fin (Qmean qs)) s.

(** [s.max()], [s.min()], [s.mean()]: NaN is skipped; NaN when nothing
    is left. *)
Definition dropna (s : Series) : Series :=
  filter (fun x => negb (isnan x)) s.

Definition series_max (s : Series) : fl :=
  match dropna s with
  | [] => NaN
  | x :: t => fold_left fmax t x
  end.

Definition series_min (s : Series) : fl :=
  match dropna s with
  | [] => NaN
  | x :: t => fold_left fmin t x
  end.

Definition series_mean (s : Series) : fl :=
  match dropna s with
  | [] => NaN
  | x :: t => fdiv (fsum (x :: t)) (Fin (inject_Z (Z.of_nat (length (x :: t)))))
  end.

(** [s.ewm(span=span).mean()] with pandas' defaults ([adjust=True],
    [ignore_na=False], [min_periods=0]): the running weighted mean and
    the weight of the past. *)
Definition ewm_step (alpha : Q) (st : fl * Q) (cur : fl) : fl * Q :=
  let '(weighted, old_wt) := st in
  if isnan weighted then ((if isnan cur then weighted else cur), old_wt)
  else
    let old_wt := old_wt * (1 - alpha) in
    if isnan cur then (weighted, old_wt)
    else
      ((if feqb weighted cur then weighted
        else fdiv (fadd (fmul (Fin old_wt) weighted) cur) (Fin (old_wt + 1))),
       old_wt + 1).

Fixpoint ewm_scan (alpha : Q) (st : fl * Q) (s : Series) : Series :=
  match s with
  | [] => []
  | cur :: s' =>
      let st' := ewm_step alpha st cur in
      fst st' :: ewm_scan alpha st' s'
  end.

Definition ewm_mean (span : nat) (s : Series) : Series :=
  let alpha := 2 / inject_Z (Z.of_nat (span + 1)) in
  match s with
  | [] => []
  | x :: s' => x :: ewm_scan alpha (x, 1) s'
  end.

(** Element-wise binary operation on aligned Series. *)
Definition zip_with (f : fl -> fl -> fl) (a b : Series) : Series :=
  map (fun p => f (fst p) (snd p)) (combine a b).

(** A cell of a DataFrame: a number, or any other object (a timestamp
    of the [Date] column, a text of the banner row). *)
Inductive cell : Type :=
| CNum (x : fl)
| CStr (s : string).

(** A DataFrame: its columns in order, name and cells. *)
Definition DataFrame : Type := list (string * list cell).

(** [len(df)] *)
Definition len (df : DataFrame) : nat :=
  match df with
  | [] => O
  | (_, c) :: _ => length c
  end.

(** [df.empty] *)
Definition empty (df : DataFrame) : bool := (len df =? 0)%nat.

Fixpoint lookup {V : Type} (k : string) (d : list (string * V)) : option V :=
  match d with
  | [] => None
  | (k', v) :: d' => if String.eqb k k' then Some v else lookup k d'
  end.

(** [k in d] *)
Definition mem {V : Type} (k : string) (d : list (string * V)) : bool :=
  match lookup k d with Some _ => true | None => false end.

(** [df[name]] *)
Definition getitem (df : DataFrame) (name : string) : result (list cell) :=
  match lookup name df with
  | Some c => Ok c
  | None => Raise KeyError
  end.

Definition as_float (c : cell) : result fl :=
  match c with
  | CNum x => Ok x
  | CStr _ => Raise TypeError
  end.

(** [df[name]] used as a numeric Series.  A column that holds something
    other than numbers is outside the OHLCV data model; using it in
    arithmetic is a [TypeError] here. *)
Definition get_num (df : DataFrame) (name : string) : result Series :=
  c <- getitem df name ;; mapM as_float c.

(** [df[name] = values]: replaces the column in place, or appends it. *)
Fixpoint setitem (df : DataFrame) (name : string) (c : list cell) : DataFrame :=
  match df with
  | [] => [(name, c)]
  | (n, c') :: df' =>
      if String.eqb name n then (n, c) :: df' else (n, c') :: setitem df' name c
  end.

Definition set_num (df : DataFrame) (name : string) (s : Series) : DataFrame :=
  setitem df name (map CNum s).

Section WithSqrt.

(** [sqrt] on the rationals is not a rational function: the square
    root the libraries compute is a parameter of the model. *)
Variable sqrtQ : Q -> Q.

(** Sample standard deviation ([ddof=1]) of a full window. *)
Definition Qstd_sample (qs : list Q) : fl :=
  if (length qs <=? 1)%nat then NaN
  else Fin (sqrtQ (Qsumsq qs / inject_Z (Z.of_nat (length qs - 1)))).

Definition rolling_std (w : nat) (s : Series) : Series :=
  rolling w Qstd_sample s.

(** [np.std(l)]: population standard deviation; a non-finite element
    makes it NaN; so does the empty list. *)
Definition np_std (l : list fl) : fl :=
  match all_finite l with
  | Some [] => NaN
  | Some qs => Fin (sqrtQ (Qsumsq qs / inject_Z (Z.of_nat (length qs))))
  | None => NaN
  end.

(** [np.sqrt(x)] for a non-negative rational. *)
Definition np_sqrt (x : Q) : fl := Fin (sqrtQ x).

End WithSqrt.

(** A Python value as the dictionaries of the code hold them. *)
Inductive pyval : Type :=
| VNone
| VNum (x : fl)
| VStr (s : string).

Definition dict : Type := list (string * pyval).

(** [d.get(k, default)] *)
Definition dict_get (d : dict) (k : string) (default : pyval) : pyval :=
  match lookup k d with
  | Some v => v
  | None => default
  end.

End Pandas.

(** ** Price series as the provider returns them *)

Module OHLCV.
Import Float Pandas.

(** One daily bar of [Ticker.history(...)] after [reset_index]. *)
Record Bar : Type := {
  date : string;
  open : Q;
  high : Q;
  low : Q;
  close : Q;
  volume : Z;
  dividends : Q;
  stock_splits : Q
}.

Definition num_column (f : Bar -> Q) (bars : list Bar) : list cell :=
  map (fun b => CNum (Fin (f b))) bars.

(** The DataFrame of a list of bars, oldest first. *)
Definition frame_of (bars : list Bar) : DataFrame :=
  [ ("Date", map (fun b => CStr (date b)) bars);
    ("Open", num_column open bars);
    ("High", num_column high bars);
    ("Low", num_column low bars);
    ("Close", num_column close bars);
    ("Volume", num_column (fun b => inject_Z (volume b)) bars);
    ("Dividends", num_column dividends bars);
    ("Stock Splits", num_column stock_splits bars) ]%string.

Definition closes (bars : list Bar) : Series :=
  map (fun b => Fin (close b)) bars.

End OHLCV.

(** ** Metrics and technical indicators ([utils/metrics_calculator.py]) *)

Module MetricsCalculator.
Import Float Pandas.
Local Open Scope string_scope.

Section WithLibraries.

Variable sqrtQ : Q -> Q.

(** [f"{x:.{prec}f}"]: the text of a number with [prec] decimals. *)
Variable format_fixed : nat -> fl -> string.

Definition _format_market_cap (market_cap : pyval) : result string :=
  match market_cap with
  | VNone => Ok "N/A"
  | VStr s =>
      if String.eqb s EmptyString then Ok "N/A" else Raise TypeError
  | VNum x =>
      if feqb x (Fin 0) then Ok "N/A"
      else if fge x (Fin 1000000000000) then
        Ok ("$" ++ format_fixed 2 (fdiv x (Fin 1000000000000)) ++ "T")
      else if fge x (Fin 1000000000) then
        Ok ("$" ++ format_fixed 2 (fdiv x (Fin 1000000000)) ++ "B")
      else if fge x (Fin 1000000) then
        Ok ("$" ++ format_fixed 2 (fdiv x (Fin 1000000)) ++ "M")
      else Ok ("$" ++ format_fixed 0 x)
  end.

Definition _format_percentage (value : pyval) : result string :=
  match value with
  | VNone => Ok "N/A"
  | VStr _ => Raise ValueError
  | VNum x =>
      if feqb x (Fin 0) then Ok "N/A"
      else Ok (format_fixed 2 (fmul x (Fin 100)) ++ "%")
  end.

Definition calculate_metrics (data : DataFrame) (info : dict) : result dict :=
  if empty data then Ok []
  else
    TRY
      (close <- get_num data "Close" ;;
       current_price <- iloc_neg 1 close ;;
       previous_price <-
         (if (1 <? len data)%nat then iloc_neg 2 close else Ok current_price) ;;
       let price_change := fsub current_price previous_price in
       let percent_change :=
         if fne previous_price (Fin 0)
         then fmul (fdiv price_change previous_price) (Fin 100)
         else Fin 0 in
       high <- get_num data "High" ;;
       let high_52w := series_max high in
       low <- get_num data "Low" ;;
       let low_52w := series_min low in
       volume <- get_num data "Volume" ;;
       let avg_volume := series_mean volume in
       current_volume <- iloc_neg 1 volume ;;
       market_cap <- _format_market_cap (dict_get info "marketCap" (VNum (Fin 0))) ;;
       int_volume <- py_int current_volume ;;
       int_avg_volume <- py_int avg_volume ;;
       dividend_yield <-
         _format_percentage (dict_get info "dividendYield" (VNum (Fin 0))) ;;
       Ok [ ("Current Price", VNum current_price);
            ("Price Change", VNum price_change);
            ("Percent Change", VNum percent_change);
            ("Volume", VNum (Fin (inject_Z int_volume)));
            ("Avg Volume", VNum (Fin (inject_Z int_avg_volume)));
            ("Market Cap", VStr market_cap);
            ("P/E Ratio", dict_get info "trailingPE" (VStr "N/A"));
            ("52W High", VNum high_52w);
            ("52W Low", VNum low_52w);
            ("Beta", dict_get info "beta" (VStr "N/A"));
            ("Dividend Yield", VStr dividend_yield) ])
    EXCEPT Ok [].

(** The two legs of [_calculate_rsi] and their rolling averages. *)
Definition gains (prices : Series) : Series :=
  where_ (fun d => fgt d (Fin 0)) (Fin 0) (diff prices).

Definition losses (prices : Series) : Series :=
  map fopp (where_ (fun d => flt d (Fin 0)) (Fin 0) (diff prices)).

Definition rsi_gain (period : nat) (prices : Series) : Series :=
  rolling_mean period (gains prices).

Definition rsi_loss (period : nat) (prices : Series) : Series :=
  rolling_mean period (losses prices).

Definition rsi_of_rs (rs : fl) : fl :=
  fsub (Fin 100) (fdiv (Fin 100) (fadd (Fin 1) rs)).

(** The value [_calculate_rsi] returns from the last rolling averages. *)
Definition rsi_result (g l : fl) : fl :=
  let r := rsi_of_rs (fdiv g l) in if negb (isnan r) then r else Fin 50.

Definition _calculate_rsi (prices : Series) (period : nat) : result fl :=
  TRY
    (let gain := rsi_gain period prices in
     let loss := rsi_loss period prices in
     let rs := zip_with fdiv gain loss in
     let rsi := map rsi_of_rs rs in
     last <- iloc_neg 1 rsi ;;
     Ok (if negb (isnan last) then last else Fin 50))
  EXCEPT Ok (Fin 50).

Definition _calculate_bollinger_bands (prices : Series) (period : nat)
    (std_dev : Q) : result (fl * fl) :=
  TRY
    (let sma := rolling_mean period prices in
     let std := rolling_std sqrtQ period prices in
     let upper_band :=
       zip_with fadd sma (map (fun x => fmul x (Fin std_dev)) std) in
     let lower_band :=
       zip_with fsub sma (map (fun x => fmul x (Fin std_dev)) std) in
     u <- iloc_neg 1 upper_band ;;
     l <- iloc_neg 1 lower_band ;;
     Ok (u, l))
  EXCEPT Ok (Fin 0, Fin 0).

Definition _calculate_macd (prices : Series) (fast slow signal : nat)
  : result (fl * fl) :=
  TRY
    (let ema_fast := ewm_mean fast prices in
     let ema_slow := ewm_mean slow prices in
     let macd_line := zip_with fsub ema_fast ema_slow in
     let macd_signal := ewm_mean signal macd_line in
     m <- iloc_neg 1 macd_line ;;
     s <- iloc_neg 1 macd_signal ;;
     Ok (m, s))
  EXCEPT Ok (Fin 0, Fin 0).

Definition calculate_technical_indicators (data : DataFrame) : result dict :=
  if empty data then Ok []
  else
    TRY
      (close <- get_num data "Close" ;;
       sma_20 <- iloc_neg 1 (rolling_mean 20 close) ;;
       sma_50 <- iloc_neg 1 (rolling_mean 50 close) ;;
       rsi <- _calculate_rsi close 14 ;;
       '(bb_upper, bb_lower) <- _calculate_bollinger_bands close 20 2 ;;
       '(macd_line, macd_signal) <- _calculate_macd close 12 26 9 ;;
       Ok [ ("sma_20", VNum (if negb (isnan sma_20) then sma_20 else Fin 0));
            ("sma_50", VNum (if negb (isnan sma_50) then sma_50 else Fin 0));
            ("rsi", VNum rsi);
            ("bb_upper", VNum bb_upper);
            ("bb_lower", VNum bb_lower);
            ("macd_line", VNum macd_line);
            ("macd_signal", VNum macd_signal) ])
    EXCEPT Ok [].

End WithLibraries.

(** The fields of [info] the formatting helpers read hold a number or
    [None], or are absent: never a text. *)
Definition not_text (v : option pyval) : Prop :=
  match v with
  | Some (VStr _) => False
  | _ => True
  end.

Definition info_numeric (info : dict) : Prop :=
  not_text (lookup "marketCap" info)
  /\ not_text (lookup "dividendYield" info).

(** The close before the last one of [pre ++ [b]]; the last one itself
    when there is no other. *)
Definition previous_close (pre : list OHLCV.Bar) (b : OHLCV.Bar) : Q :=
  match rev pre with
  | [] => OHLCV.close b
  | b2 :: _ => OHLCV.close b2
  end.

End MetricsCalculator.

(** ** Portfolio analytics ([utils/portfolio_manager.py]) *)

Module PortfolioManager.
Import Float Pandas.
Local Open Scope string_scope.
Local Open Scope list_scope.

(** [{'shares': ..., 'purchase_price': ...}] *)
Record Holding : Type := {
  shares : Q;
  purchase_price : Q
}.

Definition Holdings : Type := list (string * Holding).
Definition AllData : Type := list (string * DataFrame).

Definition investment_of (h : Holding) : Q := shares h * purchase_price h.

(** [sum(h['shares'] * h['purchase_price'] for h in holdings.values())] *)
Definition sum_investments (holdings : Holdings) : Q :=
  fold_left (fun acc kv => acc + investment_of (snd kv)) holdings 0.

(** The variables the loop of [calculate_portfolio_performance] updates.
    [weights_log] is a ghost variable: it records, in order, the [weight]
    computed in each iteration that found price data. *)
Record perf_acc : Type := {
  total_investment : Q;
  current_value : fl;
  total_shares : Q;
  weighted_returns : fl;
  weights_log : list (string * Q)
}.

Definition perf_init : perf_acc :=
  {| total_investment := 0; current_value := Fin 0; total_shares := 0;
     weighted_returns := Fin 0; weights_log := [] |}.

Definition perf_step (holdings : Holdings) (all_data : AllData)
    (acc : perf_acc) (kv : string * Holding) : result perf_acc :=
  let '(symbol, holding) := kv in
  match lookup symbol all_data with
  | None => Ok acc
  | Some df =>
      let shares := shares holding in
      let purchase_price := purchase_price holding in
      close <- get_num df "Close" ;;
      current_price <- iloc_neg 1 close ;;
      let investment := shares * purchase_price in
      let value := fmul (Fin shares) current_price in
      let stock_return :=
        fdiv (fsub current_price (Fin purchase_price)) (Fin purchase_price) in
      weight <- pydiv investment (sum_investments holdings) ;;
      Ok {| total_investment := total_investment acc + investment;
            current_value := fadd (current_value acc) value;
            total_shares := total_shares acc + shares;
            weighted_returns :=
              fadd (weighted_returns acc) (fmul stock_return (Fin weight));
            weights_log := weights_log acc ++ [(symbol, weight)] |}
  end.

Definition perf_loop (holdings : Holdings) (all_data : AllData)
  : result perf_acc :=
  foldM (perf_step holdings all_data) holdings perf_init.

(** The weights the loop used, one per holding that has price data. *)
Definition weights_used (holdings : Holdings) (all_data : AllData)
  : result (list (string * Q)) :=
  acc <- perf_loop holdings all_data ;; Ok (weights_log acc).

(** One iteration of the inner loop of [_calculate_portfolio_volatility]. *)
Definition daily_return_step (all_data : AllData) (total_investment : Q)
    (i : nat) (daily_return : fl) (kv : string * Holding) : result fl :=
  let '(symbol, holding) := kv in
  match lookup symbol all_data with
  | None => Ok daily_return
  | Some df =>
      if (i + 1 <? len df)%nat then
        weight <- pydiv (shares holding * purchase_price holding)
                        total_investment ;;
        close <- get_num df "Close" ;;
        price_today <- iloc_neg (i + 1) close ;;
        price_yesterday <- iloc_neg (i + 2) close ;;
        let stock_return :=
          fdiv (fsub price_today price_yesterday) price_yesterday in
        Ok (fadd daily_return (fmul (Fin weight) stock_return))
      else Ok daily_return
  end.

Definition daily_return (holdings : Holdings) (all_data : AllData)
    (total_investment : Q) (i : nat) : result fl :=
  foldM (daily_return_step all_data total_investment i) holdings (Fin 0).

(** [range(min(days, len(next(iter(all_data.values()))) - 1))]; a
    negative bound gives the empty range. *)
Definition volatility_days (all_data : AllData) (days : nat) : nat :=
  match all_data with
  | [] => O
  | (_, first) :: _ => Nat.min days (len first - 1)
  end.

(** The list [portfolio_returns] at the end of the loop. *)
Definition portfolio_returns (holdings : Holdings) (all_data : AllData)
    (days : nat) : result (list fl) :=
  mapM (daily_return holdings all_data (sum_investments holdings))
       (seq 0 (volatility_days all_data days)).

(** [range(min(len(data) for data in all_data.values()))] *)
Definition min_length (all_data : AllData) : nat :=
  match all_data with
  | [] => O
  | (_, first) :: rest =>
      fold_left (fun m kv => Nat.min m (len (snd kv))) rest (len first)
  end.

Definition daily_value_step (all_data : AllData) (i : nat)
    (daily_value : fl) (kv : string * Holding) : result fl :=
  let '(symbol, holding) := kv in
  match lookup symbol all_data with
  | None => Ok daily_value
  | Some df =>
      close <- get_num df "Close" ;;
      price <- iloc i close ;;
      Ok (fadd daily_value (fmul (Fin (shares holding)) price))
  end.

Definition daily_value (holdings : Holdings) (all_data : AllData) (i : nat)
  : result fl :=
  foldM (daily_value_step all_data i) holdings (Fin 0).

(** The list [portfolio_values] of [_calculate_max_drawdown]. *)
Definition portfolio_values (holdings : Holdings) (all_data : AllData)
  : result (list fl) :=
  mapM (daily_value holdings all_data) (seq 0 (min_length all_data)).

(** [np.maximum.accumulate] *)
Fixpoint maximum_accumulate_from (peak : fl) (l : list fl) : list fl :=
  match l with
  | [] => []
  | x :: l' => let p := fmax peak x in p :: maximum_accumulate_from p l'
  end.

Definition maximum_accumulate (l : list fl) : list fl :=
  match l with
  | [] => []
  | x :: l' => x :: maximum_accumulate_from x l'
  end.

(** [np.min] of a non-empty array. *)
Definition np_min (l : list fl) : fl :=
  match l with
  | [] => NaN
  | x :: l' => fold_left fmin l' x
  end.

(** One drawdown: [(value - peak) / peak]. *)
Definition drawdown (v p : fl) : fl := fdiv (fsub v p) p.

(** [(portfolio_values - peaks) / peaks] *)
Definition drawdowns_of (values : list fl) : list fl :=
  zip_with drawdown values (maximum_accumulate values).

Definition _calculate_max_drawdown (holdings : Holdings) (all_data : AllData)
  : result fl :=
  TRY
    (match holdings, all_data with
     | [], _ | _, [] => Ok (Fin 0)
     | _, _ =>
         values <- portfolio_values holdings all_data ;;
         let drawdowns := drawdowns_of values in
         Ok (if (0 <? length drawdowns)%nat then fabs (np_min drawdowns)
             else Fin 0)
     end)
  EXCEPT Ok (Fin 0).

Section WithSqrt.

Variable sqrtQ : Q -> Q.

Definition _calculate_portfolio_volatility (holdings : Holdings)
    (all_data : AllData) (days : nat) : result fl :=
  TRY
    (match holdings, all_data with
     | [], _ | _, [] => Ok (Fin 0)
     | _, _ =>
         returns <- portfolio_returns holdings all_data days ;;
         Ok (match returns with
             | [] => Fin 0
             | _ => fmul (np_std sqrtQ returns) (np_sqrt sqrtQ 252)
             end)
     end)
  EXCEPT Ok (Fin 0).

Definition risk_free_rate : Q := 2 # 100.

Definition calculate_portfolio_performance (holdings : Holdings)
    (all_data : AllData) : result dict :=
  TRY
    (acc <- perf_loop holdings all_data ;;
     let total_return :=
       fsub (current_value acc) (Fin (total_investment acc)) in
     let total_return_pct :=
       if Qlt_le_dec 0 (total_investment acc)
       then fmul (fdiv total_return (Fin (total_investment acc))) (Fin 100)
       else Fin 0 in
     portfolio_volatility <-
       _calculate_portfolio_volatility holdings all_data 30 ;;
     let sharpe_ratio :=
       if fgt portfolio_volatility (Fin 0)
       then fdiv (fsub (weighted_returns acc) (Fin risk_free_rate))
                 portfolio_volatility
       else Fin 0 in
     max_drawdown <- _calculate_max_drawdown holdings all_data ;;
     Ok [ ("total_investment", VNum (Fin (total_investment acc)));
          ("current_value", VNum (current_value acc));
          ("total_return", VNum total_return);
          ("total_return_pct", VNum total_return_pct);
          ("weighted_return_pct",
            VNum (fmul (weighted_returns acc) (Fin 100)));
          ("portfolio_volatility", VNum (fmul portfolio_volatility (Fin 100)));
          ("sharpe_ratio", VNum sharpe_ratio);
          ("max_drawdown", VNum (fmul max_drawdown (Fin 100)));
          ("number_of_stocks",
            VNum (Fin (inject_Z (Z.of_nat (length holdings))))) ])
  EXCEPT Ok [].

End WithSqrt.

(** The holding has price data. *)
Definition in_data (all_data : AllData) (kv : string * Holding) : bool :=
  mem (fst kv) all_data.

(** The holding's share of the investment of all holdings. *)
Definition weight_of (holdings : Holdings) (kv : string * Holding) : string * Q :=
  (fst kv, investment_of (snd kv) / sum_investments holdings).

(** The holding has price data reaching back [i + 1] days. *)
Definition has_day (all_data : AllData) (i : nat) (kv : string * Holding) : bool :=
  match lookup (fst kv) all_data with
  | Some df => (i + 1 <? len df)%nat
  | None => false
  end.

(** The holding's investment weight times its return of day [i], counted
    back from the last bar. *)
Definition weighted_day_return (all_data : AllData) (total_investment : Q)
    (i : nat) (kv : string * Holding) : result fl :=
  match lookup (fst kv) all_data with
  | None => Raise KeyError
  | Some df =>
      weight <- pydiv (investment_of (snd kv)) total_investment ;;
      close <- get_num df "Close" ;;
      price_today <- iloc_neg (i + 1) close ;;
      price_yesterday <- iloc_neg (i + 2) close ;;
      Ok (fmul (Fin weight)
            (fdiv (fsub price_today price_yesterday) price_yesterday))
  end.

(** The portfolio return of day [i] as the specification words it: the sum,
    over the holdings that have the day, of weight times single-day return. *)
Definition spec_daily_return (holdings : Holdings) (all_data : AllData)
    (i : nat) : result fl :=
  terms <- mapM (weighted_day_return all_data (sum_investments holdings) i)
                (filter (has_day all_data i) holdings) ;;
  Ok (fsum terms).

(** The price-data map of a list of named bar series. *)
Definition frames_of (series : list (string * list OHLCV.Bar)) : AllData :=
  map (fun sb => (fst sb, OHLCV.frame_of (snd sb))) series.


End PortfolioManager.

(** ** CSV export ([utils/data_exporter.py]) *)

Module DataExporter.
Import Float Pandas.
Local Open Scope string_scope.

(** The methods of [StockDataFetcher] and [CryptoDataFetcher] the
    exporter calls.  They wrap the market-data provider: each may return
    [None], an empty frame, or fail. *)
Record DataFetcher : Type := {
  get_stock_data : string -> string -> result (option DataFrame);
  get_stock_info : string -> result dict;
  get_crypto_data : string -> string -> result (option DataFrame)
}.

(** The text [to_csv] writes, line by line, each line as its fields: the
    header first.  Turning a field into characters ([float_format]) is
    not modelled.  The empty string is the text without lines. *)
Definition csv : Type := list (list cell).

Definition column_or_nan (df : DataFrame) (name : string) : list cell :=
  match lookup name df with
  | Some c => c
  | None => repeat (CNum NaN) (len df)
  end.

(** [pd.concat([top, bottom], ignore_index=True)]: the columns of [top],
    then those only [bottom] has; a frame lacking a column gets NaN. *)
Definition concat (top bottom : DataFrame) : DataFrame :=
  let names :=
    (map fst top ++ filter (fun n => negb (mem n top)) (map fst bottom))%list in
  map (fun n => (n, (column_or_nan top n ++ column_or_nan bottom n)%list)) names.

Definition row (df : DataFrame) (i : nat) : list cell :=
  map (fun col => nth i (snd col) (CNum NaN)) df.

(** [df.to_csv(buffer, index=False, float_format=...)] *)
Definition to_csv (df : DataFrame) : csv :=
  map (fun n => CStr n) (map fst df) :: map (row df) (seq 0 (len df)).

Definition scale (k : Q) (s : Series) : Series :=
  map (fun x => fmul x (Fin k)) s.

(** [s.cumprod()]: NaN is skipped and stays NaN in the output. *)
Fixpoint cumprod_from (acc : fl) (s : Series) : Series :=
  match s with
  | [] => []
  | x :: s' =>
      if isnan x then NaN :: cumprod_from acc s'
      else let acc' := fmul acc x in acc' :: cumprod_from acc' s'
  end.

Definition cumprod (s : Series) : Series := cumprod_from (Fin 1) s.

Section WithEnvironment.

Variable sqrtQ : Q -> Q.
Variable data_fetcher : DataFetcher.

(** [datetime.now().strftime('%Y-%m-%d %H:%M:%S')] *)
Variable now : string.

(** [str(v)], as an f-string interpolates a value. *)
Variable py_str : pyval -> string.

(** [df.sort_values(columns)] *)
Variable sort_values : list string -> DataFrame -> result DataFrame.

Definition metadata_row (symbol period : string) (info : dict) : DataFrame :=
  [ ("Date", [CStr "METADATA"]);
    ("Open", [CStr ("Company: " ++ py_str (dict_get info "longName" (VStr "N/A")))]);
    ("High", [CStr ("Sector: " ++ py_str (dict_get info "sector" (VStr "N/A")))]);
    ("Low", [CStr ("Industry: " ++ py_str (dict_get info "industry" (VStr "N/A")))]);
    ("Close", [CStr ("Market Cap: " ++ py_str (dict_get info "marketCap" (VStr "N/A")))]);
    ("Volume", [CStr ("Export Date: " ++ now)]);
    ("Dividends", [CStr ("Symbol: " ++ symbol)]);
    ("Stock Splits", [CStr ("Period: " ++ period)]);
    ("Daily_Change", [CStr "START_OF_DATA"]);
    ("Daily_Change_Pct", [CStr EmptyString]);
    ("Price_Range", [CStr EmptyString]);
    ("Price_Range_Pct", [CStr EmptyString]);
    ("MA_7", [CStr EmptyString]);
    ("MA_20", [CStr EmptyString]);
    ("MA_50", [CStr EmptyString]);
    ("Volatility_7d", [CStr EmptyString]);
    ("Volatility_20d", [CStr EmptyString]);
    ("Volume_MA_20", [CStr EmptyString]);
    ("Volume_Ratio", [CStr EmptyString]) ].

(** The enrichment of [export_stock_historical_data]: each assignment
    reads its operands from the frame as it is at that point. *)
Definition enrich (data : DataFrame) : result DataFrame :=
  let d := data in
  d <- (c <- get_num d "Close" ;; o <- get_num d "Open" ;;
        Ok (set_num d "Daily_Change" (zip_with fsub c o))) ;;
  d <- (c <- get_num d "Close" ;; o <- get_num d "Open" ;;
        o' <- get_num d "Open" ;;
        Ok (set_num d "Daily_Change_Pct"
              (scale 100 (zip_with fdiv (zip_with fsub c o) o')))) ;;
  d <- (h <- get_num d "High" ;; l <- get_num d "Low" ;;
        Ok (set_num d "Price_Range" (zip_with fsub h l))) ;;
  d <- (h <- get_num d "High" ;; l <- get_num d "Low" ;;
        l' <- get_num d "Low" ;;
        Ok (set_num d "Price_Range_Pct"
              (scale 100 (zip_with fdiv (zip_with fsub h l) l')))) ;;
  d <- (c <- get_num d "Close" ;; Ok (set_num d "MA_7" (rolling_mean 7 c))) ;;
  d <- (c <- get_num d "Close" ;; Ok (set_num d "MA_20" (rolling_mean 20 c))) ;;
  d <- (c <- get_num d "Close" ;; Ok (set_num d "MA_50" (rolling_mean 50 c))) ;;
  d <- (c <- get_num d "Close" ;;
        Ok (set_num d "Volatility_7d" (rolling_std sqrtQ 7 (pct_change c)))) ;;
  d <- (c <- get_num d "Close" ;;
        Ok (set_num d "Volatility_20d" (rolling_std sqrtQ 20 (pct_change c)))) ;;
  d <- (v <- get_num d "Volume" ;;
        Ok (set_num d "Volume_MA_20" (rolling_mean 20 v))) ;;
  d <- (v <- get_num d "Volume" ;; m <- get_num d "Volume_MA_20" ;;
        Ok (set_num d "Volume_Ratio" (zip_with fdiv v m))) ;;
  Ok d.

(** The derived columns, in the order [enrich] adds them. *)
Definition derived_columns (bars : list OHLCV.Bar) : DataFrame :=
  let o := map (fun b => Fin (OHLCV.open b)) bars in
  let h := map (fun b => Fin (OHLCV.high b)) bars in
  let l := map (fun b => Fin (OHLCV.low b)) bars in
  let c := OHLCV.closes bars in
  let v := map (fun b => Fin (inject_Z (OHLCV.volume b))) bars in
  [ ("Daily_Change", map CNum (zip_with fsub c o));
    ("Daily_Change_Pct", map CNum (scale 100 (zip_with fdiv (zip_with fsub c o) o)));
    ("Price_Range", map CNum (zip_with fsub h l));
    ("Price_Range_Pct", map CNum (scale 100 (zip_with fdiv (zip_with fsub h l) l)));
    ("MA_7", map CNum (rolling_mean 7 c));
    ("MA_20", map CNum (rolling_mean 20 c));
    ("MA_50", map CNum (rolling_mean 50 c));
    ("Volatility_7d", map CNum (rolling_std sqrtQ 7 (pct_change c)));
    ("Volatility_20d", map CNum (rolling_std sqrtQ 20 (pct_change c)));
    ("Volume_MA_20", map CNum (rolling_mean 20 v));
    ("Volume_Ratio", map CNum (zip_with fdiv v (rolling_mean 20 v))) ].

Definition export_stock_historical_data (symbol period : string)
  : result csv :=
  TRY
    (data <- get_stock_data data_fetcher symbol period ;;
     info <- get_stock_info data_fetcher symbol ;;
     match data with
     | None => Ok []
     | Some data =>
         if empty data then Ok []
         else
           export_data <- enrich data ;;
           let metadata_df := metadata_row symbol period info in
           let final_data := concat metadata_df export_data in
           Ok (to_csv final_data)
     end)
  EXCEPT Ok [].

Definition export_crypto_data (symbol period : string) : result csv :=
  TRY
    (data <- get_crypto_data data_fetcher symbol period ;;
     match data with
     | None => Ok []
     | Some data =>
         if empty data then Ok []
         else
           d <- (c <- get_num data "Close" ;;
                 Ok (set_num data "Daily_Return" (scale 100 (pct_change c)))) ;;
           d <- (c <- get_num d "Close" ;;
                 Ok (set_num d "Cumulative_Return"
                       (map (fun x => fsub x (Fin 1))
                          (cumprod (map (fadd (Fin 1)) (pct_change c)))))) ;;
           d <- (c <- get_num d "Close" ;;
                 Ok (set_num d "Rolling_Volatility"
                       (scale 100
                          (scale (sqrtQ 365)
                             (rolling_std sqrtQ 30 (pct_change c)))))) ;;
           Ok (to_csv d)
     end)
  EXCEPT Ok [].

(** The loop of [export_multiple_stocks_comparison]. *)
Definition comparison_step (period : string) (all_data : list DataFrame)
    (symbol : string) : result (list DataFrame) :=
  data <- get_stock_data data_fetcher symbol period ;;
  match data with
  | None => Ok all_data
  | Some data =>
      if empty data then Ok all_data
      else
        let d := setitem data "Symbol" (repeat (CStr symbol) (len data)) in
        c <- get_num d "Close" ;;
        let d := set_num d "Daily_Return" (scale 100 (pct_change c)) in
        Ok (all_data ++ [d])%list
  end.

Definition export_multiple_stocks_comparison (symbols : list string)
    (period : string) : result csv :=
  TRY
    (all_data <- foldM (comparison_step period) symbols [] ;;
     match all_data with
     | [] => Ok []
     | first :: rest =>
         let combined_data := fold_left concat rest first in
         combined_data <- sort_values ["Date"; "Symbol"] combined_data ;;
         Ok (to_csv combined_data)
     end)
  EXCEPT Ok [].

End WithEnvironment.

(** The provider has no series for the symbol: it answers [None], or an
    empty frame. *)
Definition no_series (fetcher : DataFetcher) (period symbol : string) : Prop :=
  get_stock_data fetcher symbol period = Ok None
  \/ exists data,
       get_stock_data fetcher symbol period = Ok (Some data)
       /\ empty data = true.

(** The header of the equities export, as the specification lists it. *)
Definition equities_header : list string :=
  [ "Date"; "Open"; "High"; "Low"; "Close"; "Volume"; "Dividends";
    "Stock Splits"; "Daily_Change"; "Daily_Change_Pct"; "Price_Range";
    "Price_Range_Pct"; "MA_7"; "MA_20"; "MA_50"; "Volatility_7d";
    "Volatility_20d"; "Volume_MA_20"; "Volume_Ratio" ].

(** Every column has [n] cells. *)
Definition well_formed (n : nat) (df : DataFrame) : Prop :=
  Forall (fun col => length (snd col) = n) df.

Definition in_header (name : string) : bool :=
  existsb (String.eqb name) equities_header.

(** The columns of a frame that the specification's header does not list. *)
Definition extra_columns (df : DataFrame) : list string :=
  filter (fun name => negb (in_header name)) (map fst df).

(** What an enrichment step keeps. *)
Definition kept (n : nat) (data d : DataFrame) : Prop :=
  well_formed n d /\ extra_columns d = extra_columns data.

End DataExporter.

(** ** Reference quantities for the properties below *)

Module Indicators.
Import Float OHLCV.

(** The mean of the last [w] closes. *)
Definition trailing_mean (w : nat) (bars : list Bar) : Q :=
  Qmean (skipn (length bars - w) (map close bars)).

End Indicators.

Module ValuationDefs.
Import Float Pandas OHLCV PortfolioManager.
Local Open Scope string_scope.
Local Open Scope list_scope.

(** The last close of a series of bars. *)
Definition last_close (bars : list Bar) : Q := last (map close bars) 0.

(** What a holding adds to the totals of the portfolio: nothing when its
    symbol has no price series. *)
Definition held_investment (series : list (string * list Bar))
    (kv : string * Holding) : Q :=
  match lookup (fst kv) series with
  | Some _ => investment_of (snd kv)
  | None => 0
  end.

Definition held_value (series : list (string * list Bar))
    (kv : string * Holding) : Q :=
  match lookup (fst kv) series with
  | Some bars => shares (snd kv) * last_close bars
  | None => 0
  end.



End ValuationDefs.

Module ExportedRows.
Import Float Pandas OHLCV.
Local Open Scope string_scope.

(** The cells of one bar, in the order of the columns of [frame_of]. *)
Definition bar_cells (b : Bar) : list cell :=
  [ CStr (date b); CNum (Fin (open b)); CNum (Fin (high b));
    CNum (Fin (low b)); CNum (Fin (close b));
    CNum (Fin (inject_Z (volume b))); CNum (Fin (dividends b));
    CNum (Fin (stock_splits b)) ].

(** The header of the crypto export of a series of bars. *)
Definition crypto_header : list string :=
  [ "Date"; "Open"; "High"; "Low"; "Close"; "Volume"; "Dividends";
    "Stock Splits"; "Daily_Return"; "Cumulative_Return"; "Rolling_Volatility" ].

End ExportedRows.

(** ** Python dictionaries as the session state holds them *)

Module PyDict.
Import Pandas.

Section Operations.
Context {V : Type}.

(** [d[k] = v]: a key that is present keeps its place, a new key goes
    to the end. *)
Fixpoint set (d : list (string * V)) (k : string) (v : V) : list (string * V) :=
  match d with
  | [] => [(k, v)]
  | (k', v') :: d' =>
      if String.eqb k k' then (k', v) :: d' else (k', v') :: set d' k v
  end.

(** [d.update(other)]: the entries of [other], in its order. *)
Definition update (d other : list (string * V)) : list (string * V) :=
  fold_left (fun acc kv => set acc (fst kv) (snd kv)) other d.

(** [del d[k]]: the key must be present.  Keys are unique, so dropping
    every entry of the key drops the one there is. *)
Definition del (d : list (string * V)) (k : string) : result (list (string * V)) :=
  if mem k d
  then Ok (filter (fun kv => negb (String.eqb k (fst kv))) d)
  else Raise KeyError.

End Operations.

End PyDict.

(** ** User preferences ([utils/cache_manager.py]) *)

Module UserPreferences.
Import Pandas.
Local Open Scope string_scope.

(** The values the settings page stores: texts and check boxes. *)
Inductive pref : Type :=
| PStr (s : string)
| PBool (b : bool).

Definition preferences : Type := list (string * pref).

(** [st.session_state]: the [user_preferences] key is absent ([None]) or
    bound to a dictionary. *)
Definition preference_state : Type := option preferences.

Definition save_user_preferences (new_preferences : preferences)
    (st : preference_state) : preference_state :=
  let current := match st with None => [] | Some d => d end in
  Some (PyDict.update current new_preferences).

Definition default_preferences : preferences :=
  [ ("theme", PStr "light");
    ("default_period", PStr "1y");
    ("auto_refresh", PBool false);
    ("show_technical_indicators", PBool true) ].

(** [st.session_state.get('user_preferences', {...})] *)
Definition get_user_preferences (st : preference_state) : preferences :=
  match st with
  | Some d => d
  | None => default_preferences
  end.

(** What the session holds for a key, without the defaults. *)
Definition stored (st : preference_state) (k : string) : option pref :=
  match st with
  | Some d => lookup k d
  | None => None
  end.

End UserPreferences.

(** ** Saved portfolios ([utils/portfolio_manager.py]) *)

Module PortfolioStore.
Import Pandas PortfolioManager.
Local Open Scope string_scope.

(** [{'holdings': ..., 'created_date': ..., 'last_updated': ...}] *)
Record portfolio_data : Type := {
  holdings : Holdings;
  created_date : string;
  last_updated : string
}.

Definition portfolios : Type := list (string * portfolio_data).

(** [st.session_state]: the [user_portfolios] key is absent or bound to
    the dictionary of the saved portfolios. *)
Definition portfolio_state : Type := option portfolios.

(** [save_portfolio]; [t1] and [t2] are what the two calls of
    [datetime.now().isoformat()] return.  The new state and the result. *)
Definition save_portfolio (t1 t2 : string) (name : string)
    (held : Holdings) (st : portfolio_state) : result (portfolio_state * bool) :=
  TRY
    (let store := match st with None => [] | Some d => d end in
     let portfolio_data :=
       {| holdings := held; created_date := t1; last_updated := t2 |} in
     Ok (Some (PyDict.set store name portfolio_data), true))
  EXCEPT Ok (st, false).

Definition load_portfolio (name : string) (st : portfolio_state)
  : result (option portfolio_data) :=
  TRY
    (match st with
     | Some d => Ok (lookup name d)
     | None => Ok None
     end)
  EXCEPT Ok None.

Definition get_all_portfolios (st : portfolio_state) : portfolios :=
  match st with
  | Some d => d
  | None => []
  end.

Definition delete_portfolio (name : string) (st : portfolio_state)
  : result (portfolio_state * bool) :=
  TRY
    (match st with
     | Some d =>
         if mem name d
         then d' <- PyDict.del d name ;; Ok (Some d', true)
         else Ok (st, false)
     | None => Ok (st, false)
     end)
  EXCEPT Ok (st, false).

End PortfolioStore.

(** ** The data fetchers ([utils/data_fetcher.py], [utils/crypto_fetcher.py]) *)

Module Fetchers.
Import Float Pandas.
Local Open Scope string_scope.

(** What [Ticker.history] returns: a frame with its index; the index has
    a name, [Date] for daily bars. *)
Record History : Type := {
  index_name : string;
  index : list cell;
  columns : DataFrame
}.

(** [yf.Ticker(symbol).history(period=period, interval="1d")] and
    [yf.Ticker(symbol).info]: the provider may fail. *)
Record Provider : Type := {
  history : string -> string -> result History;
  info : string -> result dict
}.

(** [data.empty]: no rows, or no columns. *)
Definition history_empty (h : History) : bool :=
  (length (index h) =? 0)%nat
  || match columns h with [] => true | _ :: _ => false end.

(** [data.reset_index(inplace=True)]: the index becomes the first
    column; a column of that name must not exist. *)
Definition reset_index (h : History) : result DataFrame :=
  if mem (index_name h) (columns h) then Raise ValueError
  else Ok ((index_name h, index h) :: columns h).

(** [get_stock_data].  Its [st.cache_data] decorator keeps an answer for
    some minutes; the provider being a function of the symbol and the
    period here, the answer kept is the answer computed. *)
Definition get_stock_data (p : Provider) (symbol period : string)
  : result (option DataFrame) :=
  TRY
    (data <- history p symbol period ;;
     if history_empty data then Ok None
     else
       data <- reset_index data ;;
       Ok (Some data))
  EXCEPT Ok None.

Definition get_stock_info (p : Provider) (symbol : string) : result dict :=
  TRY (info p symbol) EXCEPT Ok [].

(** The loop of [get_multiple_stocks_data]. *)
Definition multiple_step (p : Provider) (period : string)
    (results : list (string * DataFrame)) (symbol : string)
  : result (list (string * DataFrame)) :=
  data <- get_stock_data p symbol period ;;
  match data with
  | Some data => Ok (PyDict.set results symbol data)
  | None => Ok results
  end.

Definition get_multiple_stocks_data (p : Provider) (symbols : list string)
    (period : string) : result (list (string * DataFrame)) :=
  foldM (multiple_step p period) symbols [].

(** [s.endswith(suffix)] *)
Definition endswith (s suffix : string) : bool :=
  let n := String.length s in
  let m := String.length suffix in
  (m <=? n)%nat && String.eqb (substring (n - m) m s) suffix.

(** The symbol [get_crypto_data] asks the provider for. *)
Definition crypto_symbol (symbol : string) : string :=
  if negb (endswith symbol "-USD") then symbol ++ "-USD" else symbol.

Definition get_crypto_data (p : Provider) (symbol period : string)
  : result (option DataFrame) :=
  TRY
    (let symbol := crypto_symbol symbol in
     data <- history p symbol period ;;
     if history_empty data then Ok None
     else
       data <- reset_index data ;;
       Ok (Some data))
  EXCEPT Ok None.

(** The fetchers as the exporter uses them. *)
Definition fetcher_of (p : Provider) : DataExporter.DataFetcher :=
  {| DataExporter.get_stock_data := get_stock_data p;
     DataExporter.get_stock_info := get_stock_info p;
     DataExporter.get_crypto_data := get_crypto_data p |}.

(** The history of a series of bars: the dates are the index. *)
Definition history_of (bars : list OHLCV.Bar) : History :=
  {| index_name := "Date";
     index := map (fun b => CStr (OHLCV.date b)) bars;
     columns := tl (OHLCV.frame_of bars) |}.

(** What [get_stock_data] hands to its caller. *)
Definition fetched (p : Provider) (period symbol : string) : option DataFrame :=
  match get_stock_data p symbol period with
  | Ok r => r
  | Raise _ => None
  end.

End Fetchers.

(** ** The REST service ([backend/app.py]) *)

Module Backend.
Import Float Pandas PortfolioManager Fetchers.
Local Open Scope string_scope.

(** One row of [data.to_dict('records')]. *)
Definition record : Type := list (string * cell).

Definition to_records (df : DataFrame) : list record :=
  map (fun i => map (fun col => (fst col, nth i (snd col) (CNum NaN))) df)
    (seq 0 (len df)).

(** [DataService.get_stock_data] *)
Definition service_get_stock_data (p : Provider) (symbol period : string)
  : result (option (list record)) :=
  TRY
    (data <- history p symbol period ;;
     if history_empty data then Ok None
     else
       data <- reset_index data ;;
       Ok (Some (to_records data)))
  EXCEPT Ok None.

(** The variables the loop of [calculate_portfolio] updates. *)
Record totals : Type := {
  total_investment : Q;
  current_value : fl
}.

(** [data[-1]['Close']] of a non-empty list of records. *)
Definition last_close_of (data : list record) : result fl :=
  match nth_error data (length data - 1) with
  | Some row =>
      match lookup "Close" row with
      | Some c => as_float c
      | None => Raise KeyError
      end
  | None => Raise IndexError
  end.

(** One iteration of the loop of [calculate_portfolio]; [if data:]
    holds for a list of records that is not empty. *)
Definition portfolio_step (p : Provider) (acc : totals)
    (kv : string * Holding) : result totals :=
  let '(symbol, holding) := kv in
  let shares := shares holding in
  let purchase_price := purchase_price holding in
  data <- service_get_stock_data p symbol "1mo" ;;
  match data with
  | Some ((_ :: _) as data) =>
      current_price <- last_close_of data ;;
      let investment := shares * purchase_price in
      let value := fmul (Fin shares) current_price in
      Ok {| total_investment := total_investment acc + investment;
            current_value := fadd (current_value acc) value |}
  | _ => Ok acc
  end.

(** The JSON object [calculate_portfolio] answers with; an exception is
    the error answer of the server. *)
Definition calculate_portfolio (p : Provider) (holdings : Holdings)
  : result dict :=
  acc <- foldM (portfolio_step p) holdings
           {| total_investment := 0; current_value := Fin 0 |} ;;
  let total_return := fsub (current_value acc) (Fin (total_investment acc)) in
  let return_pct :=
    if Qlt_le_dec 0 (total_investment acc)
    then fmul (fdiv total_return (Fin (total_investment acc))) (Fin 100)
    else Fin 0 in
  Ok [ ("total_investment", VNum (Fin (total_investment acc)));
       ("current_value", VNum (current_value acc));
       ("total_return", VNum total_return);
       ("return_pct", VNum return_pct) ].

(** The provider has exactly the given series, for every period: for
    any other symbol it fails or returns an empty history. *)
Definition serves (p : Provider) (series : list (string * list OHLCV.Bar))
  : Prop :=
  forall symbol period,
    match lookup symbol series with
    | Some bars => history p symbol period = Ok (history_of bars)
    | None =>
        forall h, history p symbol period = Ok h -> history_empty h = true
    end.

End Backend.

(** ** Price statistics and portfolio metrics ([utils/metrics_calculator.py]) *)

Module PriceStatistics.
Import Float Pandas PortfolioManager.
Local Open Scope string_scope.

(** The values in ascending order, as a sort of values without NaN
    leaves them. *)
Fixpoint insert_sorted (x : fl) (l : list fl) : list fl :=
  match l with
  | [] => [x]
  | y :: l' => if flt y x then y :: insert_sorted x l' else x :: l
  end.

Definition sorted (l : list fl) : list fl := fold_right insert_sorted [] l.

(** [s.median()]: NaN is skipped; the middle value, or the mean of the
    two middle values. *)
Definition series_median (s : Series) : fl :=
  let v := sorted (dropna s) in
  let n := length v in
  if (n =? 0)%nat then NaN
  else if Nat.even n
       then fdiv (fadd (nth (n / 2 - 1) v NaN) (nth (n / 2) v NaN)) (Fin 2)
       else nth (n / 2) v NaN.

Section WithSqrt.
Variable sqrtQ : Q -> Q.

(** [s.std()]: the sample standard deviation of the values that are not
    NaN; NaN when fewer than two are left, or when one is infinite. *)
Definition series_std (s : Series) : fl :=
  match all_finite (dropna s) with
  | Some qs => Qstd_sample sqrtQ qs
  | None => NaN
  end.

Definition calculate_price_statistics (data : DataFrame) : result dict :=
  if empty data then Ok []
  else
    TRY
      (close <- get_num data "Close" ;;
       current_price <- iloc_neg 1 close ;;
       high <- get_num data "High" ;;
       low <- get_num data "Low" ;;
       volume <- get_num data "Volume" ;;
       close' <- get_num data "Close" ;;
       Ok [ ("current_price", VNum current_price);
            ("high_52w", VNum (series_max high));
            ("low_52w", VNum (series_min low));
            ("avg_volume", VNum (series_mean volume));
            ("price_volatility",
              VNum (fmul (fmul (series_std (pct_change close'))
                            (np_sqrt sqrtQ 252))
                      (Fin 100)));
            ("avg_price", VNum (series_mean close'));
            ("median_price", VNum (series_median close')) ])
    EXCEPT Ok [].

End WithSqrt.

(** [weights[symbol]] *)
Definition weight_at (weights : list (string * Q)) (symbol : string) : result Q :=
  match lookup symbol weights with
  | Some w => Ok w
  | None => Raise KeyError
  end.

(** One iteration of the loop of [calculate_portfolio_metrics]: the
    running [portfolio_returns] and [portfolio_value]. *)
Definition metrics_step (weights : list (string * Q)) (acc : fl * fl)
    (kv : string * DataFrame) : result (fl * fl) :=
  let '(symbol, data) := kv in
  if mem symbol weights then
    close <- get_num data "Close" ;;
    current_price <- iloc_neg 1 close ;;
    initial_price <- iloc 0 close ;;
    let stock_return :=
      fdiv (fsub current_price initial_price) initial_price in
    w <- weight_at weights symbol ;;
    w' <- weight_at weights symbol ;;
    Ok (fadd (fst acc) (fmul stock_return (Fin w)),
        fadd (snd acc) (fmul current_price (Fin w')))
  else Ok acc.

(** [{symbol: 1.0/len(all_data) for symbol in all_data.keys()}] *)
Definition equal_weights (all_data : AllData) : result (list (string * Q)) :=
  mapM (fun kv =>
          w <- pydiv 1 (inject_Z (Z.of_nat (length all_data))) ;;
          Ok (fst kv, w))
       all_data.

Definition calculate_portfolio_metrics (all_data : AllData)
    (weights : option (list (string * Q))) : result dict :=
  match all_data with
  | [] => Ok []
  | _ :: _ =>
      TRY
        (weights <-
           match weights with
           | None => equal_weights all_data
           | Some w => Ok w
           end ;;
         acc <- foldM (metrics_step weights) all_data (Fin 0, Fin 0) ;;
         Ok [ ("portfolio_return", VNum (fmul (fst acc) (Fin 100)));
              ("portfolio_value", VNum (snd acc));
              ("num_stocks",
                VNum (Fin (inject_Z (Z.of_nat (length all_data))))) ])
      EXCEPT Ok []
  end.

(** The first close of a series of bars. *)
Definition first_close (bars : list OHLCV.Bar) : Q :=
  hd 0 (map OHLCV.close bars).

(** The return of a series over its whole span. *)
Definition span_return (bars : list OHLCV.Bar) : Q :=
  (ValuationDefs.last_close bars - first_close bars) / first_close bars.

End PriceStatistics.

(** ** The data of the portfolio charts ([utils/portfolio_manager.py]) *)

Module PortfolioCharts.
Import Float Pandas PortfolioManager.
Local Open Scope string_scope.
Local Open Scope list_scope.

Definition color_palette : list string :=
  [ "#0052CC"; "#00875A"; "#DE350B"; "#8777D9"; "#FFC400";
    "#6554C0"; "#00B8D9"; "#36B37E"; "#FF8B00"; "#FF5630" ].

(** The pie trace of the allocation chart: the lists [go.Pie] is given.
    The figure around it, its layout and its texts are constants of the
    plotting library and not part of the model. *)
Record Pie : Type := {
  labels : list string;
  values : list fl;
  marker_colors : list string
}.

(** [enumerate(d.items())] *)
Definition enumerate {A : Type} (l : list A) : list (nat * A) :=
  combine (seq 0 (length l)) l.

(** [color_palette[i % len(color_palette)]] *)
Definition color_at (i : nat) : result string :=
  match nth_error color_palette (i mod length color_palette) with
  | Some c => Ok c
  | None => Raise IndexError
  end.

Definition allocation_step (all_data : AllData) (acc : Pie)
    (ikv : nat * (string * Holding)) : result Pie :=
  let '(i, (symbol, holding)) := ikv in
  match lookup symbol all_data with
  | None => Ok acc
  | Some df =>
      close <- get_num df "Close" ;;
      current_price <- iloc_neg 1 close ;;
      let value := fmul (Fin (shares holding)) current_price in
      color <- color_at i ;;
      Ok {| labels := labels acc ++ [symbol];
            values := values acc ++ [value];
            marker_colors := marker_colors acc ++ [color] |}
  end.

(** [generate_portfolio_allocation_chart]: the trace of the figure it
    returns, [None] when it returns [None]. *)
Definition generate_portfolio_allocation_chart (holdings : Holdings)
    (all_data : AllData) : result (option Pie) :=
  TRY
    (pie <- foldM (allocation_step all_data) (enumerate holdings)
              {| labels := []; values := []; marker_colors := [] |} ;;
     Ok (Some pie))
  EXCEPT Ok None.






(** The position of a holding among the holdings decides its colour. *)
Definition slice_color (ikv : nat * (string * Holding)) : string :=
  nth (fst ikv mod 10) color_palette EmptyString.






End PortfolioCharts.

(** ** Concrete libraries, to run the model *)

Module Concrete.
Import Float Pandas.
Local Open Scope string_scope.

(** The square root, truncated to six decimals. *)
Definition sqrt6 (q : Q) : Q :=
  inject_Z (Z.sqrt (Qnum q * 10 ^ 12 / Zpos (Qden q))) / inject_Z (10 ^ 6).

(** Rounding to the nearest integer, ties to even. *)
Definition round_half_even (q : Q) : Z :=
  let n := Qnum q in
  let d := Zpos (Qden q) in
  let fl := (n / d)%Z in
  let r := (2 * (n mod d))%Z in
  if (r <? d)%Z then fl
  else if (d <? r)%Z then (fl + 1)%Z
  else if Z.even fl then fl else (fl + 1)%Z.

Definition digits (z : Z) : string := NilZero.string_of_int (Z.to_int z).

Fixpoint zeros (n : nat) : string :=
  match n with
  | O => EmptyString
  | S n' => "0" ++ zeros n'
  end.

(** ["%.{prec}f" % x] on an exact rational. *)
Definition format_fixed (prec : nat) (x : fl) : string :=
  match x with
  | NaN => "nan"
  | PInf => "inf"
  | NInf => "-inf"
  | Fin q =>
      let p := (10 ^ Z.of_nat prec)%Z in
      let scaled := round_half_even (q * inject_Z p) in
      let a := Z.abs scaled in
      let frac := digits (a mod p) in
      (if (Qnum q <? 0)%Z then "-" else EmptyString)
      ++ digits (a / p)
      ++ match prec with
         | O => EmptyString
         | _ => "." ++ zeros (prec - String.length frac) ++ frac
         end
  end.

(** [str(v)] *)
Definition py_str (v : pyval) : string :=
  match v with
  | VNone => "None"
  | VNum x => format_fixed 1 x
  | VStr s => s
  end.

Definition bar (d : string) (o h l c : Q) (v : Z) : OHLCV.Bar :=
  {| OHLCV.date := d; OHLCV.open := o; OHLCV.high := h; OHLCV.low := l;
     OHLCV.close := c; OHLCV.volume := v;
     OHLCV.dividends := 0; OHLCV.stock_splits := 0 |}.

(** A bar that closes at [c]. *)
Definition flat_bar (c : Q) : OHLCV.Bar := bar "d" c c c c 1000.

(** Scenario 1 of the specification. *)
Definition scenario1 : list OHLCV.Bar :=
  [ bar "d1" 100 105 99 102 1000; bar "d2" 102 103 100 101 1200 ].

(** Fifteen closes rising by one each day. *)
Definition rising : Series :=
  map (fun z => Fin (inject_Z z)) [1; 2; 3; 4; 5; 6; 7; 8; 9; 10; 11; 12; 13; 14; 15]%Z.

Definition holding (n p : Q) : PortfolioManager.Holding :=
  {| PortfolioManager.shares := n; PortfolioManager.purchase_price := p |}.

Definition two_holdings : PortfolioManager.Holdings :=
  [ ("A", holding 1 100); ("B", holding 3 100) ].

(** Scenario 3 of the specification. *)
Definition scenario3_holdings : PortfolioManager.Holdings :=
  [ ("AAPL", holding 10 150) ].

Definition scenario3_data : PortfolioManager.AllData :=
  [ ("AAPL", OHLCV.frame_of [flat_bar 165]) ].

(** Two bars for the holding of scenario 3: one day of returns. *)
Definition two_bar_data : PortfolioManager.AllData :=
  [ ("AAPL", OHLCV.frame_of [flat_bar 150; flat_bar 165]) ].

(** Price data whose first series is longer than its second. *)
Definition uneven_data : PortfolioManager.AllData :=
  [ ("A", OHLCV.frame_of [flat_bar 1; flat_bar 2; flat_bar 3; flat_bar 4]);
    ("B", OHLCV.frame_of [flat_bar 1; flat_bar 2]) ].

(** Price data for a symbol that is not held. *)
Definition unrelated_data : PortfolioManager.AllData :=
  [ ("MSFT", OHLCV.frame_of [flat_bar 10]) ].

(** A provider that has the series of scenario 1 and nothing else. *)
Definition scenario_fetcher : DataExporter.DataFetcher :=
  {| DataExporter.get_stock_data := fun _ _ => Ok (Some (OHLCV.frame_of scenario1));
     DataExporter.get_stock_info := fun _ => Ok [];
     DataExporter.get_crypto_data := fun _ _ => Ok None |}.

(** A provider that has no series at all. *)
Definition empty_fetcher : DataExporter.DataFetcher :=
  {| DataExporter.get_stock_data := fun _ _ => Ok None;
     DataExporter.get_stock_info := fun _ => Ok [];
     DataExporter.get_crypto_data := fun _ _ => Ok None |}.

End Concrete.

(** ** Sample inputs *)

Module Samples.
Import Float Pandas Concrete.
Local Open Scope string_scope.
Local Open Scope list_scope.

(** Twenty-one bars closing at 1, 2, ..., 21. *)
Definition rising_bars : list OHLCV.Bar :=
  map (fun z => flat_bar (inject_Z z))
    [1; 2; 3; 4; 5; 6; 7; 8; 9; 10; 11; 12; 13; 14; 15; 16; 17; 18; 19; 20; 21]%Z.

(** Fifteen rising closes, then a fall by one. *)
Definition falling_last : Series := rising ++ [Fin 14].

(** Two series for the symbols of [two_holdings]. *)
Definition two_series : list (string * list OHLCV.Bar) :=
  [ ("A", [flat_bar 100; flat_bar 110]); ("B", [flat_bar 90]) ].


(** Holdings that cost nothing. *)
Definition free_holdings : PortfolioManager.Holdings :=
  [ ("A", holding 5 0) ].

(** A provider that has exactly the given series, whatever the period. *)
Definition provider_of (series : list (string * list OHLCV.Bar))
  : Fetchers.Provider :=
  {| Fetchers.history := fun symbol _ =>
       match lookup symbol series with
       | Some bars => Ok (Fetchers.history_of bars)
       | None => Raise KeyError
       end;
     Fetchers.info := fun _ => Ok [] |}.

Definition two_series_provider : Fetchers.Provider := provider_of two_series.

(** A provider that has the series of scenario 1 as a crypto pair. *)
Definition crypto_provider : Fetchers.Provider :=
  provider_of [ ("BTC-USD", scenario1) ].

(** The series of scenario 1 with a column the header does not list. *)
Definition adjusted_frame : DataFrame :=
  OHLCV.frame_of scenario1
  ++ [ ("Adj Close", OHLCV.num_column OHLCV.close scenario1) ].

Definition adjusted_fetcher : DataExporter.DataFetcher :=
  {| DataExporter.get_stock_data := fun _ _ => Ok (Some adjusted_frame);
     DataExporter.get_stock_info := fun _ => Ok [];
     DataExporter.get_crypto_data := fun _ _ => Ok None |}.

(** [sort_values] that leaves the rows as they are. *)
Definition unsorted (columns : list string) (df : DataFrame) : result DataFrame :=
  Ok df.

End Samples.

(** * Properties *)

Module ResultFacts.

Lemma mapM_length {A B} (f : A -> result B) l bs :
  mapM f l = Ok bs -> length bs = length l.
Proof.
  revert bs; induction l as [|a l IH]; simpl; intros bs H.
  - now inversion H.
  - destruct (f a); simpl in H; [|discriminate].
    destruct (mapM f l); simpl in H; [|discriminate].
    inversion H; subst; simpl. now rewrite (IH _ eq_refl).
Qed.

Lemma catch_ok {A : Type} (body : result A) (a : A) :
  exists v, catch body (Ok a) = Ok v.
Proof. destruct body; simpl; eauto. Qed.

End ResultFacts.

Module PandasFacts.
Import Float Pandas OHLCV.

Lemma iloc_neg_last (l : Series) (x : fl) : iloc_neg 1 (l ++ [x]) = Ok x.
Proof.
  unfold iloc_neg. rewrite length_app. cbn [length].
  replace (length l + 1 - 1)%nat with (length l) by lia.
  rewrite nth_error_app2, Nat.sub_diag by lia. cbn [nth_error].
  replace ((1 <=? 1) && (1 <=? length l + 1))%nat with true; [reflexivity|].
  symmetry. apply andb_true_iff. split; apply Nat.leb_le; lia.
Qed.

Lemma iloc_neg_last2 (l : Series) (y x : fl) : iloc_neg 2 (l ++ [y; x]) = Ok y.
Proof.
  unfold iloc_neg. rewrite length_app. cbn [length].
  replace (length l + 2 - 2)%nat with (length l) by lia.
  rewrite nth_error_app2, Nat.sub_diag by lia. cbn [nth_error].
  replace ((1 <=? 2) && (2 <=? length l + 2))%nat with true; [reflexivity|].
  symmetry. apply andb_true_iff. split; apply Nat.leb_le; lia.
Qed.

Lemma mapM_num_column (f : Bar -> Q) (bars : list Bar) :
  mapM as_float (num_column f bars) = Ok (map (fun b => Fin (f b)) bars).
Proof.
  unfold num_column.
  induction bars as [|b bars IH]; simpl; [reflexivity|].
  now rewrite IH.
Qed.

Lemma len_frame_of (bars : list Bar) : len (frame_of bars) = length bars.
Proof. simpl. apply length_map. Qed.

Lemma get_num_frame_close bars : get_num (frame_of bars) "Close" = Ok (closes bars).
Proof.
  unfold get_num, getitem. cbn [frame_of lookup]. simpl.
  apply mapM_num_column.
Qed.

Lemma get_num_frame_high bars :
  get_num (frame_of bars) "High" = Ok (map (fun b => Fin (high b)) bars).
Proof.
  unfold get_num, getitem. cbn [frame_of lookup]. simpl.
  apply mapM_num_column.
Qed.

Lemma get_num_frame_low bars :
  get_num (frame_of bars) "Low" = Ok (map (fun b => Fin (low b)) bars).
Proof.
  unfold get_num, getitem. cbn [frame_of lookup]. simpl.
  apply mapM_num_column.
Qed.

Lemma get_num_frame_volume bars :
  get_num (frame_of bars) "Volume"
  = Ok (map (fun b => Fin (inject_Z (volume b))) bars).
Proof.
  unfold get_num, getitem. cbn [frame_of lookup]. simpl.
  apply mapM_num_column.
Qed.

Lemma fsum_from_finite (l : list Q) (a : Q) :
  finite (fold_left fadd (map Fin l) (Fin a)).
Proof.
  revert a; induction l as [|q l IH]; intros a; simpl; [now exists a|].
  apply IH.
Qed.

Lemma dropna_finite (l : list Q) : dropna (map Fin l) = map Fin l.
Proof.
  unfold dropna. induction l as [|q l IH]; simpl; [reflexivity|].
  now rewrite IH.
Qed.

Lemma series_mean_finite (l : list Q) : l <> [] -> finite (series_mean (map Fin l)).
Proof.
  intros Hne. unfold series_mean. rewrite dropna_finite.
  destruct l as [|q l]; [congruence|]. cbn [map].
  unfold fsum. destruct (fsum_from_finite (q :: l) 0) as [s Hs].
  cbn [map] in Hs. rewrite Hs. unfold fdiv.
  destruct (Qeq_bool _ 0) eqn:E; [|now eexists].
  apply Qeq_bool_eq in E. exfalso.
  cbn [length] in E. unfold Qeq in E. simpl in E. lia.
Qed.

End PandasFacts.

Module MetricsFacts.
Import Float Pandas OHLCV MetricsCalculator PandasFacts.
Local Open Scope string_scope.
Local Open Scope list_scope.

Section WithFormat.
Variable format_fixed : nat -> fl -> string.

Lemma format_market_cap_ok info :
  not_text (lookup "marketCap" info) ->
  exists s,
    _format_market_cap format_fixed (dict_get info "marketCap" (VNum (Fin 0)))
    = Ok s.
Proof.
  unfold dict_get.
  destruct (lookup "marketCap" info) as [[| x | s]|]; simpl; intros H.
  - now eexists.
  - destruct (feqb x (Fin 0)); [now eexists|].
    destruct (fge x _); [now eexists|].
    destruct (fge x _); [now eexists|].
    destruct (fge x _); now eexists.
  - contradiction.
  - now eexists.
Qed.

Lemma format_percentage_ok info :
  not_text (lookup "dividendYield" info) ->
  exists s,
    _format_percentage format_fixed
      (dict_get info "dividendYield" (VNum (Fin 0)))
    = Ok s.
Proof.
  unfold dict_get.
  destruct (lookup "dividendYield" info) as [[| x | s]|]; simpl; intros H.
  - now eexists.
  - destruct (feqb x (Fin 0)); now eexists.
  - contradiction.
  - now eexists.
Qed.

Lemma calculate_metrics_entries (pre : list Bar) (b : Bar) (info : dict) :
  info_numeric info ->
  exists m,
    calculate_metrics format_fixed (frame_of (pre ++ [b])) info = Ok m
    /\ m <> []
    /\ lookup "Price Change" m
       = Some (VNum (Fin (close b - previous_close pre b)))
    /\ lookup "Percent Change" m
       = Some (VNum (if fne (Fin (previous_close pre b)) (Fin 0)
                     then Fin ((close b - previous_close pre b)
                               / previous_close pre b * 100)
                     else Fin 0)).
Proof.
  intros [Hmc Hdy].
  destruct (format_market_cap_ok info Hmc) as [mc Emc].
  destruct (format_percentage_ok info Hdy) as [dy Edy].
  unfold calculate_metrics.
  assert (Hlen : len (frame_of (pre ++ [b])) = S (length pre)).
  { rewrite len_frame_of, length_app. simpl. lia. }
  unfold empty. rewrite Hlen. cbn [Nat.eqb].
  rewrite get_num_frame_close, get_num_frame_high, get_num_frame_low,
    get_num_frame_volume.
  cbn [bind]. unfold closes.
  rewrite !map_app. cbn [map]. rewrite !iloc_neg_last. cbn [bind].
  assert (Hprev :
    (if (1 <? S (length pre))%nat
     then iloc_neg 2 (map (fun b0 => Fin (close b0)) pre ++ [Fin (close b)])
     else Ok (Fin (close b)))
    = Ok (Fin (previous_close pre b))).
  { unfold previous_close.
    destruct pre as [|p pre'] using rev_ind; [reflexivity|].
    rewrite rev_app_distr. cbn [rev app].
    rewrite length_app. cbn [length].
    replace (1 <? S (length pre' + 1))%nat with true
      by (symmetry; apply Nat.ltb_lt; lia).
    rewrite map_app. cbn [map]. rewrite <- app_assoc. cbn [app].
    apply iloc_neg_last2. }
  rewrite Hprev. cbn [bind]. rewrite Emc. cbn [bind py_int].
  destruct (series_mean_finite (map (fun b0 => inject_Z (volume b0)) (pre ++ [b])))
    as [avg Eavg].
  { destruct pre; discriminate. }
  rewrite map_map, map_app in Eavg. cbn [map] in Eavg. rewrite Eavg.
  cbn [bind py_int]. rewrite Edy. cbn [bind catch].
  eexists. split; [reflexivity|]. split; [discriminate|].
  split; [reflexivity|].
  cbn [lookup String.eqb Ascii.eqb Bool.eqb]. unfold fne, feqb, fdiv.
  cbn [fsub fopp fadd].
  destruct (Qeq_bool (previous_close pre b) 0); reflexivity.
Qed.
(** C1: for a series of at least two bars with positive closes,
    [calculate_metrics] reports as Price Change the last close minus the
    one before, and as Percent Change that difference divided by the close
    before, times 100; for a series of one bar both are 0; and the result is
    the empty mapping only for the empty series.  The fields of [info] the
    formatting helpers read are numbers, [None] or absent. *)
Theorem calculate_metrics_change (bars : list Bar) (info : dict) :
  info_numeric info ->
  exists m,
    calculate_metrics format_fixed (frame_of bars) info = Ok m
    /\ (m = [] <-> bars = [])
    /\ (forall b, bars = [b] ->
        exists change pct,
          lookup "Price Change" m = Some (VNum change) /\ change =f= Fin 0
          /\ lookup "Percent Change" m = Some (VNum pct) /\ pct =f= Fin 0)
    /\ (forall pre b2 b1, bars = pre ++ [b2; b1] ->
        Forall (fun b => 0 < close b) bars ->
        lookup "Price Change" m = Some (VNum (Fin (close b1 - close b2)))
        /\ lookup "Percent Change" m
           = Some (VNum (Fin ((close b1 - close b2) / close b2 * 100)))).
Proof.
  intros Hinfo.
  induction bars as [|b pre _] using rev_ind.
  - exists []. split; [reflexivity|]. split; [tauto|]. split.
    + intros b Hb. discriminate.
    + intros pre b2 b1 Hb. destruct pre; discriminate.
  - destruct (calculate_metrics_entries pre b info Hinfo)
      as (m & Hm & Hne & Hchange & Hpct).
    exists m. split; [exact Hm|]. split.
    { split; [congruence|]. intros H. destruct pre; discriminate. }
    split.
    + intros b' Hb'.
      assert (pre = [] /\ b = b') as [-> ->].
      { destruct pre as [|p pre']; [now inversion Hb'|].
        destruct pre'; discriminate. }
      unfold previous_close in Hchange, Hpct. cbn [rev] in Hchange, Hpct.
      eexists. eexists. split; [exact Hchange|]. split.
      { simpl. ring. }
      split; [exact Hpct|].
      unfold fne, feqb.
      destruct (Qeq_bool (close b') 0) eqn:E; simpl; [reflexivity|].
      apply Qeq_bool_neq in E. field. exact E.
    + intros pre' b2 b1 Hb Hpos.
      replace (pre' ++ [b2; b1]) with ((pre' ++ [b2]) ++ [b1]) in Hb
        by now rewrite <- app_assoc.
      apply app_inj_tail in Hb as [-> ->].
      unfold previous_close in Hchange, Hpct.
      rewrite rev_app_distr in Hchange, Hpct. cbn [rev app] in Hchange, Hpct.
      split; [exact Hchange|]. rewrite Hpct.
      apply Forall_app in Hpos as [Hpos _].
      apply Forall_app in Hpos as [_ Hpos].
      inversion Hpos as [|? ? Hb2 _]; subst.
      unfold fne, feqb.
      destruct (Qeq_bool (close b2) 0) eqn:E; [|reflexivity].
      apply Qeq_bool_eq in E. rewrite E in Hb2. now apply Qlt_irrefl in Hb2.
Qed.

End WithFormat.

Lemma calculate_metrics_change_witness :
  exists m,
    calculate_metrics Concrete.format_fixed (frame_of Concrete.scenario1) [] = Ok m
    /\ lookup "Price Change" m = Some (VNum (Fin (101 - 102)))
    /\ lookup "Percent Change" m = Some (VNum (Fin ((101 - 102) / 102 * 100))).
Proof.
  destruct (calculate_metrics_change Concrete.format_fixed Concrete.scenario1 []
              (conj I I)) as (m & Hm & _ & _ & H).
  exists m. split; [exact Hm|].
  apply (H [] (Concrete.bar "d1" 100 105 99 102 1000)
           (Concrete.bar "d2" 102 103 100 101 1200) eq_refl).
  repeat constructor.
Defined.

End MetricsFacts.

Module RollingFacts.
Import Float Pandas PandasFacts.

Lemma length_diff (s : Series) : length (diff s) = length s.
Proof.
  destruct s as [|x t]; [reflexivity|].
  cbn [diff length]. rewrite length_map, length_combine. cbn [length].
  f_equal. lia.
Qed.

(** The last value of a rolling aggregate. *)
Lemma rolling_snoc (w : nat) (agg : list Q -> fl) (s : Series) (k : nat) :
  length s = S k ->
  exists init,
    rolling w agg s = init ++ [rolling_at w agg s k] /\ length init = k.
Proof.
  intros Hlen. unfold rolling. rewrite Hlen, seq_S, map_app. cbn [map plus].
  eexists. split; [reflexivity|]. now rewrite length_map, length_seq.
Qed.

Lemma window_last_length (w : nat) (s : Series) (k : nat) :
  length s = S k -> length (window w k s) = Nat.min w (S k).
Proof.
  intros Hlen. unfold window. rewrite length_skipn, length_firstn. lia.
Qed.

Lemma window_In (w i : nat) (s : Series) (x : fl) :
  In x (window w i s) -> In x s.
Proof.
  unfold window. intros H.
  rewrite <- (firstn_skipn (S i) s). apply in_or_app. left.
  rewrite <- (firstn_skipn (S i - w) (firstn (S i) s)).
  apply in_or_app. now right.
Qed.

Lemma all_finite_Forall (P : Q -> Prop) (l : list fl) (qs : list Q) :
  all_finite l = Some qs ->
  (forall x q, In x l -> x = Fin q -> P q) ->
  Forall P qs.
Proof.
  revert qs. induction l as [|x l IH]; intros qs H HP.
  - inversion H. constructor.
  - destruct x as [q| | |]; try discriminate. cbn [all_finite] in H.
    destruct (all_finite l) as [qs'|]; [|discriminate].
    inversion H; subst. constructor.
    + apply (HP (Fin q)); [now left | reflexivity].
    + apply IH; [reflexivity|]. intros x q' Hin. apply HP. now right.
Qed.

Lemma Qsum_nonneg (qs : list Q) : Forall (fun q => 0 <= q) qs -> 0 <= Qsum qs.
Proof.
  induction 1 as [|q qs Hq _ IH]; simpl; [apply Qle_refl|].
  change 0 with (0 + 0). now apply Qplus_le_compat.
Qed.

Lemma Qmean_nonneg (qs : list Q) : Forall (fun q => 0 <= q) qs -> 0 <= Qmean qs.
Proof.
  intros H. unfold Qmean. unfold Qdiv.
  apply Qmult_le_0_compat; [now apply Qsum_nonneg|].
  apply Qinv_le_0_compat. unfold Qle. simpl. lia.
Qed.

(** A rolling mean over values that are non-negative when finite is a
    non-negative rational or NaN. *)
Lemma rolling_mean_at_nonneg (w : nat) (s : Series) (i : nat) :
  (forall x q, In x s -> x = Fin q -> 0 <= q) ->
  rolling_at w (fun qs => Fin (Qmean qs)) s i = NaN
  \/ exists q, rolling_at w (fun qs => Fin (Qmean qs)) s i = Fin q /\ 0 <= q.
Proof.
  intros Hs. unfold rolling_at. cbv zeta.
  destruct (length (window w i s) <? w)%nat; [now left|].
  destruct (all_finite (window w i s)) as [qs|] eqn:E; [|now left].
  right. eexists. split; [reflexivity|].
  apply Qmean_nonneg. eapply all_finite_Forall; [exact E|].
  intros x q Hin. apply Hs. eapply window_In; eauto.
Qed.

Lemma rolling_at_short (w : nat) (agg : list Q -> fl) (s : Series) (k : nat) :
  length s = S k -> (S k < w)%nat -> rolling_at w agg s k = NaN.
Proof.
  intros Hlen Hlt. unfold rolling_at. cbv zeta.
  rewrite (window_last_length w s k Hlen).
  replace (Nat.min w (S k) <? w)%nat with true; [reflexivity|].
  symmetry. apply Nat.ltb_lt. lia.
Qed.

Lemma zip_with_snoc (f : fl -> fl -> fl) (a b : Series) (x y : fl) :
  length a = length b ->
  zip_with f (a ++ [x]) (b ++ [y]) = zip_with f a b ++ [f x y].
Proof.
  unfold zip_with. revert b. induction a as [|u a IH]; intros [|v b] H;
    try discriminate; [reflexivity|].
  cbn [app combine map]. f_equal. apply IH. now inversion H.
Qed.

End RollingFacts.

Module RsiFacts.
Import Float Pandas ResultFacts PandasFacts RollingFacts MetricsCalculator.

Lemma gains_nonneg (prices : Series) (x : fl) (q : Q) :
  In x (gains prices) -> x = Fin q -> 0 <= q.
Proof.
  unfold gains, where_. intros Hin ->. apply in_map_iff in Hin as (d & Hd & _).
  destruct (fgt d (Fin 0)) eqn:E.
  - subst d. unfold fgt, flt in E. apply negb_true_iff in E.
    destruct (Qlt_le_dec 0 q) as [H|H]; [now apply Qlt_le_weak|].
    apply Qle_bool_iff in H. congruence.
  - inversion Hd. apply Qle_refl.
Qed.

Lemma losses_nonneg (prices : Series) (x : fl) (q : Q) :
  In x (losses prices) -> x = Fin q -> 0 <= q.
Proof.
  unfold losses, where_. intros Hin ->. rewrite map_map in Hin.
  apply in_map_iff in Hin as (d & Hd & _).
  destruct (flt d (Fin 0)) eqn:E.
  - destruct d as [a| | |]; try discriminate. inversion Hd; subst.
    unfold flt in E. apply negb_true_iff in E.
    destruct (Qlt_le_dec a 0) as [H|H].
    + apply Qlt_le_weak in H. apply Qopp_le_compat in H. exact H.
    + apply Qle_bool_iff in H. congruence.
  - inversion Hd. unfold Qle. simpl. lia.
Qed.

Lemma length_gains prices : length (gains prices) = length prices.
Proof. unfold gains, where_. now rewrite length_map, length_diff. Qed.

Lemma length_losses prices : length (losses prices) = length prices.
Proof. unfold losses, where_. now rewrite !length_map, length_diff. Qed.

Lemma calculate_rsi_last (prices : Series) (period k : nat) :
  length prices = S k ->
  iloc_neg 1 (rsi_gain period prices)
  = Ok (rolling_at period (fun qs => Fin (Qmean qs)) (gains prices) k)
  /\ iloc_neg 1 (rsi_loss period prices)
     = Ok (rolling_at period (fun qs => Fin (Qmean qs)) (losses prices) k)
  /\ _calculate_rsi prices period
     = Ok (rsi_result
             (rolling_at period (fun qs => Fin (Qmean qs)) (gains prices) k)
             (rolling_at period (fun qs => Fin (Qmean qs)) (losses prices) k)).
Proof.
  intros Hlen. unfold _calculate_rsi, rsi_gain, rsi_loss, rolling_mean.
  destruct (rolling_snoc period (fun qs => Fin (Qmean qs)) (gains prices) k)
    as (gi & Eg & Hgi); [now rewrite length_gains|].
  destruct (rolling_snoc period (fun qs => Fin (Qmean qs)) (losses prices) k)
    as (li & El & Hli); [now rewrite length_losses|].
  rewrite Eg, El. rewrite !iloc_neg_last.
  split; [reflexivity|]. split; [reflexivity|].
  rewrite zip_with_snoc by congruence. rewrite map_app. cbn [map].
  rewrite iloc_neg_last. reflexivity.
Qed.

Lemma rsi_result_cases (g l : fl) :
  (g = NaN \/ exists a, g = Fin a /\ 0 <= a) ->
  (l = NaN \/ exists b, l = Fin b /\ 0 <= b) ->
  exists r, rsi_result g l = Fin r /\ 0 <= r <= 100
    /\ (forall a b, g = Fin a -> l = Fin b -> b == 0 ->
        (a == 0 -> r = 50) /\ (~ a == 0 -> r = 100)).
Proof.
  intros [->|(a & -> & Ha)] Hl.
  { exists 50. split; [reflexivity|]. split; [split; discriminate|].
    intros; discriminate. }
  destruct Hl as [->|(b & -> & Hb)].
  { exists 50. split; [reflexivity|]. split; [split; discriminate|].
    intros; discriminate. }
  unfold rsi_result, rsi_of_rs. cbv zeta.
  destruct (Qeq_bool b 0) eqn:Eb.
  - assert (Ers : fdiv (Fin a) (Fin b) = inf_of_sign (a ?= 0)).
    { unfold fdiv. now rewrite Eb. }
    rewrite Ers. apply Qeq_bool_eq in Eb.
    destruct (a ?= 0) eqn:Ea.
    + exists 50. split; [reflexivity|]. split; [split; discriminate|].
      intros a' b' Ha' _ _. inversion Ha'; subst a'.
      split; [reflexivity|]. intros Hne. apply Qeq_alt in Ea. contradiction.
    + apply Qlt_alt in Ea. exfalso. apply (Qlt_not_le _ _ Ea Ha).
    + exists 100. split; [reflexivity|]. split; [split; discriminate|].
      intros a' b' Ha' _ _. inversion Ha'; subst a'.
      split; [|reflexivity]. intros He. apply Qeq_alt in He. congruence.
  - assert (Ers : fdiv (Fin a) (Fin b) = Fin (a / b)).
    { unfold fdiv. now rewrite Eb. }
    rewrite Ers. apply Qeq_bool_neq in Eb.
    assert (Hbpos : 0 < b).
    { apply Qle_lteq in Hb as [H|H]; [exact H|]. symmetry in H. contradiction. }
    assert (Hrs : 0 <= a / b).
    { unfold Qdiv. apply Qmult_le_0_compat; [exact Ha|].
      apply Qinv_le_0_compat. now apply Qlt_le_weak. }
    cbn [fadd].
    assert (Hden : 0 < 1 + a / b).
    { apply Qlt_le_trans with (1 + 0); [reflexivity|].
      apply Qplus_le_r. exact Hrs. }
    assert (Ediv : fdiv (Fin 100) (Fin (1 + a / b)) = Fin (100 / (1 + a / b))).
    { unfold fdiv. destruct (Qeq_bool (1 + a / b) 0) eqn:E1; [|reflexivity].
      apply Qeq_bool_eq in E1. rewrite E1 in Hden.
      now apply Qlt_irrefl in Hden. }
    rewrite Ediv. cbn [fsub fopp fadd isnan negb].
    eexists. split; [reflexivity|]. split.
    + assert (H1 : 0 <= 100 / (1 + a / b)).
      { unfold Qdiv. apply Qmult_le_0_compat; [discriminate|].
        apply Qinv_le_0_compat. now apply Qlt_le_weak. }
      assert (H2 : 100 / (1 + a / b) <= 100).
      { apply Qle_shift_div_r; [exact Hden|].
        setoid_replace 100 with (100 * 1) at 1 by reflexivity.
        apply Qmult_le_l; [reflexivity|].
        setoid_replace 1 with (1 + 0) at 1 by reflexivity.
        apply Qplus_le_r. exact Hrs. }
      split; lra.
    + intros a' b' _ Hb' Hz. inversion Hb'; subst b'. contradiction.
Qed.

Lemma calculate_rsi_ok (prices : Series) (period : nat) :
  exists r, _calculate_rsi prices period = Ok r.
Proof. unfold _calculate_rsi. apply catch_ok. Qed.

Lemma rsi_result_nan_l (l : fl) : rsi_result NaN l = Fin 50.
Proof. reflexivity. Qed.

(** C2 (amended): [_calculate_rsi] never raises and returns a finite value
    between 0 and 100.  It returns the neutral 50 when the series is
    shorter than the 14-bar period, and when the rolling loss average and
    the rolling gain average are both 0; when the loss average is 0 and the
    gain average is not, it returns 100. *)
Theorem rsi_neutral_or_saturated (prices : Series) :
  exists r,
    _calculate_rsi prices 14 = Ok (Fin r)
    /\ 0 <= r <= 100
    /\ ((length prices < 14)%nat -> r = 50)
    /\ (forall g l,
        iloc_neg 1 (rsi_gain 14 prices) = Ok (Fin g) ->
        iloc_neg 1 (rsi_loss 14 prices) = Ok (Fin l) ->
        l == 0 ->
        (g == 0 -> r = 50) /\ (~ g == 0 -> r = 100)).
Proof.
  destruct prices as [|p0 ps] eqn:E.
  - exists 50. split; [reflexivity|]. split; [split; discriminate|].
    split; [reflexivity|]. intros g l Hg. discriminate.
  - rewrite <- E. assert (Hlen : length prices = S (length ps)) by now subst.
    clear E. destruct (calculate_rsi_last prices 14 _ Hlen) as (Hg & Hl & Hr).
    set (g := rolling_at 14 (fun qs => Fin (Qmean qs)) (gains prices) (length ps)) in *.
    set (l := rolling_at 14 (fun qs => Fin (Qmean qs)) (losses prices) (length ps)) in *.
    destruct (rsi_result_cases g l) as (r & Er & Hrange & Hzero).
    { apply rolling_mean_at_nonneg. apply gains_nonneg. }
    { apply rolling_mean_at_nonneg. apply losses_nonneg. }
    exists r. rewrite Hr, Er. split; [reflexivity|]. split; [exact Hrange|].
    split.
    + intros Hshort.
      assert (Eg : g = NaN).
      { apply rolling_at_short; [now rewrite length_gains | lia]. }
      rewrite Eg, rsi_result_nan_l in Er. now inversion Er.
    + intros a b Ha Hb. rewrite Hg in Ha. rewrite Hl in Hb.
      inversion Ha. inversion Hb. now apply Hzero.
Qed.

Lemma rsi_neutral_or_saturated_witness :
  _calculate_rsi Concrete.rising 14 = Ok (Fin 100).
Proof.
  destruct (rsi_neutral_or_saturated Concrete.rising) as (r & Hr & _ & _ & H).
  destruct (H (14 # 14) (0 # 14)) as [_ H100];
    [reflexivity | reflexivity | reflexivity |].
  rewrite Hr, H100; [reflexivity | discriminate].
Defined.

(** C2, as stated, fails: on fifteen closes rising by one a day the rolling
    loss average is 0, and the value returned is 100, not the neutral 50. *)
Lemma rsi_zero_loss_returns_100 :
  iloc_neg 1 (rsi_loss 14 Concrete.rising) = Ok (Fin (0 # 14))
  /\ _calculate_rsi Concrete.rising 14 = Ok (Fin 100)
  /\ _calculate_rsi Concrete.rising 14 <> Ok (Fin 50).
Proof.
  split; [reflexivity|]. split; [reflexivity|]. discriminate.
Qed.

End RsiFacts.

Module BollingerFacts.
Import Float Pandas OHLCV ResultFacts PandasFacts RollingFacts MetricsCalculator RsiFacts.
Local Open Scope string_scope.
Local Open Scope list_scope.

Section WithSqrt.
Variable sqrtQ : Q -> Q.

Lemma bollinger_short (prices : Series) (k : nat) :
  length prices = S k -> (S k < 20)%nat ->
  _calculate_bollinger_bands sqrtQ prices 20 2 = Ok (NaN, NaN).
Proof.
  intros Hlen Hshort. unfold _calculate_bollinger_bands, rolling_mean, rolling_std.
  destruct (rolling_snoc 20 (fun qs => Fin (Qmean qs)) prices k Hlen)
    as (mi & Em & Hmi).
  destruct (rolling_snoc 20 (Qstd_sample sqrtQ) prices k Hlen)
    as (si & Es & Hsi).
  rewrite Em, Es, !rolling_at_short by assumption.
  rewrite map_app. cbn [map].
  rewrite !zip_with_snoc by (rewrite length_map; congruence).
  rewrite !iloc_neg_last. reflexivity.
Qed.

(** C3, at its failing inputs: for a series of fewer than 20 bars the
    rolling mean and deviation are NaN, nothing raises, and
    [_calculate_bollinger_bands] returns (NaN, NaN), which
    [calculate_technical_indicators] stores unchanged under [bb_upper] and
    [bb_lower]: not the (0.0, 0.0) of the claim. *)
Theorem bollinger_short_series_is_nan (bars : list Bar) :
  bars <> [] -> (length bars < 20)%nat ->
  _calculate_bollinger_bands sqrtQ (closes bars) 20 2 = Ok (NaN, NaN)
  /\ exists m,
       calculate_technical_indicators sqrtQ (frame_of bars) = Ok m
       /\ lookup "bb_upper" m = Some (VNum NaN)
       /\ lookup "bb_lower" m = Some (VNum NaN).
Proof.
  intros Hne Hshort.
  destruct bars as [|b0 bs]; [congruence|].
  assert (Hlen : length (closes (b0 :: bs)) = S (length bs)).
  { unfold closes. now rewrite length_map. }
  assert (Hbb := bollinger_short _ _ Hlen Hshort).
  split; [exact Hbb|].
  unfold calculate_technical_indicators, empty.
  rewrite len_frame_of, get_num_frame_close. cbn [length Nat.eqb bind].
  destruct (rolling_snoc 20 (fun qs => Fin (Qmean qs)) _ _ Hlen) as (i20 & E20 & _).
  destruct (rolling_snoc 50 (fun qs => Fin (Qmean qs)) _ _ Hlen) as (i50 & E50 & _).
  unfold rolling_mean. rewrite E20, E50, !iloc_neg_last. cbn [bind].
  destruct (calculate_rsi_ok (closes (b0 :: bs)) 14) as (r & Er).
  rewrite Er, Hbb. cbn [bind].
  unfold _calculate_macd.
  destruct (catch_ok
    (m <- iloc_neg 1 (zip_with fsub (ewm_mean 12 (closes (b0 :: bs)))
                        (ewm_mean 26 (closes (b0 :: bs)))) ;;
     s <- iloc_neg 1 (ewm_mean 9 (zip_with fsub (ewm_mean 12 (closes (b0 :: bs)))
                        (ewm_mean 26 (closes (b0 :: bs))))) ;;
     Ok (m, s)) (Fin 0, Fin 0)) as ([ml ms] & Emacd).
  cbv zeta. rewrite Emacd. cbn [bind catch].
  eexists. split; [reflexivity|]. split; reflexivity.
Qed.

End WithSqrt.

Lemma bollinger_short_series_is_nan_witness :
  _calculate_bollinger_bands Concrete.sqrt6 [Fin 100] 20 2 = Ok (NaN, NaN)
  /\ exists m,
       calculate_technical_indicators Concrete.sqrt6
         (frame_of [Concrete.flat_bar 100]) = Ok m
       /\ lookup "bb_upper" m = Some (VNum NaN)
       /\ lookup "bb_lower" m = Some (VNum NaN).
Proof.
  apply (bollinger_short_series_is_nan Concrete.sqrt6 [Concrete.flat_bar 100]).
  - discriminate.
  - simpl. lia.
Defined.

End BollingerFacts.

Module PortfolioFacts.
Import Float Pandas OHLCV ResultFacts PandasFacts PortfolioManager.
Local Open Scope string_scope.
Local Open Scope list_scope.

Lemma pydiv_ok (a b w : Q) : pydiv a b = Ok w -> w = a / b /\ ~ b == 0.
Proof.
  unfold pydiv. destruct (Qeq_bool b 0) eqn:E; [discriminate|].
  intros H. inversion H. split; [reflexivity|]. now apply Qeq_bool_neq.
Qed.

Lemma perf_step_log (holdings : Holdings) (all_data : AllData)
    (acc acc' : perf_acc) (kv : string * Holding) :
  perf_step holdings all_data acc kv = Ok acc' ->
  weights_log acc'
  = weights_log acc ++ map (weight_of holdings) (filter (in_data all_data) [kv])
  /\ (in_data all_data kv = true -> ~ sum_investments holdings == 0).
Proof.
  destruct kv as [symbol holding]. unfold perf_step, in_data, mem. cbn [fst filter].
  destruct (lookup symbol all_data) as [df|].
  - destruct (get_num df "Close") as [c|]; [|discriminate]. cbn [bind].
    destruct (iloc_neg 1 c) as [p|]; [|discriminate]. cbn [bind].
    destruct (pydiv _ _) as [w|] eqn:Ew; [|discriminate]. cbn [bind].
    apply pydiv_ok in Ew as [-> Hne].
    intros H. inversion H. cbn [weights_log map]. split; [reflexivity|].
    intros _. exact Hne.
  - intros H. inversion H. subst. cbn [map]. rewrite app_nil_r.
    split; [reflexivity | discriminate].
Qed.

Lemma perf_fold_log (holdings : Holdings) (all_data : AllData)
    (hs : Holdings) (acc acc' : perf_acc) :
  foldM (perf_step holdings all_data) hs acc = Ok acc' ->
  weights_log acc'
  = weights_log acc ++ map (weight_of holdings) (filter (in_data all_data) hs)
  /\ (filter (in_data all_data) hs <> [] -> ~ sum_investments holdings == 0).
Proof.
  revert acc. induction hs as [|kv hs IH]; intros acc H.
  - inversion H. cbn [filter map]. rewrite app_nil_r. split; [reflexivity|congruence].
  - cbn [foldM] in H.
    destruct (perf_step holdings all_data acc kv) as [acc1|] eqn:E1; [|discriminate].
    cbn [bind] in H. apply IH in H as [H1 H2].
    apply perf_step_log in E1 as [E1 E2].
    rewrite H1, E1. cbn [filter].
    destruct (in_data all_data kv) eqn:Ein.
    + cbn [map]. rewrite <- app_assoc. split; [reflexivity|].
      intros _. now apply E2.
    + cbn [map]. rewrite app_nil_r. split; [reflexivity | exact H2].
Qed.

Lemma sum_investments_from (hs : Holdings) (a : Q) :
  fold_left (fun acc kv => acc + investment_of (snd kv)) hs a
  == a + Qsum (map (fun kv => investment_of (snd kv)) hs).
Proof.
  revert a. induction hs as [|kv hs IH]; intros a; cbn [fold_left map Qsum fold_right].
  - ring.
  - rewrite IH. unfold Qsum. ring.
Qed.

Lemma sum_investments_Qsum (hs : Holdings) :
  sum_investments hs == Qsum (map (fun kv => investment_of (snd kv)) hs).
Proof. unfold sum_investments. rewrite sum_investments_from. ring. Qed.

Lemma Qsum_weights (holdings hs : Holdings) :
  Qsum (map snd (map (weight_of holdings) hs)) * sum_investments holdings
  == Qsum (map (fun kv => investment_of (snd kv)) hs)
     * (sum_investments holdings / sum_investments holdings).
Proof.
  induction hs as [|kv hs IH]; cbn [map Qsum fold_right snd weight_of].
  - ring.
  - unfold Qsum in IH. unfold Qdiv in *.
    rewrite Qmult_plus_distr_l, IH. ring.
Qed.

(** C5 (amended): each weight [calculate_portfolio_performance] uses is the
    holding's investment divided by the total investment of all the holdings
    of the holdings map, whether they have price data or not.  The weights
    of the holdings present in both maps therefore sum to their part of that
    total, and to 1 when every holding of a non-empty holdings map has price
    data. *)
Theorem weights_are_shares_of_all_holdings (holdings : Holdings)
    (all_data : AllData) (ws : list (string * Q)) :
  weights_used holdings all_data = Ok ws ->
  ws = map (weight_of holdings) (filter (in_data all_data) holdings)
  /\ Qsum (map snd ws) * sum_investments holdings
     == Qsum (map (fun kv => investment_of (snd kv))
                (filter (in_data all_data) holdings))
  /\ (holdings <> [] ->
      (forall kv, In kv holdings -> in_data all_data kv = true) ->
      Qsum (map snd ws) == 1).
Proof.
  unfold weights_used, perf_loop. intros H.
  destruct (foldM _ _ _) as [acc|] eqn:E; [|discriminate].
  cbn [bind] in H. inversion H; subst ws; clear H.
  apply perf_fold_log in E as [E Hne]. cbn [perf_init weights_log app] in E.
  rewrite E. split; [reflexivity|].
  assert (Hsum : filter (in_data all_data) holdings <> [] ->
    Qsum (map snd (map (weight_of holdings) (filter (in_data all_data) holdings)))
      * sum_investments holdings
    == Qsum (map (fun kv => investment_of (snd kv))
               (filter (in_data all_data) holdings))).
  { intros Hf. rewrite Qsum_weights. field. now apply Hne. }
  split.
  - destruct (filter (in_data all_data) holdings) eqn:Ef.
    + cbn [map Qsum fold_right]. ring.
    + apply Hsum. discriminate.
  - intros Hnonempty Hall.
    assert (Ef : filter (in_data all_data) holdings = holdings).
    { clear -Hall. induction holdings as [|kv hs IH]; [reflexivity|].
      cbn [filter]. rewrite (Hall kv) by now left.
      f_equal. apply IH. intros kv' Hin. apply Hall. now right. }
    rewrite Ef in *.
    assert (Hf : holdings <> []) by exact Hnonempty.
    specialize (Hsum Hf). specialize (Hne Hf).
    rewrite <- sum_investments_Qsum in Hsum.
    apply (Qmult_inj_r _ _ (sum_investments holdings)); [exact Hne|].
    rewrite Hsum. ring.
Qed.

Lemma weights_are_shares_of_all_holdings_witness :
  Qsum (map snd [("A", 100 / 400); ("B", 300 / 400)]) == 1.
Proof.
  apply (weights_are_shares_of_all_holdings Concrete.two_holdings
           [ ("A", frame_of [Concrete.flat_bar 110]);
             ("B", frame_of [Concrete.flat_bar 90]) ]).
  - reflexivity.
  - discriminate.
  - intros kv [<-|[<-|[]]]; reflexivity.
Defined.

(** C5, as stated, fails: of two holdings worth 100 and 300 only the first
    has price data; the only weight used is 1/4. *)
Lemma weights_sum_to_quarter :
  exists ws,
    weights_used Concrete.two_holdings [("A", frame_of [Concrete.flat_bar 110])] = Ok ws
    /\ Qsum (map snd ws) == 1 # 4
    /\ ~ Qsum (map snd ws) == 1.
Proof.
  eexists. split; [reflexivity|]. split; [reflexivity | discriminate].
Qed.

Section WithSqrt.
Variable sqrtQ : Q -> Q.

Lemma max_drawdown_ok (holdings : Holdings) (all_data : AllData) :
  exists d, _calculate_max_drawdown holdings all_data = Ok d.
Proof. unfold _calculate_max_drawdown. apply catch_ok. Qed.

Lemma fgt_zero_false (vol : fl) : vol =f= Fin 0 -> fgt vol (Fin 0) = false.
Proof.
  destruct vol as [q| | |]; simpl; try contradiction. intros H.
  apply negb_false_iff. apply Qle_bool_iff. rewrite H. apply Qle_refl.
Qed.

(** C7: when the volatility [_calculate_portfolio_volatility] computes is
    0, the [sharpe_ratio] entry of the mapping
    [calculate_portfolio_performance] returns is 0, whatever the weighted
    return; the only other result is the empty mapping of a failed
    computation, which has no such entry. *)
Theorem sharpe_zero_when_volatility_zero (holdings : Holdings)
    (all_data : AllData) (vol : fl) :
  _calculate_portfolio_volatility sqrtQ holdings all_data 30 = Ok vol ->
  vol =f= Fin 0 ->
  exists m,
    calculate_portfolio_performance sqrtQ holdings all_data = Ok m
    /\ (forall v, lookup "sharpe_ratio" m = Some v -> v = VNum (Fin 0))
    /\ (forall acc, perf_loop holdings all_data = Ok acc ->
        lookup "sharpe_ratio" m = Some (VNum (Fin 0))).
Proof.
  intros Hvol Hzero. unfold calculate_portfolio_performance.
  destruct (perf_loop holdings all_data) as [acc|e].
  - cbn [bind]. rewrite Hvol. cbn [bind].
    destruct (max_drawdown_ok holdings all_data) as [d Ed]. rewrite Ed.
    cbn [bind catch]. rewrite (fgt_zero_false vol Hzero).
    eexists. split; [reflexivity|]. split.
    + intros v Hv. cbn in Hv. now inversion Hv.
    + intros _ _. reflexivity.
  - cbn [bind catch]. exists []. split; [reflexivity|]. split.
    + intros v Hv. discriminate.
    + intros acc Hacc. discriminate.
Qed.

End WithSqrt.

Lemma sharpe_zero_when_volatility_zero_witness :
  exists m,
    calculate_portfolio_performance Concrete.sqrt6 Concrete.scenario3_holdings
      Concrete.scenario3_data = Ok m
    /\ lookup "sharpe_ratio" m = Some (VNum (Fin 0)).
Proof.
  destruct (sharpe_zero_when_volatility_zero Concrete.sqrt6 Concrete.scenario3_holdings
              Concrete.scenario3_data (Fin 0) eq_refl (Qeq_refl 0))
    as (m & Hm & _ & H).
  exists m. split; [exact Hm|]. eapply H. reflexivity.
Defined.

End PortfolioFacts.

Module VolFacts.
Import Float Pandas OHLCV ResultFacts PandasFacts PortfolioManager.
Local Open Scope string_scope.
Local Open Scope list_scope.

Lemma daily_return_fold (all_data : AllData) (total : Q) (i : nat)
    (hs : Holdings) (acc : fl) :
  foldM (daily_return_step all_data total i) hs acc
  = (terms <- mapM (weighted_day_return all_data total i)
                   (filter (has_day all_data i) hs) ;;
     Ok (fold_left fadd terms acc)).
Proof.
  revert acc. induction hs as [|[symbol holding] hs IH]; intros acc; [reflexivity|].
  cbn [foldM filter]. unfold daily_return_step at 1, has_day at 1.
  cbn [fst]. destruct (lookup symbol all_data) as [df|] eqn:El.
  - destruct (i + 1 <? len df)%nat.
    + cbn [mapM]. unfold weighted_day_return at 1. cbn [fst snd]. rewrite El.
      unfold investment_of.
      destruct (pydiv _ _) as [w|]; [|reflexivity]. cbn [bind].
      destruct (get_num df "Close") as [c|]; [|reflexivity]. cbn [bind].
      destruct (iloc_neg (i + 1) c) as [pt|]; [|reflexivity]. cbn [bind].
      destruct (iloc_neg (i + 2) c) as [py|]; [|reflexivity]. cbn [bind].
      rewrite IH.
      destruct (mapM _ _) as [terms|]; reflexivity.
    + cbn [bind]. apply IH.
  - cbn [bind]. apply IH.
Qed.

Lemma daily_return_refines (holdings : Holdings) (all_data : AllData) (i : nat) :
  daily_return holdings all_data (sum_investments holdings) i
  = spec_daily_return holdings all_data i.
Proof. unfold daily_return, spec_daily_return. apply daily_return_fold. Qed.

Lemma mapM_nth {A B : Type} (f : A -> result B) (l : list A) (bs : list B)
    (i : nat) (da : A) (db : B) :
  mapM f l = Ok bs -> (i < length l)%nat -> f (nth i l da) = Ok (nth i bs db).
Proof.
  revert bs i. induction l as [|a l IH]; intros bs i H Hi; [simpl in Hi; lia|].
  cbn [mapM] in H. destruct (f a) as [b|] eqn:Ea; [|discriminate].
  cbn [bind] in H. destruct (mapM f l) as [bs'|]; [|discriminate].
  inversion H; subst. destruct i as [|i]; [exact Ea|].
  cbn [nth]. apply IH; [reflexivity | simpl in Hi; lia].
Qed.

Section WithSqrt.
Variable sqrtQ : Q -> Q.
Hypothesis sqrtQ_zero : forall q, q == 0 -> sqrtQ q == 0.

Lemma np_std_short (rs : list fl) :
  (length rs < 2)%nat -> rs <> [] -> Forall finite rs ->
  fmul (np_std sqrtQ rs) (np_sqrt sqrtQ 252) =f= Fin 0.
Proof.
  intros Hlen Hne Hfin. destruct rs as [|x [|y rs]]; [congruence| |simpl in Hlen; lia].
  inversion Hfin as [|? ? [q ->] _]; subst.
  unfold np_std, np_sqrt. cbn [all_finite length fmul fl_eq].
  rewrite sqrtQ_zero; [ring|].
  unfold Qsumsq, Qmean. cbn [Qsum fold_right map length]. field.
Qed.

(** C8 (amended): [_calculate_portfolio_volatility] never raises.  With
    both maps non-empty it builds one portfolio return per day over the last
    min(30, n - 1) days, where n is the length of the first series of the
    price-data map (not of the shortest one); the return of a day is the
    sum, over the holdings whose own series reaches back that far, of the
    investment weight times the single-day return; the result is
    [np.std] of these returns times [np.sqrt(252)].  It is 0.0 when a map
    is empty, when the computation fails, when there is no day, and it is 0
    for a single finite daily return. *)
Theorem volatility_over_first_series (holdings : Holdings) (all_data : AllData) :
  exists v,
    _calculate_portfolio_volatility sqrtQ holdings all_data 30 = Ok v
    /\ (holdings = [] \/ all_data = [] -> v = Fin 0)
    /\ (forall e, portfolio_returns holdings all_data 30 = Raise e -> v = Fin 0)
    /\ (forall rs, holdings <> [] -> all_data <> [] ->
        portfolio_returns holdings all_data 30 = Ok rs ->
        (forall name first rest, all_data = (name, first) :: rest ->
           length rs = Nat.min 30 (len first - 1))
        /\ (forall i, (i < length rs)%nat ->
              spec_daily_return holdings all_data i = Ok (nth i rs NaN))
        /\ v = match rs with
               | [] => Fin 0
               | _ => fmul (np_std sqrtQ rs) (np_sqrt sqrtQ 252)
               end
        /\ ((length rs < 2)%nat -> Forall finite rs -> v =f= Fin 0)).
Proof.
  unfold _calculate_portfolio_volatility.
  destruct holdings as [|h hs] eqn:Eh.
  { exists (Fin 0). split; [reflexivity|]. split; [reflexivity|].
    split; [reflexivity|]. intros rs H. congruence. }
  destruct all_data as [|d ds] eqn:Ed.
  { exists (Fin 0). split; [reflexivity|]. split; [reflexivity|].
    split; [reflexivity|]. intros rs _ H. congruence. }
  rewrite <- Eh, <- Ed.
  destruct (portfolio_returns holdings all_data 30) as [rs|e] eqn:Er.
  - cbn [bind catch]. eexists. split; [reflexivity|].
    split; [intros [H|H]; congruence|]. split; [discriminate|].
    intros rs' _ _ Hrs. inversion Hrs; subst rs'; clear Hrs.
    unfold portfolio_returns in Er.
    assert (Hlen := mapM_length _ _ _ Er). rewrite length_seq in Hlen.
    split.
    { intros name first rest Hall. rewrite Hlen, Hall. reflexivity. }
    split.
    { intros i Hi. rewrite <- daily_return_refines.
      rewrite <- (mapM_nth _ _ _ i O NaN Er) by (rewrite length_seq; lia).
      rewrite seq_nth by lia. reflexivity. }
    split; [reflexivity|].
    intros Hshort Hfin. destruct rs as [|r rs']; [reflexivity|].
    apply np_std_short; [exact Hshort | discriminate | exact Hfin].
  - cbn [bind catch]. exists (Fin 0). split; [reflexivity|].
    split; [reflexivity|]. split; [reflexivity|]. discriminate.
Qed.

End WithSqrt.

Lemma sqrt6_zero (q : Q) : q == 0 -> Concrete.sqrt6 q == 0.
Proof.
  intros H. unfold Concrete.sqrt6.
  assert (Hn : Qnum q = 0%Z).
  { unfold Qeq in H. simpl in H. lia. }
  rewrite Hn. reflexivity.
Qed.

Lemma volatility_over_first_series_witness :
  exists v,
    _calculate_portfolio_volatility Concrete.sqrt6 Concrete.scenario3_holdings
      Concrete.two_bar_data 30 = Ok v
    /\ v =f= Fin 0.
Proof.
  destruct (volatility_over_first_series Concrete.sqrt6 sqrt6_zero
              Concrete.scenario3_holdings Concrete.two_bar_data)
    as (v & Hv & _ & _ & H).
  exists v. split; [exact Hv|].
  destruct (H [Fin (22500 # 225000)]) as (_ & _ & _ & Hzero).
  - discriminate.
  - discriminate.
  - reflexivity.
  - apply Hzero; [simpl; lia|]. repeat constructor. now eexists.
Defined.

(** C8, as stated, fails: the first series has four bars and the second
    two; the loop runs over min(30, 4 - 1) = 3 days, not over
    min(30, 2 - 1) = 1, and the returns of the second and third day leave
    out the holding with the short series. *)
Lemma volatility_days_follow_first_series :
  exists rs,
    portfolio_returns Concrete.two_holdings Concrete.uneven_data 30 = Ok rs
    /\ length rs = 3%nat
    /\ Nat.min 30 (min_length Concrete.uneven_data - 1) = 1%nat.
Proof.
  eexists. split; [reflexivity|]. split; reflexivity.
Qed.

End VolFacts.

Module DrawdownFacts.
Import Float Pandas OHLCV ResultFacts PandasFacts PortfolioManager.
Local Open Scope string_scope.
Local Open Scope list_scope.


Lemma lookup_frames_of (s : string) (series : list (string * list Bar)) :
  lookup s (frames_of series) = option_map frame_of (lookup s series).
Proof.
  induction series as [|[s' bars] series IH]; [reflexivity|].
  cbn [frames_of map lookup fst snd]. destruct (String.eqb s s'); [reflexivity|].
  exact IH.
Qed.

Lemma lookup_In {V : Type} (s : string) (d : list (string * V)) (v : V) :
  lookup s d = Some v -> exists s', In (s', v) d.
Proof.
  induction d as [|[s' v'] d IH]; [discriminate|]. cbn [lookup].
  destruct (String.eqb s s').
  - intros H. inversion H; subst. exists s'. now left.
  - intros H. destruct (IH H) as [s'' Hin]. exists s''. now right.
Qed.




Section Values.
Variable holdings : Holdings.
Variable series : list (string * list Bar).
Hypothesis shares_pos : Forall (fun kv => 0 < shares (snd kv)) holdings.
Hypothesis closes_pos :
  Forall (fun sb => Forall (fun b => 0 < close b) (snd sb)) series.


Hypothesis has_data :
  exists kv, In kv holdings /\ in_data (frames_of series) kv = true.


End Values.







Section Drawdown.
Variable holdings : Holdings.
Variable series : list (string * list Bar).
Hypothesis shares_pos : Forall (fun kv => 0 < shares (snd kv)) holdings.
Hypothesis closes_pos :
  Forall (fun sb => Forall (fun b => 0 < close b) (snd sb)) series.
Hypothesis has_data :
  exists kv, In kv holdings /\ in_data (frames_of series) kv = true.


End Drawdown.


(** C6, at its failing input: a holding with positive shares and price data
    with positive closes, but for another symbol.  Every daily value is 0,
    so is every peak, the division 0/0 of the arrays gives NaN without
    raising, and NaN is what [_calculate_max_drawdown] returns: not a
    fraction in [0, 1], and not 0 although the value series is constant. *)
Theorem max_drawdown_nan_without_price_data :
  portfolio_values Concrete.scenario3_holdings Concrete.unrelated_data
  = Ok [Fin 0]
  /\ _calculate_max_drawdown Concrete.scenario3_holdings Concrete.unrelated_data
     = Ok NaN.
Proof. split; reflexivity. Qed.

End DrawdownFacts.

Module ExportFacts.
Import Float Pandas OHLCV ResultFacts PandasFacts RollingFacts DataExporter.
Local Open Scope string_scope.
Local Open Scope list_scope.

Lemma mapM_CNum (s : Series) : mapM as_float (map CNum s) = Ok s.
Proof. induction s as [|x s IH]; simpl; [reflexivity|]. now rewrite IH. Qed.

Section WithEnvironment.
Variable sqrtQ : Q -> Q.

Lemma enrich_frame_of (bars : list Bar) :
  enrich sqrtQ (frame_of bars) = Ok (frame_of bars ++ derived_columns sqrtQ bars).
Proof.
  unfold enrich, get_num, getitem, set_num, frame_of, derived_columns.
  unfold closes.
  repeat (progress (cbn [lookup setitem String.eqb Ascii.eqb Bool.eqb bind app];
                    rewrite ?mapM_num_column, ?mapM_CNum)).
  reflexivity.
Qed.

Variable data_fetcher : DataFetcher.
Variable now : string.
Variable py_str : pyval -> string.

Lemma nth_seq_all {A : Type} (l : list A) (d : A) :
  map (fun i => nth i l d) (seq 0 (length l)) = l.
Proof.
  induction l as [|a l IH]; [reflexivity|].
  cbn [length seq map nth]. f_equal.
  rewrite <- seq_shift, map_map. exact IH.
Qed.

(** C4: when the provider returns the bars of a non-empty series, the
    equities export is the header line with the nineteen columns of the
    specification in their order, then the banner row, whose [Date] field
    is the METADATA sentinel, then one row per bar, in the order of the
    bars: as many rows as bars plus one. *)
Theorem export_rows_and_header (symbol period : string) (bars : list Bar)
    (info : dict) :
  bars <> [] ->
  get_stock_data data_fetcher symbol period = Ok (Some (frame_of bars)) ->
  get_stock_info data_fetcher symbol = Ok info ->
  exists banner rows,
    export_stock_historical_data sqrtQ data_fetcher now py_str symbol period
    = Ok (map CStr equities_header :: banner :: rows)
    /\ length (banner :: rows) = (length bars + 1)%nat
    /\ nth_error banner 0 = Some (CStr "METADATA")
    /\ map (fun r => nth_error r 0) rows
       = map (fun b => Some (CStr (date b))) bars
    /\ Forall (fun r => length r = 19%nat) (banner :: rows).
Proof.
  intros Hne Hdata Hinfo. unfold export_stock_historical_data.
  rewrite Hdata, Hinfo. cbn [bind]. unfold empty. rewrite len_frame_of.
  destruct (Nat.eqb_spec (length bars) 0) as [H0|_].
  { destruct bars; [congruence | discriminate]. }
  rewrite enrich_frame_of. cbn [bind catch].
  set (final := concat (metadata_row now py_str symbol period info)
                  (frame_of bars ++ derived_columns sqrtQ bars)).
  assert (Hlen : len final = S (length bars)).
  { subst final. cbn. now rewrite length_map. }
  unfold to_csv. rewrite Hlen. cbn [seq map].
  exists (row final 0), (map (row final) (seq 1 (length bars))).
  split; [reflexivity|]. split.
  { cbn [length]. rewrite length_map, length_seq. lia. }
  split; [reflexivity|]. split.
  { rewrite map_map, <- seq_shift, map_map.
    transitivity
      (map Some
         (map (fun i => nth i (map (fun b => CStr (date b)) bars) (CNum NaN))
            (seq 0 (length (map (fun b => CStr (date b)) bars))))).
    - rewrite length_map, map_map. apply map_ext. intros i.
      subst final. reflexivity.
    - rewrite nth_seq_all, map_map. reflexivity. }
  assert (Hrow : forall i, length (row final i) = 19%nat).
  { intros i. unfold row. rewrite length_map. subst final. reflexivity. }
  constructor; [apply Hrow|].
  apply Forall_forall. intros r Hr. apply in_map_iff in Hr as (i & <- & _).
  apply Hrow.
Qed.

End WithEnvironment.


Lemma names_setitem (df : DataFrame) (name : string) (c : list cell) :
  map fst (setitem df name c)
  = map fst df ++ (if mem name df then [] else [name]).
Proof.
  unfold mem. induction df as [|[k c'] df IH]; [reflexivity|].
  cbn [setitem lookup]. destruct (String.eqb name k) eqn:E.
  - cbn [map fst]. now rewrite app_nil_r.
  - cbn [map fst app]. f_equal. exact IH.
Qed.

Lemma lookup_setitem_eq (df : DataFrame) (name : string) (c : list cell) :
  lookup name (setitem df name c) = Some c.
Proof.
  induction df as [|[k c'] df IH]; cbn [setitem lookup].
  - now rewrite String.eqb_refl.
  - destruct (String.eqb name k) eqn:E; cbn [lookup]; rewrite E; [reflexivity|].
    exact IH.
Qed.

Lemma lookup_setitem_ne (df : DataFrame) (name other : string) (c : list cell) :
  String.eqb other name = false ->
  lookup other (setitem df name c) = lookup other df.
Proof.
  intros Hne. induction df as [|[k c'] df IH]; cbn [setitem lookup].
  - now rewrite Hne.
  - destruct (String.eqb name k) eqn:E; cbn [lookup].
    + apply String.eqb_eq in E. subst k. now rewrite Hne.
    + destruct (String.eqb other k); [reflexivity | exact IH].
Qed.

Lemma well_formed_setitem (n : nat) (df : DataFrame) (name : string)
    (c : list cell) :
  well_formed n df -> length c = n -> well_formed n (setitem df name c).
Proof.
  intros Hwf Hc. induction Hwf as [|[k c'] df Hk Hdf IH]; cbn [setitem].
  - constructor; [exact Hc | constructor].
  - destruct (String.eqb name k); constructor; cbn [snd] in *; assumption.
Qed.

Lemma well_formed_lookup (n : nat) (df : DataFrame) (name : string)
    (c : list cell) :
  well_formed n df -> lookup name df = Some c -> length c = n.
Proof.
  intros Hwf. induction Hwf as [|[k c'] df Hk _ IH]; cbn [lookup]; [discriminate|].
  destruct (String.eqb name k); [|exact IH].
  intros [= <-]. exact Hk.
Qed.

Lemma get_num_length (n : nat) (df : DataFrame) (name : string) (s : Series) :
  well_formed n df -> get_num df name = Ok s -> length s = n.
Proof.
  intros Hwf. unfold get_num, getitem.
  destruct (lookup name df) as [c|] eqn:E; [|discriminate]. cbn [bind].
  intros H. rewrite (mapM_length _ _ _ H).
  eapply well_formed_lookup; eauto.
Qed.

Lemma extra_columns_setitem (df : DataFrame) (name : string) (c : list cell) :
  in_header name = true ->
  extra_columns (setitem df name c) = extra_columns df.
Proof.
  intros Hin. unfold extra_columns. rewrite names_setitem, filter_app.
  destruct (mem name df); cbn [filter]; [now rewrite app_nil_r|].
  rewrite Hin. cbn [negb]. now rewrite app_nil_r.
Qed.

Lemma length_zip (f : fl -> fl -> fl) (a b : Series) (n : nat) :
  length a = n -> length b = n -> length (zip_with f a b) = n.
Proof.
  intros Ha Hb. unfold zip_with. rewrite length_map, length_combine. lia.
Qed.

Lemma length_scale (k : Q) (s : Series) : length (scale k s) = length s.
Proof. unfold scale. apply length_map. Qed.

Lemma length_rolling (w : nat) (agg : list Q -> fl) (s : Series) :
  length (rolling w agg s) = length s.
Proof. unfold rolling. now rewrite length_map, length_seq. Qed.

Lemma length_pct_change (s : Series) : length (pct_change s) = length s.
Proof.
  destruct s as [|x t]; [reflexivity|].
  cbn [pct_change length]. rewrite length_map, length_combine. cbn [length].
  f_equal. lia.
Qed.

Lemma kept_set_num (n : nat) (data d : DataFrame) (name : string) (s : Series) :
  kept n data d -> in_header name = true -> length s = n ->
  kept n data (set_num d name s).
Proof.
  intros [Hwf Hex] Hin Hs. unfold set_num. split.
  - apply well_formed_setitem; [exact Hwf | now rewrite length_map].
  - now rewrite extra_columns_setitem.
Qed.

(** The length of a derived column. *)
Ltac len_side :=
  unfold rolling_mean, rolling_std;
  repeat first
    [ rewrite length_scale | rewrite length_rolling | rewrite length_pct_change
    | apply length_zip
    | match goal with
      | K : kept _ _ ?df, E : get_num ?df _ = Ok ?s |- length ?s = _ =>
          exact (get_num_length _ _ _ _ (proj1 K) E)
      end ].

(** The next enrichment step keeps what the previous one kept. *)
Ltac next_kept K0 K name :=
  match type of K0 with
  | kept ?n ?data ?df =>
      match goal with
      | |- context [set_num df name ?s] =>
          assert (K : kept n data (set_num df name s))
            by (apply (kept_set_num n data df name s K0);
                [reflexivity | len_side])
      end
  end.

Section WithSchema.
Variable sqrtQ : Q -> Q.

Lemma enrich_kept (n : nat) (data d : DataFrame) :
  well_formed n data -> enrich sqrtQ data = Ok d ->
  kept n data d /\ mem "Volume_Ratio" d = true.
Proof.
  intros Hwf H. unfold enrich in H.
  assert (K0 : kept n data data) by (split; [exact Hwf | reflexivity]).
  repeat match type of H with
  | context [get_num ?df ?c] =>
      let s := fresh "s" in
      let E := fresh "E" in
      destruct (get_num df c) as [s|] eqn:E; cbn [bind] in H; [|discriminate]
  end.
  inversion H; subst d; clear H.
  next_kept K0 K1 constr:("Daily_Change").
  next_kept K1 K2 constr:("Daily_Change_Pct").
  next_kept K2 K3 constr:("Price_Range").
  next_kept K3 K4 constr:("Price_Range_Pct").
  next_kept K4 K5 constr:("MA_7").
  next_kept K5 K6 constr:("MA_20").
  next_kept K6 K7 constr:("MA_50").
  next_kept K7 K8 constr:("Volatility_7d").
  next_kept K8 K9 constr:("Volatility_20d").
  next_kept K9 K10 constr:("Volume_MA_20").
  next_kept K10 K11 constr:("Volume_Ratio").
  split; [exact K11|].
  unfold mem, set_num. now rewrite lookup_setitem_eq.
Qed.

Variable data_fetcher : DataFetcher.
Variable now : string.
Variable py_str : pyval -> string.

Lemma mem_metadata_row (symbol period : string) (info : dict) (name : string) :
  mem name (metadata_row now py_str symbol period info) = in_header name.
Proof.
  unfold mem, in_header, metadata_row, equities_header.
  cbn [lookup existsb].
  repeat (destruct (String.eqb name _); [reflexivity|]).
  reflexivity.
Qed.

Lemma well_formed_len (n : nat) (df : DataFrame) :
  well_formed n df -> df <> [] -> len df = n.
Proof.
  intros Hwf Hne. destruct df as [|[k c] df]; [congruence|].
  inversion Hwf; subst. reflexivity.
Qed.

Lemma length_column_or_nan (n : nat) (df : DataFrame) (name : string) :
  well_formed n df -> df <> [] -> length (column_or_nan df name) = n.
Proof.
  intros Hwf Hne. unfold column_or_nan.
  destruct (lookup name df) as [c|] eqn:E.
  - eapply well_formed_lookup; eauto.
  - rewrite repeat_length. now apply well_formed_len.
Qed.

(** The export of any frame the enrichment accepts: the header is the
    nineteen columns of the specification followed by the columns of the
    frame that are not among them, and there is one row per row of the
    frame after the banner. *)
Lemma export_of_any_frame (symbol period : string) (data : DataFrame)
    (info : dict) (n : nat) (d : DataFrame) :
  well_formed n data -> len data = n -> (0 < n)%nat ->
  get_stock_data data_fetcher symbol period = Ok (Some data) ->
  get_stock_info data_fetcher symbol = Ok info ->
  enrich sqrtQ data = Ok d ->
  exists banner rows,
    export_stock_historical_data sqrtQ data_fetcher now py_str symbol period
    = Ok (map CStr (equities_header ++ extra_columns data) :: banner :: rows)
    /\ length rows = n
    /\ nth_error banner 0 = Some (CStr "METADATA").
Proof.
  intros Hwf Hlen Hpos Hdata Hinfo Hd. unfold export_stock_historical_data.
  rewrite Hdata, Hinfo. cbn [bind]. unfold empty. rewrite Hlen.
  destruct (Nat.eqb_spec n 0) as [H0|_]; [lia|].
  rewrite Hd. cbn [bind catch].
  destruct (enrich_kept n data d Hwf Hd) as [[Hwfd Hex] Hmem].
  assert (Hne : d <> []).
  { intros E. rewrite E in Hmem. discriminate. }
  set (final := concat (metadata_row now py_str symbol period info) d).
  assert (Hnames : map fst final = equities_header ++ extra_columns data).
  { subst final. unfold concat. rewrite map_map. cbn [fst]. rewrite map_id.
    rewrite <- Hex. unfold extra_columns. f_equal.
    apply filter_ext. intros name. now rewrite mem_metadata_row. }
  assert (Hfirst : exists rest,
    final = ("Date", CStr "METADATA" :: column_or_nan d "Date") :: rest).
  { subst final. unfold concat. cbn [metadata_row map fst app].
    eexists. reflexivity. }
  destruct Hfirst as [rest Hfirst].
  assert (Hlenf : len final = S n).
  { rewrite Hfirst. cbn [len length].
    now rewrite (length_column_or_nan n d "Date" Hwfd Hne). }
  unfold to_csv. rewrite Hlenf, Hnames. cbn [seq map].
  exists (row final 0), (map (row final) (seq 1 n)).
  split; [reflexivity|]. split.
  - now rewrite length_map, length_seq.
  - rewrite Hfirst. reflexivity.
Qed.

End WithSchema.

Lemma export_rows_and_header_witness :
  exists banner rows,
    export_stock_historical_data Concrete.sqrt6 Concrete.scenario_fetcher
      "2024-01-02 10:00:00" Concrete.py_str "AAPL" "1y"
    = Ok (map CStr equities_header :: banner :: rows)
    /\ length (banner :: rows) = 3%nat.
Proof.
  destruct (export_rows_and_header Concrete.sqrt6 Concrete.scenario_fetcher
              "2024-01-02 10:00:00" Concrete.py_str "AAPL" "1y"
              Concrete.scenario1 [])
    as (banner & rows & H1 & H2 & _).
  - discriminate.
  - reflexivity.
  - reflexivity.
  - exists banner, rows. split; [exact H1 | exact H2].
Defined.

End ExportFacts.

Module BoundaryFacts.
Import Float Pandas OHLCV ResultFacts MetricsCalculator PortfolioManager
  DataExporter.
Local Open Scope string_scope.
Local Open Scope list_scope.

Lemma comparison_fold_missing (fetcher : DataFetcher) (period : string)
    (symbols : list string) (acc : list DataFrame) :
  Forall (no_series fetcher period) symbols ->
  foldM (comparison_step fetcher period) symbols acc = Ok acc.
Proof.
  induction 1 as [|s symbols Hs _ IH]; [reflexivity|].
  cbn [foldM]. unfold comparison_step at 1.
  destruct Hs as [Hs|(d & Hs & He)]; rewrite Hs; cbn [bind].
  - exact IH.
  - rewrite He. exact IH.
Qed.

(** Names the value of a [try] whose handler returns. *)
Ltac caught m :=
  match goal with
  | |- context [@catch ?A ?body (@Ok ?B ?a)] =>
      let H := fresh "Hcatch" in
      destruct (@catch_ok A body a) as [m H];
      change (@catch A body (@Ok B a)) with (@catch A body (@Ok A a));
      rewrite H
  end.

(** C9: none of the operations of the metrics calculator, of the portfolio
    performance and of the exporters raises, whatever frame, mapping or
    provider answer it is given.  An empty series gives the empty mapping
    from [calculate_metrics] and [calculate_technical_indicators]; a series
    the provider does not have, or has empty, or fails to deliver gives the
    empty string from the exporters (from the comparison export when that
    holds for each of its symbols); and a failure inside (a column that is
    missing, a loop that raises) gives the same empty result. *)
Theorem operations_never_raise :
  (forall format_fixed data info,
     exists m, calculate_metrics format_fixed data info = Ok m
       /\ (empty data = true -> m = [])
       /\ (forall e, get_num data "Close" = Raise e -> m = []))
  /\ (forall sqrtQ data,
        exists m, calculate_technical_indicators sqrtQ data = Ok m
          /\ (empty data = true -> m = [])
          /\ (forall e, get_num data "Close" = Raise e -> m = []))
  /\ (forall sqrtQ holdings all_data,
        exists m, calculate_portfolio_performance sqrtQ holdings all_data = Ok m
          /\ (forall e, perf_loop holdings all_data = Raise e -> m = []))
  /\ (forall sqrtQ fetcher now py_str symbol period,
        exists text,
          export_stock_historical_data sqrtQ fetcher now py_str symbol period
          = Ok text
          /\ (forall e, get_stock_data fetcher symbol period = Raise e ->
              text = [])
          /\ (get_stock_data fetcher symbol period = Ok None -> text = [])
          /\ (forall data, get_stock_data fetcher symbol period = Ok (Some data) ->
              empty data = true -> text = [])
          /\ (forall data e, get_stock_data fetcher symbol period = Ok (Some data) ->
              enrich sqrtQ data = Raise e -> text = []))
  /\ (forall sqrtQ fetcher symbol period,
        exists text,
          export_crypto_data sqrtQ fetcher symbol period = Ok text
          /\ (forall e, get_crypto_data fetcher symbol period = Raise e ->
              text = [])
          /\ (get_crypto_data fetcher symbol period = Ok None -> text = [])
          /\ (forall data, get_crypto_data fetcher symbol period = Ok (Some data) ->
              empty data = true -> text = []))
  /\ (forall fetcher sort_values symbols period,
        exists text,
          export_multiple_stocks_comparison fetcher sort_values symbols period
          = Ok text
          /\ (Forall (no_series fetcher period) symbols -> text = [])).
Proof.
  split; [|split; [|split; [|split; [|split]]]].
  - intros format_fixed data info. unfold calculate_metrics.
    destruct (empty data); [exists []; now repeat split|].
    destruct (get_num data "Close") as [c|e]; cbn [bind].
    + caught m. exists m. repeat split; discriminate.
    + exists []. now repeat split.
  - intros sqrtQ data. unfold calculate_technical_indicators.
    destruct (empty data); [exists []; now repeat split|].
    destruct (get_num data "Close") as [c|e]; cbn [bind].
    + caught m. exists m. repeat split; discriminate.
    + exists []. now repeat split.
  - intros sqrtQ holdings all_data. unfold calculate_portfolio_performance.
    destruct (perf_loop holdings all_data) as [acc|e]; cbn [bind].
    + caught m. exists m. split; [reflexivity | discriminate].
    + exists []. now split.
  - intros sqrtQ fetcher now py_str symbol period.
    unfold export_stock_historical_data.
    destruct (get_stock_data fetcher symbol period) as [[data|]|e]; cbn [bind].
    + destruct (get_stock_info fetcher symbol) as [info|e]; cbn [bind].
      * destruct (empty data) eqn:Ee.
        { exists []. repeat split; try reflexivity; discriminate. }
        destruct (enrich sqrtQ data) as [d|e] eqn:Een; cbn [bind catch].
        { eexists. split; [reflexivity|]. repeat split; try discriminate.
          - intros data' H. inversion H; subst. congruence.
          - intros data' e H. inversion H; subst. congruence. }
        exists []. repeat split; try reflexivity; discriminate.
      * exists []. now repeat split.
    + destruct (get_stock_info fetcher symbol) as [info|e]; cbn [bind catch];
        exists []; now repeat split.
    + exists []. now repeat split.
  - intros sqrtQ fetcher symbol period. unfold export_crypto_data.
    destruct (get_crypto_data fetcher symbol period) as [[data|]|e]; cbn [bind].
    + destruct (empty data) eqn:Ee.
      { exists []. now repeat split. }
      cbv iota. caught text. exists text. repeat split; try discriminate.
      intros data' H. inversion H; subst. congruence.
    + exists []. now repeat split.
    + exists []. now repeat split.
  - intros fetcher sort_values symbols period.
    unfold export_multiple_stocks_comparison.
    destruct (foldM (comparison_step fetcher period) symbols []) as [l|e] eqn:E.
    + destruct l as [|first rest]; cbn [bind].
      * exists []. now split.
      * caught text. exists text. split; [reflexivity|].
        intros Hno. rewrite (comparison_fold_missing _ _ _ _ Hno) in E.
        discriminate.
    + exists []. now split.
Qed.

End BoundaryFacts.


(** The concrete scenarios of the specification, run on the model. *)
Module Scenarios.
Import Float Pandas OHLCV MetricsCalculator PortfolioManager DataExporter.
Local Open Scope string_scope.
Local Open Scope list_scope.

Example scenario1_change :
  exists m,
    calculate_metrics Concrete.format_fixed (frame_of Concrete.scenario1) [] = Ok m
    /\ lookup "Price Change" m = Some (VNum (Fin (-1)))
    /\ lookup "Percent Change" m = Some (VNum (Fin (-100 # 102))).
Proof. eexists. repeat split; reflexivity. Qed.

Example scenario2_empty_series :
  calculate_metrics Concrete.format_fixed (frame_of []) [] = Ok []
  /\ export_stock_historical_data Concrete.sqrt6 Concrete.empty_fetcher
       "2024-01-02 10:00:00" Concrete.py_str "ZZZZINVALID" "1y" = Ok [].
Proof. split; reflexivity. Qed.

Example scenario3_valuation :
  exists m,
    calculate_portfolio_performance Concrete.sqrt6 Concrete.scenario3_holdings
      Concrete.scenario3_data = Ok m
    /\ lookup "total_investment" m = Some (VNum (Fin 1500))
    /\ lookup "current_value" m = Some (VNum (Fin 1650))
    /\ lookup "total_return" m = Some (VNum (Fin 150))
    /\ lookup "total_return_pct" m = Some (VNum (Fin (15000 # 1500))).
Proof. eexists. repeat split; reflexivity. Qed.

Example scenario4_rising_values :
  _calculate_max_drawdown Concrete.scenario3_holdings
    [("AAPL", frame_of [Concrete.flat_bar 150; Concrete.flat_bar 160;
                        Concrete.flat_bar 165])]
  = Ok (Fin (0 # 1500)).
Proof. reflexivity. Qed.

End Scenarios.

Module CacheManagerFacts.
Import CacheManager.

Lemma upper_ascii_idem (c : ascii) : upper_ascii (upper_ascii c) = upper_ascii c.
Proof. destruct c as [[] [] [] [] [] [] [] []]; reflexivity. Qed.

Lemma upper_idem (s : string) : upper (upper s) = upper s.
Proof.
  induction s as [|c s IH]; simpl; [reflexivity|].
  now rewrite upper_ascii_idem, IH.
Qed.

Lemma contains_In (x : string) (l : list string) :
  contains x l = true <-> In x l.
Proof.
  induction l as [|y l IH]; simpl.
  - split; [discriminate | tauto].
  - destruct (String.eqb_spec x y) as [->|Hne].
    + split; auto.
    + rewrite IH. split; [auto | intros [H|H]; [congruence | exact H]].
Qed.

Lemma remove_first_In (x y : string) (l : list string) :
  In y (remove_first x l) -> In y l.
Proof.
  induction l as [|z l IH]; simpl; [tauto|].
  destruct (String.eqb_spec x z); simpl; intuition.
Qed.

Lemma remove_first_NoDup (x : string) (l : list string) :
  NoDup l -> NoDup (remove_first x l) /\ ~ In x (remove_first x l).
Proof.
  induction l as [|z l IH]; simpl; intros Hnd.
  - split; [constructor | tauto].
  - inversion Hnd as [|? ? Hz Hl]; subst.
    destruct (String.eqb_spec x z) as [->|Hne]; [now split|].
    destruct (IH Hl) as [IH1 IH2]. split.
    + constructor; [|exact IH1].
      intros Hin. apply Hz. eapply remove_first_In; eauto.
    + simpl. intros [H|H]; [congruence | tauto].
Qed.

Lemma remove_first_length (x : string) (l : list string) :
  In x l -> S (length (remove_first x l)) = length l.
Proof.
  induction l as [|z l IH]; simpl; [tauto|].
  destruct (String.eqb_spec x z) as [->|Hne]; [reflexivity|].
  intros [H|H]; [congruence|]. simpl. now rewrite IH.
Qed.

Lemma remove_first_Forall (P : string -> Prop) (x : string) (l : list string) :
  Forall P l -> Forall P (remove_first x l).
Proof.
  induction 1 as [|z l Hz Hl IH]; simpl; [constructor|].
  destruct (String.eqb x z); [exact Hl | now constructor].
Qed.

Lemma firstn_NoDup {A : Type} (n : nat) (l : list A) :
  NoDup l -> NoDup (firstn n l).
Proof.
  revert l; induction n as [|n IH]; intros l Hnd; simpl; [constructor|].
  destruct l as [|a l]; [constructor|].
  inversion Hnd as [|? ? Ha Hl]; subst. constructor; [|now apply IH].
  intros Hin. apply Ha. rewrite <- (firstn_skipn n l).
  apply in_or_app. now left.
Qed.

Lemma add_unfold (symbol : string) (st : session_state) :
  add_to_search_history symbol st =
    let h := moved_to_front symbol (get_search_history st) in
    Some (if (max_history <? length h)%nat then firstn max_history h else h).
Proof. destruct st; reflexivity. Qed.

Lemma moved_to_front_NoDup (symbol : string) (h : list string) :
  NoDup h -> NoDup (moved_to_front symbol h).
Proof.
  intros Hnd. unfold moved_to_front.
  destruct (contains (upper symbol) h) eqn:Hc.
  - destruct (remove_first_NoDup (upper symbol) h Hnd). now constructor.
  - constructor; [|exact Hnd].
    rewrite <- contains_In, Hc. discriminate.
Qed.

Lemma moved_to_front_upper (symbol : string) (h : list string) :
  Forall uppercased h -> Forall uppercased (moved_to_front symbol h).
Proof.
  intros Hu. unfold moved_to_front. constructor; [apply upper_idem|].
  destruct (contains (upper symbol) h); [now apply remove_first_Forall | exact Hu].
Qed.

Lemma add_preserves (symbol : string) (st : session_state) :
  history_ok (get_search_history st) ->
  history_ok (get_search_history (add_to_search_history symbol st)).
Proof.
  intros (Hlen & Hnd & Hup). rewrite add_unfold. cbv zeta.
  set (h := moved_to_front symbol (get_search_history st)).
  assert (Hnd' : NoDup h) by now apply moved_to_front_NoDup.
  assert (Hup' : Forall uppercased h) by now apply moved_to_front_upper.
  cbn [get_search_history].
  destruct (Nat.ltb_spec max_history (length h)) as [Hgt|Hle].
  - repeat split.
    + rewrite length_firstn. lia.
    + now apply firstn_NoDup.
    + rewrite <- (firstn_skipn max_history h) in Hup'.
      now apply Forall_app in Hup'.
  - repeat split; assumption.
Qed.

Lemma add_all_preserves (symbols : list string) (st : session_state) :
  history_ok (get_search_history st) ->
  history_ok (get_search_history (add_all symbols st)).
Proof.
  revert st. induction symbols as [|s l IH]; intros st H; simpl; [exact H|].
  apply IH. now apply add_preserves.
Qed.

Lemma add_front (symbol : string) (st : session_state) :
  hd_error (get_search_history (add_to_search_history symbol st))
  = Some (upper symbol).
Proof.
  rewrite add_unfold. cbv zeta. unfold moved_to_front.
  destruct (max_history <? _)%nat; reflexivity.
Qed.

Lemma add_present (symbol : string) (st : session_state) :
  history_ok (get_search_history st) ->
  In (upper symbol) (get_search_history st) ->
  get_search_history (add_to_search_history symbol st)
  = upper symbol :: remove_first (upper symbol) (get_search_history st)
  /\ length (get_search_history (add_to_search_history symbol st))
     = length (get_search_history st).
Proof.
  intros (Hlen & _ & _) Hin. rewrite add_unfold. cbv zeta.
  unfold moved_to_front.
  apply contains_In in Hin as Hc. rewrite Hc.
  apply remove_first_length in Hin.
  simpl length. rewrite Hin.
  destruct (Nat.ltb_spec max_history (length (get_search_history st))); [lia|].
  simpl. now split.
Qed.

Lemma history_ok_empty : history_ok (get_search_history None).
Proof. repeat split; simpl; [unfold max_history; lia | constructor | constructor]. Qed.

(** C10: after any sequence of [add_to_search_history] calls, starting
    with no history, the list has at most 10 entries, no duplicates, only
    uppercased entries, and the symbol added last is at its front; adding
    a symbol that is already present moves it to the front and leaves the
    length unchanged. *)
Theorem search_history_invariant (symbols : list string) (symbol : string) :
  let before := get_search_history (add_all symbols None) in
  let after := get_search_history (add_all (symbols ++ [symbol]) None) in
  (length after <= 10)%nat
  /\ NoDup after
  /\ Forall uppercased after
  /\ hd_error after = Some (upper symbol)
  /\ (In (upper symbol) before ->
      after = upper symbol :: remove_first (upper symbol) before
      /\ length after = length before).
Proof.
  cbv zeta. unfold add_all. rewrite fold_left_app. simpl.
  fold (add_all symbols None).
  pose proof (add_all_preserves symbols None history_ok_empty) as Hok.
  destruct (add_preserves symbol _ Hok) as (H1 & H2 & H3).
  repeat split; try assumption.
  - apply add_front.
  - now apply add_present.
  - now apply add_present.
Qed.

End CacheManagerFacts.

(** * Further properties of the code *)

Module IndicatorFacts.
Import Float Pandas OHLCV ResultFacts PandasFacts RollingFacts MetricsCalculator
  RsiFacts BollingerFacts Indicators.
Local Open Scope string_scope.
Local Open Scope list_scope.

Lemma all_finite_map_Fin (qs : list Q) : all_finite (map Fin qs) = Some qs.
Proof.
  induction qs as [|q qs IH]; [reflexivity|]. cbn [map all_finite].
  now rewrite IH.
Qed.

(** The last value of a rolling aggregate over finite values. *)
Lemma rolling_at_last_finite (w : nat) (agg : list Q -> fl) (qs : list Q)
    (k : nat) :
  length qs = S k ->
  rolling_at w agg (map Fin qs) k
  = if (w <=? S k)%nat then agg (skipn (S k - w) qs) else NaN.
Proof.
  intros Hlen. unfold rolling_at. cbv zeta.
  assert (Hlen' : length (map Fin qs) = S k) by now rewrite length_map.
  rewrite (window_last_length w _ k Hlen').
  unfold window.
  replace (firstn (S k) (map Fin qs)) with (map Fin qs)
    by (rewrite <- Hlen'; symmetry; apply firstn_all).
  rewrite skipn_map, all_finite_map_Fin.
  destruct (Nat.leb_spec w (S k)) as [H|H].
  - replace (Nat.min w (S k) <? w)%nat with false; [reflexivity|].
    symmetry. apply Nat.ltb_ge. lia.
  - replace (Nat.min w (S k) <? w)%nat with true; [reflexivity|].
    symmetry. apply Nat.ltb_lt. lia.
Qed.

Lemma closes_as_map (bars : list Bar) : closes bars = map Fin (map close bars).
Proof. unfold closes. now rewrite map_map. Qed.

Lemma calculate_macd_ok (prices : Series) (fast slow signal : nat) :
  exists r, _calculate_macd prices fast slow signal = Ok r.
Proof. unfold _calculate_macd. apply catch_ok. Qed.

Lemma calculate_bollinger_ok (sqrtQ : Q -> Q) (prices : Series) (period : nat)
    (k : Q) :
  exists r, _calculate_bollinger_bands sqrtQ prices period k = Ok r.
Proof. unfold _calculate_bollinger_bands. apply catch_ok. Qed.

Section WithSqrt.
Variable sqrtQ : Q -> Q.

(** X1: the [sma_20] and [sma_50] entries of the indicator mapping are the
    arithmetic mean of the last 20 (50) closes when the series has that many
    bars, and 0 when it is shorter (a partial average is never reported). *)
Theorem sma_entries (bars : list Bar) :
  bars <> [] ->
  exists m,
    calculate_technical_indicators sqrtQ (frame_of bars) = Ok m
    /\ lookup "sma_20" m
       = Some (VNum (Fin (if (20 <=? length bars)%nat
                          then trailing_mean 20 bars else 0)))
    /\ lookup "sma_50" m
       = Some (VNum (Fin (if (50 <=? length bars)%nat
                          then trailing_mean 50 bars else 0))).
Proof.
  intros Hne. destruct bars as [|b0 bs] eqn:Eb; [congruence|].
  rewrite <- Eb. assert (Hlen : length (map close bars) = S (length bs)).
  { rewrite Eb, length_map. reflexivity. }
  assert (Hlenb : length bars = S (length bs)) by now rewrite Eb.
  assert (Hlen' : length (closes bars) = S (length bs)).
  { unfold closes. now rewrite length_map. }
  unfold calculate_technical_indicators, empty.
  rewrite len_frame_of, get_num_frame_close, Hlenb. cbn [Nat.eqb bind].
  destruct (rolling_snoc 20 (fun qs => Fin (Qmean qs)) _ _ Hlen')
    as (i20 & E20 & _).
  destruct (rolling_snoc 50 (fun qs => Fin (Qmean qs)) _ _ Hlen')
    as (i50 & E50 & _).
  unfold rolling_mean. rewrite E20, E50, !iloc_neg_last. cbn [bind].
  destruct (calculate_rsi_ok (closes bars) 14) as (r & Er). rewrite Er.
  destruct (calculate_bollinger_ok sqrtQ (closes bars) 20 2) as ([u l] & Ebb).
  rewrite Ebb.
  destruct (calculate_macd_ok (closes bars) 12 26 9) as ([ml ms] & Emacd).
  rewrite Emacd. cbn [bind catch].
  eexists. split; [reflexivity|].
  cbn [lookup String.eqb Ascii.eqb Bool.eqb].
  rewrite closes_as_map, !(rolling_at_last_finite _ _ _ _ Hlen).
  unfold trailing_mean. rewrite Hlenb.
  split.
  - destruct (20 <=? S (length bs))%nat; reflexivity.
  - destruct (50 <=? S (length bs))%nat; reflexivity.
Qed.

(** X2: with at least 20 bars, the Bollinger bands are centred on the
    mean of the last 20 closes, and their distance is four sample standard
    deviations of those closes. *)
Theorem bollinger_centred_on_mean (bars : list Bar) :
  (20 <= length bars)%nat ->
  exists upper lower,
    _calculate_bollinger_bands sqrtQ (closes bars) 20 2 = Ok (Fin upper, Fin lower)
    /\ (upper + lower) / 2 == trailing_mean 20 bars
    /\ upper - lower
       == 4 * sqrtQ (Qsumsq (skipn (length bars - 20) (map close bars))
                     / inject_Z 19).
Proof.
  intros Hlong. destruct bars as [|b0 bs] eqn:Eb; [simpl in Hlong; lia|].
  rewrite <- Eb in *. assert (Hlen : length (map close bars) = S (length bs)).
  { rewrite Eb, length_map. reflexivity. }
  assert (Hlenb : length bars = S (length bs)) by now rewrite Eb.
  assert (Hlen' : length (closes bars) = S (length bs)).
  { unfold closes. now rewrite length_map. }
  unfold _calculate_bollinger_bands, rolling_mean, rolling_std.
  destruct (rolling_snoc 20 (fun qs => Fin (Qmean qs)) _ _ Hlen')
    as (mi & Em & Hmi).
  destruct (rolling_snoc 20 (Qstd_sample sqrtQ) _ _ Hlen') as (si & Es & Hsi).
  rewrite Em, Es. rewrite map_app. cbn [map].
  rewrite !zip_with_snoc by (rewrite length_map; congruence).
  rewrite !iloc_neg_last. cbn [bind catch].
  rewrite closes_as_map, !(rolling_at_last_finite _ _ _ _ Hlen).
  replace (20 <=? S (length bs))%nat with true
    by (symmetry; apply Nat.leb_le; lia).
  set (win := skipn (S (length bs) - 20) (map close bars)).
  assert (Hwin : length win = 20%nat).
  { subst win. rewrite length_skipn, Hlen. lia. }
  unfold Qstd_sample. rewrite Hwin. cbn [Nat.leb Nat.sub].
  cbn [fmul fadd fsub fopp].
  eexists. eexists. split; [reflexivity|].
  unfold trailing_mean. rewrite Hlenb. fold win. split.
  - field.
  - change (inject_Z (Z.of_nat 19)) with (inject_Z 19). ring.
Qed.

End WithSqrt.

Lemma sma_entries_witness :
  exists m,
    calculate_technical_indicators Concrete.sqrt6 (frame_of Samples.rising_bars)
    = Ok m
    /\ lookup "sma_20" m
       = Some (VNum (Fin (if (20 <=? length Samples.rising_bars)%nat
                          then trailing_mean 20 Samples.rising_bars else 0)))
    /\ lookup "sma_50" m
       = Some (VNum (Fin (if (50 <=? length Samples.rising_bars)%nat
                          then trailing_mean 50 Samples.rising_bars else 0))).
Proof. apply (sma_entries Concrete.sqrt6 Samples.rising_bars). discriminate. Defined.

Lemma bollinger_centred_on_mean_witness :
  exists upper lower,
    _calculate_bollinger_bands Concrete.sqrt6 (closes Samples.rising_bars) 20 2
    = Ok (Fin upper, Fin lower)
    /\ (upper + lower) / 2 == trailing_mean 20 Samples.rising_bars
    /\ upper - lower
       == 4 * Concrete.sqrt6
                (Qsumsq (skipn (length Samples.rising_bars - 20)
                           (map close Samples.rising_bars))
                 / inject_Z 19).
Proof.
  apply (bollinger_centred_on_mean Concrete.sqrt6 Samples.rising_bars).
  cbn [Samples.rising_bars map length]. lia.
Defined.

(** X3: the MACD line and signal of a flat series are both 0, and the
    empty series gives the fallback (0.0, 0.0). *)
Theorem macd_of_flat_series (c : Q) (n : nat) :
  _calculate_macd [] 12 26 9 = Ok (Fin 0, Fin 0)
  /\ exists line signal,
       _calculate_macd (repeat (Fin c) (S n)) 12 26 9 = Ok (Fin line, Fin signal)
       /\ line == 0 /\ signal == 0.
Proof.
  split; [reflexivity|].
  assert (Hscan : forall (x : Q) alpha w k,
    ewm_scan alpha (Fin x, w) (repeat (Fin x) k) = repeat (Fin x) k).
  { intros x alpha w k. revert w. induction k as [|k IH]; intros w; [reflexivity|].
    cbn [repeat ewm_scan]. unfold ewm_step at 1 2. cbn [isnan feqb].
    rewrite Qeq_bool_refl. cbn [fst]. f_equal. apply IH. }
  assert (Hewm : forall (x : Q) span k,
    ewm_mean span (repeat (Fin x) (S k)) = repeat (Fin x) (S k)).
  { intros x span k. unfold ewm_mean. cbn [repeat]. f_equal. apply Hscan. }
  assert (Hzip : forall k,
    zip_with fsub (repeat (Fin c) k) (repeat (Fin c) k) = repeat (Fin (c + - c)) k).
  { induction k as [|k IH]; [reflexivity|].
    unfold zip_with in *. cbn [repeat combine map fst snd]. now rewrite IH. }
  assert (Hlast : forall (x : fl) k, iloc_neg 1 (repeat x (S k)) = Ok x).
  { intros x k. replace (repeat x (S k)) with (repeat x k ++ [x]).
    - apply iloc_neg_last.
    - rewrite <- repeat_cons. reflexivity. }
  unfold _calculate_macd. cbv zeta. rewrite !Hewm, Hzip, Hewm, Hlast.
  cbn [bind catch].
  exists (c + - c), (c + - c). split; [reflexivity|]. split; ring.
Qed.

(** X4: when the rolling loss average is positive, the value
    [_calculate_rsi] returns is 100 g / (g + l) for the rolling gain average
    g and loss average l; in particular 0 when there were no gains. *)
Theorem rsi_closed_form (prices : Series) (g l : Q) :
  iloc_neg 1 (rsi_gain 14 prices) = Ok (Fin g) ->
  iloc_neg 1 (rsi_loss 14 prices) = Ok (Fin l) ->
  0 < l ->
  exists r,
    _calculate_rsi prices 14 = Ok (Fin r)
    /\ r == 100 * g / (g + l)
    /\ (g == 0 -> r == 0).
Proof.
  intros Hg Hl Hpos.
  destruct prices as [|p0 ps] eqn:E; [discriminate|]. rewrite <- E in *.
  assert (Hlen : length prices = S (length ps)) by now subst.
  destruct (calculate_rsi_last prices 14 _ Hlen) as (Hg' & Hl' & Hr).
  rewrite Hg in Hg'. rewrite Hl in Hl'.
  inversion Hg' as [Eg]. inversion Hl' as [El]. rewrite Hr, <- Eg, <- El.
  assert (Hgn : 0 <= g).
  { destruct (rolling_mean_at_nonneg 14 (gains prices) (length ps)
                (gains_nonneg prices)) as [Hn|(q & Hq & Hq0)].
    - rewrite Hn in Eg. discriminate.
    - rewrite Hq in Eg. inversion Eg. subst. exact Hq0. }
  unfold rsi_result, rsi_of_rs. cbv zeta.
  assert (Ers : fdiv (Fin g) (Fin l) = Fin (g / l)).
  { unfold fdiv. destruct (Qeq_bool l 0) eqn:E0; [|reflexivity].
    apply Qeq_bool_eq in E0. lra. }
  rewrite Ers. cbn [fadd].
  assert (Hrs : 0 <= g / l).
  { unfold Qdiv. apply Qmult_le_0_compat; [exact Hgn|].
    apply Qinv_le_0_compat. lra. }
  assert (Ediv : fdiv (Fin 100) (Fin (1 + g / l)) = Fin (100 / (1 + g / l))).
  { unfold fdiv. destruct (Qeq_bool (1 + g / l) 0) eqn:E1; [|reflexivity].
    apply Qeq_bool_eq in E1. lra. }
  rewrite Ediv. cbn [fsub fopp fadd isnan negb].
  eexists. split; [reflexivity|].
  assert (Hform : 100 + - (100 / (1 + g / l)) == 100 * g / (g + l)).
  { field. split; lra. }
  split; [exact Hform|].
  intros H0. rewrite Hform, H0. field. lra.
Qed.

Lemma rsi_closed_form_witness :
  exists r,
    _calculate_rsi Samples.falling_last 14 = Ok (Fin r)
    /\ r == 100 * (13 # 14) / ((13 # 14) + (1 # 14))
    /\ ((13 # 14) == 0 -> r == 0).
Proof.
  apply (rsi_closed_form Samples.falling_last (13 # 14) (1 # 14)).
  - reflexivity.
  - reflexivity.
  - reflexivity.
Defined.

End IndicatorFacts.

Module MetricsEntryFacts.
Import Float Pandas OHLCV ResultFacts PandasFacts MetricsCalculator MetricsFacts.
Local Open Scope string_scope.
Local Open Scope list_scope.

Lemma fold_fmax_fin (qs : list Q) (a : Q) :
  exists m,
    fold_left fmax (map Fin qs) (Fin a) = Fin m
    /\ (m = a \/ In m qs)
    /\ a <= m /\ Forall (fun q => q <= m) qs.
Proof.
  revert a. induction qs as [|q qs IH]; intros a.
  - exists a. repeat split; [now left | apply Qle_refl | constructor].
  - cbn [map fold_left].
    assert (E : (fmax (Fin a) (Fin q) = Fin q /\ a <= q)
                \/ (fmax (Fin a) (Fin q) = Fin a /\ q <= a)).
    { unfold fmax, flt. destruct (Qle_bool q a) eqn:E; cbn [negb].
      - right. split; [reflexivity|]. now apply Qle_bool_iff.
      - left. split; [reflexivity|].
        destruct (Qlt_le_dec a q) as [H|H]; [now apply Qlt_le_weak|].
        apply Qle_bool_iff in H. congruence. }
    destruct E as [[E Hle]|[E Hle]]; rewrite E.
    + destruct (IH q) as (m & Em & Hin & Hm & Hall).
      exists m. split; [exact Em|]. split.
      { right. destruct Hin as [->|Hin]; [now left | now right]. }
      split; [lra|]. constructor; assumption.
    + destruct (IH a) as (m & Em & Hin & Hm & Hall).
      exists m. split; [exact Em|]. split.
      { destruct Hin as [->|Hin]; [now left | right; now right]. }
      split; [exact Hm|]. constructor; [lra | exact Hall].
Qed.

Lemma fold_fmin_fin_bounds (qs : list Q) (a : Q) :
  exists m,
    fold_left fmin (map Fin qs) (Fin a) = Fin m
    /\ (m = a \/ In m qs)
    /\ m <= a /\ Forall (fun q => m <= q) qs.
Proof.
  revert a. induction qs as [|q qs IH]; intros a.
  - exists a. repeat split; [now left | apply Qle_refl | constructor].
  - cbn [map fold_left].
    assert (E : (fmin (Fin a) (Fin q) = Fin q /\ q <= a)
                \/ (fmin (Fin a) (Fin q) = Fin a /\ a <= q)).
    { unfold fmin, flt. destruct (Qle_bool a q) eqn:E; cbn [negb].
      - right. split; [reflexivity|]. now apply Qle_bool_iff.
      - left. split; [reflexivity|].
        destruct (Qlt_le_dec q a) as [H|H]; [now apply Qlt_le_weak|].
        apply Qle_bool_iff in H. congruence. }
    destruct E as [[E Hle]|[E Hle]]; rewrite E.
    + destruct (IH q) as (m & Em & Hin & Hm & Hall).
      exists m. split; [exact Em|]. split.
      { right. destruct Hin as [->|Hin]; [now left | now right]. }
      split; [lra|]. constructor; assumption.
    + destruct (IH a) as (m & Em & Hin & Hm & Hall).
      exists m. split; [exact Em|]. split.
      { destruct Hin as [->|Hin]; [now left | right; now right]. }
      split; [exact Hm|]. constructor; [lra | exact Hall].
Qed.

Lemma series_max_finite (qs : list Q) :
  qs <> [] ->
  exists m, series_max (map Fin qs) = Fin m /\ In m qs
            /\ Forall (fun q => q <= m) qs.
Proof.
  intros Hne. unfold series_max. rewrite dropna_finite.
  destruct qs as [|a qs]; [congruence|]. cbn [map].
  destruct (fold_fmax_fin qs a) as (m & Em & Hin & Hm & Hall).
  exists m. split; [exact Em|]. split.
  - destruct Hin as [->|Hin]; [now left | now right].
  - constructor; assumption.
Qed.

Lemma series_min_finite (qs : list Q) :
  qs <> [] ->
  exists m, series_min (map Fin qs) = Fin m /\ In m qs
            /\ Forall (fun q => m <= q) qs.
Proof.
  intros Hne. unfold series_min. rewrite dropna_finite.
  destruct qs as [|a qs]; [congruence|]. cbn [map].
  destruct (fold_fmin_fin_bounds qs a) as (m & Em & Hin & Hm & Hall).
  exists m. split; [exact Em|]. split.
  - destruct Hin as [->|Hin]; [now left | now right].
  - constructor; assumption.
Qed.

Section WithFormat.
Variable format_fixed : nat -> fl -> string.

(** X5: for a non-empty series, [calculate_metrics] reports the last close
    as Current Price and the last volume as Volume; 52W High is the largest
    high of the series and 52W Low the smallest low: each is the value of
    one bar and bounds all bars. *)
Theorem metrics_levels (pre : list Bar) (b : Bar) (info : dict) :
  info_numeric info ->
  exists m hi lo,
    calculate_metrics format_fixed (frame_of (pre ++ [b])) info = Ok m
    /\ lookup "Current Price" m = Some (VNum (Fin (close b)))
    /\ lookup "Volume" m = Some (VNum (Fin (inject_Z (volume b))))
    /\ lookup "52W High" m = Some (VNum (Fin hi))
    /\ In hi (map high (pre ++ [b]))
    /\ Forall (fun x => high x <= hi) (pre ++ [b])
    /\ lookup "52W Low" m = Some (VNum (Fin lo))
    /\ In lo (map low (pre ++ [b]))
    /\ Forall (fun x => lo <= low x) (pre ++ [b]).
Proof.
  intros [Hmc Hdy].
  destruct (format_market_cap_ok format_fixed info Hmc) as [mc Emc].
  destruct (format_percentage_ok format_fixed info Hdy) as [dy Edy].
  set (bars := pre ++ [b]).
  assert (Hne : bars <> []) by (subst bars; destruct pre; discriminate).
  destruct (series_max_finite (map high bars)) as (hi & Ehi & Hhi & Hahi).
  { destruct bars; [congruence | discriminate]. }
  destruct (series_min_finite (map low bars)) as (lo & Elo & Hlo & Halo).
  { destruct bars; [congruence | discriminate]. }
  rewrite map_map in Ehi, Elo.
  unfold calculate_metrics.
  assert (Hlen : len (frame_of bars) = S (length pre)).
  { subst bars. rewrite len_frame_of, length_app. simpl. lia. }
  unfold empty. rewrite Hlen. cbn [Nat.eqb].
  rewrite get_num_frame_close, get_num_frame_high, get_num_frame_low,
    get_num_frame_volume.
  cbn [bind]. rewrite Ehi, Elo. unfold closes. subst bars.
  rewrite !map_app. cbn [map]. rewrite !iloc_neg_last. cbn [bind].
  destruct (if (1 <? S (length pre))%nat
            then iloc_neg 2 (map (fun b0 => Fin (close b0)) pre ++ [Fin (close b)])
            else Ok (Fin (close b))) as [prev|e] eqn:Eprev.
  2: { exfalso. destruct pre as [|p pre'] using rev_ind; [discriminate|].
       rewrite length_app in Eprev. cbn [length] in Eprev.
       replace (1 <? S (length pre' + 1))%nat with true in Eprev
         by (symmetry; apply Nat.ltb_lt; lia).
       rewrite map_app in Eprev. cbn [map] in Eprev.
       rewrite <- app_assoc in Eprev. cbn [app] in Eprev.
       rewrite iloc_neg_last2 in Eprev. discriminate. }
  cbn [bind]. rewrite Emc. cbn [bind py_int].
  destruct (series_mean_finite
              (map (fun b0 => inject_Z (volume b0)) (pre ++ [b])))
    as [avg Eavg].
  { destruct pre; discriminate. }
  rewrite map_map, map_app in Eavg. cbn [map] in Eavg. rewrite Eavg.
  cbn [bind py_int]. rewrite Edy. cbn [bind catch].
  eexists. exists hi, lo. split; [reflexivity|].
  cbn [lookup String.eqb Ascii.eqb Bool.eqb].
  split; [reflexivity|]. split.
  { cbn [inject_Z Qnum Qden]. now rewrite Z.quot_1_r. }
  rewrite Forall_map in Hahi, Halo. rewrite map_app in Hhi, Hlo.
  cbn [map] in Hhi, Hlo.
  repeat split; assumption.
Qed.

(** X6: a text in the [marketCap] or [dividendYield] field of [info] makes
    the formatting helper raise, and [calculate_metrics] then returns the
    empty mapping although the series is not empty. *)
Theorem metrics_empty_on_text_info (bars : list Bar) (info : dict) (s : string) :
  bars <> [] ->
  (lookup "marketCap" info = Some (VStr s) /\ s <> EmptyString)
  \/ lookup "dividendYield" info = Some (VStr s) ->
  calculate_metrics format_fixed (frame_of bars) info = Ok [].
Proof.
  intros Hne Htext. unfold calculate_metrics, empty.
  rewrite len_frame_of.
  destruct (Nat.eqb_spec (length bars) 0) as [H0|_].
  { destruct bars; [congruence | discriminate]. }
  assert (Hraise : forall A (r : result A) (k : A -> result dict),
    (forall a, r = Ok a -> exists e, k a = Raise e) ->
    exists e, bind r k = Raise e).
  { intros A r k H. destruct r as [a|e]; [apply (H a eq_refl) | now exists e]. }
  assert (Hbody : forall body : result dict,
    (exists e, body = Raise e) -> catch body (Ok []) = Ok []).
  { intros body [e ->]. reflexivity. }
  apply Hbody.
  do 7 (apply Hraise; intros ? _; cbv zeta).
  destruct Htext as [[Hmc Hs]|Hdy].
  - unfold dict_get at 1. rewrite Hmc. cbn [_format_market_cap].
    destruct (String.eqb_spec s EmptyString) as [->|_]; [congruence|].
    cbn [bind]. now eexists.
  - do 3 (apply Hraise; intros ? _).
    unfold dict_get at 1. rewrite Hdy. cbn [_format_percentage bind].
    now eexists.
Qed.

End WithFormat.

Lemma metrics_levels_witness :
  exists m hi lo,
    calculate_metrics Concrete.format_fixed (frame_of Concrete.scenario1) [] = Ok m
    /\ lookup "Current Price" m = Some (VNum (Fin 101))
    /\ lookup "52W High" m = Some (VNum (Fin hi))
    /\ lookup "52W Low" m = Some (VNum (Fin lo))
    /\ Forall (fun x => high x <= hi /\ lo <= low x) Concrete.scenario1.
Proof.
  destruct (metrics_levels Concrete.format_fixed
              [Concrete.bar "d1" 100 105 99 102 1000]
              (Concrete.bar "d2" 102 103 100 101 1200) [])
    as (m & hi & lo & Hm & Hc & _ & Hhi & _ & Hahi & Hlo & _ & Halo).
  - split; exact I.
  - exists m, hi, lo. split; [exact Hm|]. split; [exact Hc|].
    split; [exact Hhi|]. split; [exact Hlo|].
    rewrite Forall_forall in Hahi, Halo. apply Forall_forall.
    intros x Hx. split; [apply Hahi | apply Halo]; exact Hx.
Defined.

Lemma metrics_empty_on_text_info_witness :
  calculate_metrics Concrete.format_fixed (frame_of Concrete.scenario1)
    [("dividendYield", VStr "n/a")] = Ok [].
Proof.
  apply (metrics_empty_on_text_info Concrete.format_fixed Concrete.scenario1
           [("dividendYield", VStr "n/a")] "n/a").
  - discriminate.
  - right. reflexivity.
Defined.

End MetricsEntryFacts.

Module ValuationFacts.
Import Float Pandas OHLCV ResultFacts PandasFacts PortfolioManager PortfolioFacts
  DrawdownFacts ValuationDefs.
Local Open Scope string_scope.
Local Open Scope list_scope.

Lemma iloc_neg_last_close (bars : list Bar) :
  bars <> [] -> iloc_neg 1 (closes bars) = Ok (Fin (last_close bars)).
Proof.
  intros Hne. destruct (exists_last Hne) as (pre & b & ->).
  unfold closes, last_close. rewrite !map_app. cbn [map].
  rewrite iloc_neg_last, last_last. reflexivity.
Qed.

Lemma pydiv_nonzero (a b : Q) : ~ b == 0 -> pydiv a b = Ok (a / b).
Proof.
  intros H. unfold pydiv. destruct (Qeq_bool b 0) eqn:E; [|reflexivity].
  apply Qeq_bool_eq in E. contradiction.
Qed.

Lemma pydiv_zero (a b : Q) : b == 0 -> pydiv a b = Raise ZeroDivisionError.
Proof.
  intros H. unfold pydiv. destruct (Qeq_bool b 0) eqn:E; [reflexivity|].
  apply Qeq_bool_neq in E. contradiction.
Qed.

Lemma volatility_ok (sqrtQ : Q -> Q) (holdings : Holdings) (all_data : AllData)
    (days : nat) :
  exists v, _calculate_portfolio_volatility sqrtQ holdings all_data days = Ok v.
Proof. unfold _calculate_portfolio_volatility. apply catch_ok. Qed.

Lemma lookup_series_In (series : list (string * list Bar)) (s : string)
    (bars : list Bar) :
  lookup s series = Some bars -> exists s', In (s', bars) series.
Proof. apply lookup_In. Qed.

Lemma Qsum_cons (x : Q) (l : list Q) : Qsum (x :: l) = x + Qsum l.
Proof. reflexivity. Qed.

Section Totals.
Variable holdings : Holdings.
Variable series : list (string * list Bar).
Hypothesis series_nonempty : Forall (fun sb => snd sb <> []) series.
Hypothesis invested : ~ sum_investments holdings == 0.

Lemma perf_fold_totals (hs : Holdings) (acc : perf_acc) (cv0 : Q) :
  current_value acc = Fin cv0 ->
  exists acc' cv,
    foldM (perf_step holdings (frames_of series)) hs acc = Ok acc'
    /\ total_investment acc'
       == total_investment acc + Qsum (map (held_investment series) hs)
    /\ current_value acc' = Fin cv
    /\ cv == cv0 + Qsum (map (held_value series) hs).
Proof.
  revert acc cv0. induction hs as [|[symbol holding] hs IH]; intros acc cv0 Hcv.
  - exists acc, cv0. cbn [foldM map Qsum fold_right].
    split; [reflexivity|]. split; [ring|]. split; [exact Hcv | ring].
  - cbn [foldM]. unfold perf_step at 1. rewrite lookup_frames_of.
    rewrite !map_cons, !Qsum_cons.
    unfold held_investment at 1, held_value at 1. cbn [fst snd].
    destruct (lookup symbol series) as [bars|] eqn:El; cbn [option_map].
    + destruct (lookup_In _ _ _ El) as [s' Hin].
      assert (Hne : bars <> []).
      { rewrite Forall_forall in series_nonempty.
        apply (series_nonempty (s', bars) Hin). }
      rewrite get_num_frame_close. cbn [bind].
      rewrite (iloc_neg_last_close bars Hne). cbn [bind].
      rewrite (pydiv_nonzero _ _ invested). cbn [bind].
      match goal with
      | |- context [foldM _ hs ?a] =>
          destruct (IH a (cv0 + shares holding * last_close bars))
            as (acc' & cv & Efold & Hti & Hcv' & Hcvq)
      end.
      { cbn [current_value]. rewrite Hcv. reflexivity. }
      exists acc', cv. split; [exact Efold|].
      cbn [total_investment] in Hti. split.
      * rewrite Hti. unfold investment_of. ring.
      * split; [exact Hcv'|]. rewrite Hcvq. ring.
    + cbn [bind]. destruct (IH acc cv0 Hcv) as (acc' & cv & Efold & Hti & Hcv' & Hcvq).
      exists acc', cv. split; [exact Efold|]. split.
      * rewrite Hti. ring.
      * split; [exact Hcv'|]. rewrite Hcvq. ring.
Qed.

Variable sqrtQ : Q -> Q.

(** X7: for holdings whose total cost is not zero and price series that
    are not empty, [calculate_portfolio_performance] answers with a mapping
    in which [total_investment] is the cost of the holdings that have a
    price series, [current_value] is their shares valued at the last close
    of their series, [total_return] is the difference of the two, and
    [number_of_stocks] counts every holding, with or without a series. *)
Theorem portfolio_totals :
  exists m ti cv,
    calculate_portfolio_performance sqrtQ holdings (frames_of series) = Ok m
    /\ lookup "total_investment" m = Some (VNum (Fin ti))
    /\ ti == Qsum (map (held_investment series) holdings)
    /\ lookup "current_value" m = Some (VNum (Fin cv))
    /\ cv == Qsum (map (held_value series) holdings)
    /\ lookup "total_return" m = Some (VNum (Fin (cv - ti)))
    /\ lookup "number_of_stocks" m
       = Some (VNum (Fin (inject_Z (Z.of_nat (length holdings))))).
Proof.
  unfold calculate_portfolio_performance, perf_loop.
  destruct (perf_fold_totals holdings perf_init 0 eq_refl)
    as (acc & cv & Efold & Hti & Hcv & Hcvq).
  rewrite Efold. cbn [bind].
  destruct (volatility_ok sqrtQ holdings (frames_of series) 30) as [v Ev].
  rewrite Ev. cbn [bind].
  destruct (max_drawdown_ok holdings (frames_of series)) as [d Ed].
  rewrite Ed. cbn [bind catch].
  eexists. exists (total_investment acc), cv. split; [reflexivity|].
  cbn [lookup String.eqb Ascii.eqb Bool.eqb]. rewrite Hcv.
  split; [reflexivity|]. split.
  { rewrite Hti. cbn [perf_init total_investment]. ring. }
  split; [reflexivity|]. split.
  { rewrite Hcvq. ring. }
  split; reflexivity.
Qed.


End Totals.

Lemma portfolio_totals_witness :
  exists m ti cv,
    calculate_portfolio_performance Concrete.sqrt6 Concrete.two_holdings
      (frames_of Samples.two_series) = Ok m
    /\ lookup "total_investment" m = Some (VNum (Fin ti))
    /\ ti == Qsum (map (held_investment Samples.two_series) Concrete.two_holdings)
    /\ lookup "current_value" m = Some (VNum (Fin cv))
    /\ cv == Qsum (map (held_value Samples.two_series) Concrete.two_holdings)
    /\ lookup "total_return" m = Some (VNum (Fin (cv - ti)))
    /\ lookup "number_of_stocks" m = Some (VNum (Fin (inject_Z 2))).
Proof.
  apply (portfolio_totals Concrete.two_holdings Samples.two_series).
  - repeat constructor; discriminate.
  - intros H. vm_compute in H. discriminate.
Defined.





Lemma perf_fold_raises (holdings hs : Holdings) (all_data : AllData)
    (acc : perf_acc) :
  sum_investments holdings == 0 ->
  (exists kv, In kv hs /\ lookup (fst kv) all_data <> None) ->
  exists e, foldM (perf_step holdings all_data) hs acc = Raise e.
Proof.
  intros Hz. revert acc. induction hs as [|[symbol holding] hs IH]; intros acc Hex.
  - destruct Hex as (kv & [] & _).
  - cbn [foldM]. unfold perf_step at 1.
    destruct (lookup symbol all_data) as [df|] eqn:El.
    + destruct (get_num df "Close") as [c|e]; cbn [bind]; [|eauto].
      destruct (iloc_neg 1 c) as [p|e]; cbn [bind]; [|eauto].
      rewrite (pydiv_zero _ _ Hz). cbn [bind]. eauto.
    + cbn [bind]. apply IH. destruct Hex as (kv & [<-|Hin] & Hkv).
      * cbn [fst] in Hkv. contradiction.
      * exists kv. split; assumption.
Qed.

(** X9: when the holdings cost nothing in total and one of them has price
    data, the weight of that holding is a division by zero (or reading its
    last close fails before that): [calculate_portfolio_performance]
    catches the exception and answers with the empty mapping. *)
Theorem performance_empty_when_nothing_invested (sqrtQ : Q -> Q)
    (holdings : Holdings) (all_data : AllData) :
  sum_investments holdings == 0 ->
  (exists kv, In kv holdings /\ lookup (fst kv) all_data <> None) ->
  calculate_portfolio_performance sqrtQ holdings all_data = Ok [].
Proof.
  intros Hz Hex. unfold calculate_portfolio_performance, perf_loop.
  destruct (perf_fold_raises holdings holdings all_data perf_init Hz Hex) as [e E].
  rewrite E. reflexivity.
Qed.

Lemma performance_empty_when_nothing_invested_witness :
  calculate_portfolio_performance Concrete.sqrt6 Samples.free_holdings
    (frames_of Samples.two_series) = Ok [].
Proof.
  apply performance_empty_when_nothing_invested.
  - reflexivity.
  - exists ("A", Concrete.holding 5 0). split; [now left | discriminate].
Defined.



End ValuationFacts.

Module PriceStatisticsFacts.
Import Float Pandas OHLCV ResultFacts PandasFacts RollingFacts PortfolioManager
  PortfolioFacts DrawdownFacts IndicatorFacts ValuationDefs ValuationFacts
  PriceStatistics.
Local Open Scope string_scope.
Local Open Scope list_scope.

Lemma all_finite_length (l : list fl) (qs : list Q) :
  all_finite l = Some qs -> length qs = length l.
Proof.
  revert qs. induction l as [|x l IH]; intros qs H.
  - inversion H. reflexivity.
  - destruct x as [q| | |]; try discriminate. cbn [all_finite] in H.
    destruct (all_finite l) as [qs'|]; [|discriminate].
    inversion H; subst. cbn [length]. now rewrite (IH qs' eq_refl).
Qed.

Lemma length_dropna (s : Series) : (length (dropna s) <= length s)%nat.
Proof. unfold dropna. apply filter_length_le. Qed.

Lemma insert_sorted_finite (x : Q) (vq : list Q) :
  exists vq',
    insert_sorted (Fin x) (map Fin vq) = map Fin vq'
    /\ length vq' = S (length vq)
    /\ forall q, In q vq' -> q = x \/ In q vq.
Proof.
  induction vq as [|y vq IH].
  - exists [x]. split; [reflexivity|]. split; [reflexivity|].
    intros q [<-|[]]. now left.
  - cbn [map insert_sorted]. destruct (flt (Fin y) (Fin x)).
    + destruct IH as (vq' & E & Hlen & Hin). exists (y :: vq').
      split; [cbn [map]; now rewrite E|]. split; [cbn [length]; now rewrite Hlen|].
      intros q [<-|Hq]; [right; now left|].
      destruct (Hin q Hq) as [->|H]; [now left | right; now right].
    + exists (x :: y :: vq). split; [reflexivity|]. split; [reflexivity|].
      intros q [<-|Hq]; [now left | now right].
Qed.

Lemma sorted_finite (qs : list Q) :
  exists vq,
    sorted (map Fin qs) = map Fin vq
    /\ length vq = length qs
    /\ forall q, In q vq -> In q qs.
Proof.
  induction qs as [|x qs IH].
  - exists []. split; [reflexivity|]. split; [reflexivity|]. intros q [].
  - destruct IH as (vq & E & Hlen & Hin).
    destruct (insert_sorted_finite x vq) as (vq' & E' & Hlen' & Hin').
    exists vq'. unfold sorted in *. cbn [map fold_right]. rewrite E.
    split; [exact E'|]. split; [cbn [length]; lia|].
    intros q Hq. destruct (Hin' q Hq) as [->|H]; [now left | right; auto].
Qed.

(** The median of finite values is a value of the list, or the mean of
    two of them. *)
Lemma series_median_finite (qs : list Q) :
  qs <> [] ->
  exists med a b,
    series_median (map Fin qs) = Fin med
    /\ med == (a + b) / 2 /\ In a qs /\ In b qs.
Proof.
  intros Hne. unfold series_median. cbv zeta. rewrite dropna_finite.
  destruct (sorted_finite qs) as (vq & E & Hlen & Hin). rewrite E.
  rewrite length_map, Hlen.
  assert (Hpos : (0 < length qs)%nat).
  { destruct qs; [congruence | cbn; lia]. }
  destruct (Nat.eqb_spec (length qs) 0) as [H0|_]; [lia|].
  assert (Hnth : forall k, (k < length qs)%nat ->
    nth k (map Fin vq) NaN = Fin (nth k vq 0) /\ In (nth k vq 0) qs).
  { intros k Hk. split.
    - rewrite (nth_indep _ NaN (Fin 0)) by (rewrite length_map; lia).
      apply map_nth.
    - apply Hin. apply nth_In. lia. }
  assert (Hhalf : (length qs / 2 < length qs)%nat).
  { apply Nat.div_lt; lia. }
  destruct (Nat.even (length qs)).
  - destruct (Hnth (length qs / 2 - 1)%nat) as [E1 H1]; [lia|].
    destruct (Hnth (length qs / 2)%nat Hhalf) as [E2 H2].
    rewrite E1, E2. cbn [fadd fdiv].
    eexists. exists (nth (length qs / 2 - 1) vq 0), (nth (length qs / 2) vq 0).
    split; [reflexivity|]. split; [reflexivity|]. split; assumption.
  - destruct (Hnth (length qs / 2)%nat Hhalf) as [E2 H2]. rewrite E2.
    eexists. exists (nth (length qs / 2) vq 0), (nth (length qs / 2) vq 0).
    split; [reflexivity|]. split; [field|]. split; assumption.
Qed.

Lemma fsum_from_Qsum (l : list Q) (a : Q) :
  exists s, fold_left fadd (map Fin l) (Fin a) = Fin s /\ s == a + Qsum l.
Proof.
  revert a. induction l as [|q l IH]; intros a.
  - exists a. split; [reflexivity|]. cbn. ring.
  - cbn [map fold_left fadd]. destruct (IH (a + q)) as (s & E & Hs).
    exists s. split; [exact E|]. rewrite Hs, Qsum_cons. ring.
Qed.

Lemma series_mean_Qmean (l : list Q) :
  l <> [] -> exists m, series_mean (map Fin l) = Fin m /\ m == Qmean l.
Proof.
  intros Hne. unfold series_mean. rewrite dropna_finite.
  destruct l as [|q l]; [congruence|].
  change (map Fin (q :: l)) with (Fin q :: map Fin l).
  cbv iota. change (Fin q :: map Fin l) with (map Fin (q :: l)).
  unfold fsum. destruct (fsum_from_Qsum (q :: l) 0) as (s & E & Hs).
  rewrite E, length_map. unfold fdiv.
  destruct (Qeq_bool _ 0) eqn:E0.
  { apply Qeq_bool_eq in E0. exfalso.
    cbn [length] in E0. unfold Qeq in E0. simpl in E0. lia. }
  eexists. split; [reflexivity|]. unfold Qmean. rewrite Hs.
  field. intros E1. cbn [length] in E1. unfold Qeq in E1. simpl in E1. lia.
Qed.

Section WithSqrt.
Variable sqrtQ : Q -> Q.

(** X11: for a non-empty series, [calculate_price_statistics] reports the
    last close as [current_price], the arithmetic mean of the closes as
    [avg_price], and as [median_price] a number that lies in every band
    that holds all the closes. *)
Theorem price_statistics_levels (bars : list Bar) :
  bars <> [] ->
  exists m avg med,
    calculate_price_statistics sqrtQ (frame_of bars) = Ok m
    /\ lookup "current_price" m = Some (VNum (Fin (last_close bars)))
    /\ lookup "avg_price" m = Some (VNum (Fin avg))
    /\ avg == Qmean (map close bars)
    /\ lookup "median_price" m = Some (VNum (Fin med))
    /\ (forall lo hi,
        Forall (fun x => lo <= close x /\ close x <= hi) bars ->
        lo <= med /\ med <= hi).
Proof.
  intros Hne. unfold calculate_price_statistics, empty. rewrite len_frame_of.
  destruct (Nat.eqb_spec (length bars) 0) as [H0|_].
  { destruct bars; [congruence | discriminate]. }
  rewrite get_num_frame_close, get_num_frame_high, get_num_frame_low,
    get_num_frame_volume. cbn [bind].
  rewrite (iloc_neg_last_close bars Hne). cbn [bind catch].
  assert (Hc : closes bars = map Fin (map close bars)).
  { unfold closes. now rewrite map_map. }
  assert (Hne' : map close bars <> []).
  { destruct bars; [congruence | discriminate]. }
  destruct (series_mean_Qmean (map close bars) Hne') as (avg & Eavg & Havg).
  destruct (series_median_finite (map close bars) Hne')
    as (med & a & b & Emed & Hmed & Ha & Hb).
  eexists. exists avg, med. split; [reflexivity|].
  cbn [lookup String.eqb Ascii.eqb Bool.eqb]. rewrite Hc, Eavg, Emed.
  split; [reflexivity|]. split; [reflexivity|]. split; [exact Havg|].
  split; [reflexivity|].
  intros lo hi Hall. rewrite Forall_forall in Hall.
  apply in_map_iff in Ha as (xa & <- & Hxa).
  apply in_map_iff in Hb as (xb & <- & Hxb).
  destruct (Hall xa Hxa) as [Ha1 Ha2]. destruct (Hall xb Hxb) as [Hb1 Hb2].
  rewrite Hmed. split.
  - apply Qle_shift_div_l; lra.
  - apply Qle_shift_div_r; lra.
Qed.

Lemma series_std_short (s : Series) :
  (length (dropna s) <= 1)%nat -> series_std sqrtQ s = NaN.
Proof.
  intros Hlen. unfold series_std.
  destruct (all_finite (dropna s)) as [qs|] eqn:E; [|reflexivity].
  apply all_finite_length in E. unfold Qstd_sample.
  replace (length qs <=? 1)%nat with true; [reflexivity|].
  symmetry. apply Nat.leb_le. lia.
Qed.

Lemma pct_change_finite (qs t : list Q) :
  Forall (fun q => ~ q == 0) qs ->
  exists rs,
    map (fun p => fsub (fdiv (snd p) (fst p)) (Fin 1))
      (combine (map Fin qs) (map Fin t)) = map Fin rs
    /\ length rs = Nat.min (length qs) (length t).
Proof.
  intros Hnz. revert t. induction Hnz as [|q qs Hq _ IH]; intros t.
  - exists []. split; reflexivity.
  - destruct t as [|y t]; [exists []; split; reflexivity|].
    destruct (IH t) as (rs & E & Hlen).
    cbn [map combine fst snd fdiv fsub fopp fadd].
    destruct (Qeq_bool q 0) eqn:E0.
    { apply Qeq_bool_eq in E0. contradiction. }
    eexists (_ :: rs). split; [cbn [map]; rewrite E; reflexivity|].
    cbn [length]. now rewrite Hlen.
Qed.

(** X12: the [price_volatility] entry of [calculate_price_statistics] is
    NaN for a series of one or two bars (a standard deviation needs two
    daily returns), without the other entries being lost; from three bars
    on it is a number when no close is zero. *)
Theorem price_volatility_needs_three_bars (bars : list Bar) :
  bars <> [] ->
  exists m,
    calculate_price_statistics sqrtQ (frame_of bars) = Ok m
    /\ ((length bars < 3)%nat ->
        lookup "price_volatility" m = Some (VNum NaN))
    /\ ((3 <= length bars)%nat ->
        Forall (fun x => ~ close x == 0) bars ->
        exists v, lookup "price_volatility" m = Some (VNum (Fin v))).
Proof.
  intros Hne. unfold calculate_price_statistics, empty. rewrite len_frame_of.
  destruct (Nat.eqb_spec (length bars) 0) as [H0|_].
  { destruct bars; [congruence | discriminate]. }
  rewrite get_num_frame_close, get_num_frame_high, get_num_frame_low,
    get_num_frame_volume. cbn [bind].
  rewrite (iloc_neg_last_close bars Hne). cbn [bind catch].
  eexists. split; [reflexivity|].
  cbn [lookup String.eqb Ascii.eqb Bool.eqb].
  destruct bars as [|b0 bars']; [congruence|].
  unfold closes. cbn [map pct_change]. split.
  - intros Hlen. cbn [length] in Hlen. rewrite series_std_short; [reflexivity|].
    unfold dropna. cbn [filter isnan negb]. fold (dropna
      (map (fun p => fsub (fdiv (snd p) (fst p)) (Fin 1))
         (combine (Fin (close b0) :: map (fun b => Fin (close b)) bars')
            (map (fun b => Fin (close b)) bars')))).
    etransitivity; [apply length_dropna|].
    rewrite length_map, length_combine, length_map. cbn [length]. lia.
  - intros Hlen Hnz. cbn [length] in Hlen.
    assert (Hnz' : Forall (fun q => ~ q == 0) (map close (b0 :: bars'))).
    { apply Forall_map. exact Hnz. }
    destruct (pct_change_finite (map close (b0 :: bars')) (map close bars') Hnz')
      as (rs & E & Hrs).
    rewrite !map_map in E. cbn [map] in E. rewrite E.
    unfold series_std, dropna. cbn [filter isnan negb].
    fold (dropna (map Fin rs)). rewrite dropna_finite, all_finite_map_Fin.
    unfold Qstd_sample.
    rewrite !length_map in Hrs. cbn [length] in Hrs.
    replace (length rs <=? 1)%nat with false
      by (symmetry; apply Nat.leb_gt; lia).
    cbn [fmul np_sqrt]. eexists. reflexivity.
Qed.

End WithSqrt.

Lemma price_statistics_levels_witness :
  exists m avg med,
    calculate_price_statistics Concrete.sqrt6 (frame_of Concrete.scenario1) = Ok m
    /\ lookup "current_price" m
       = Some (VNum (Fin (last_close Concrete.scenario1)))
    /\ lookup "avg_price" m = Some (VNum (Fin avg))
    /\ avg == Qmean (map close Concrete.scenario1)
    /\ lookup "median_price" m = Some (VNum (Fin med))
    /\ (forall lo hi,
        Forall (fun x => lo <= close x /\ close x <= hi) Concrete.scenario1 ->
        lo <= med /\ med <= hi).
Proof.
  apply (price_statistics_levels Concrete.sqrt6 Concrete.scenario1).
  discriminate.
Defined.

Lemma price_volatility_needs_three_bars_witness :
  exists m,
    calculate_price_statistics Concrete.sqrt6 (frame_of Concrete.scenario1) = Ok m
    /\ lookup "price_volatility" m = Some (VNum NaN).
Proof.
  destruct (price_volatility_needs_three_bars Concrete.sqrt6 Concrete.scenario1)
    as (m & Hm & Hshort & _).
  - discriminate.
  - exists m. split; [exact Hm|]. apply Hshort. cbn [Concrete.scenario1 length]. lia.
Defined.

Lemma lookup_equal_weights (w : Q) (all_data l : AllData) (kv : string * DataFrame) :
  In kv l -> lookup (fst kv) (map (fun kv' => (fst kv', w)) l) = Some w.
Proof.
  induction l as [|kv' l IH]; intros Hin; [destruct Hin|].
  cbn [map lookup fst]. destruct (String.eqb (fst kv) (fst kv')) eqn:E;
    [reflexivity|].
  destruct Hin as [->|Hin]; [|now apply IH].
  now rewrite String.eqb_refl in E.
Qed.

Lemma equal_weights_ok (all_data : AllData) :
  all_data <> [] ->
  equal_weights all_data
  = Ok (map (fun kv => (fst kv, 1 / inject_Z (Z.of_nat (length all_data))))
          all_data).
Proof.
  intros Hne. unfold equal_weights.
  assert (Hw : pydiv 1 (inject_Z (Z.of_nat (length all_data)))
               = Ok (1 / inject_Z (Z.of_nat (length all_data)))).
  { apply pydiv_nonzero. intros E. destruct all_data; [congruence|].
    cbn [length] in E. unfold Qeq in E. simpl in E. lia. }
  rewrite Hw. cbn [bind].
  generalize (1 / inject_Z (Z.of_nat (length all_data))). intros w.
  clear. induction all_data as [|kv l IH]; [reflexivity|].
  cbn [mapM map bind]. rewrite IH. reflexivity.
Qed.

Lemma iloc_first_close (bars : list Bar) :
  bars <> [] -> iloc 0 (closes bars) = Ok (Fin (first_close bars)).
Proof. destruct bars; [congruence | reflexivity]. Qed.

Section EqualWeights.
Variable series : list (string * list Bar).
Hypothesis series_nonempty : Forall (fun sb => snd sb <> []) series.
Hypothesis first_nonzero : Forall (fun sb => ~ first_close (snd sb) == 0) series.
Variable w : Q.

Lemma metrics_fold (l : list (string * list Bar)) (r0 v0 : Q) :
  incl l series ->
  exists r v,
    foldM (metrics_step (map (fun kv => (fst kv, w)) (frames_of series)))
      (frames_of l) (Fin r0, Fin v0) = Ok (Fin r, Fin v)
    /\ r == r0 + w * Qsum (map (fun sb => span_return (snd sb)) l)
    /\ v == v0 + w * Qsum (map (fun sb => last_close (snd sb)) l).
Proof.
  set (weights := map (fun kv : string * DataFrame => (fst kv, w))
                    (frames_of series)).
  revert r0 v0. induction l as [|[symbol bars] l IH]; intros r0 v0 Hincl.
  - exists r0, v0. split; [reflexivity|]. cbn [map Qsum fold_right]. split; ring.
  - assert (Hin : In (symbol, bars) series) by (apply Hincl; now left).
    assert (Hne : bars <> []).
    { rewrite Forall_forall in series_nonempty.
      apply (series_nonempty _ Hin). }
    assert (Hnz : ~ first_close bars == 0).
    { rewrite Forall_forall in first_nonzero.
      apply (first_nonzero _ Hin). }
    assert (Hw : lookup symbol weights = Some w).
    { subst weights.
      apply (lookup_equal_weights w (frames_of series) (frames_of series)
               (symbol, frame_of bars)).
      unfold frames_of. apply in_map_iff. exists (symbol, bars).
      split; [reflexivity | exact Hin]. }
    unfold frames_of. cbn [map fst snd foldM]. fold (frames_of l).
    unfold metrics_step at 1, mem, weight_at. rewrite Hw.
    rewrite get_num_frame_close. cbn [bind].
    rewrite (iloc_neg_last_close bars Hne), (iloc_first_close bars Hne).
    cbn [bind fst snd fsub fopp fadd fdiv fmul].
    destruct (Qeq_bool (first_close bars) 0) eqn:E0.
    { apply Qeq_bool_eq in E0. contradiction. }
    cbn [fadd fmul].
    edestruct IH as (r & v & Ef & Hr & Hv).
    { intros x Hx. apply Hincl. now right. }
    exists r, v. split; [exact Ef|].
    rewrite !Qsum_cons. cbn [snd]. unfold span_return at 1.
    split; [rewrite Hr; field; exact Hnz | rewrite Hv; ring].
Qed.

End EqualWeights.

Lemma portfolio_metrics_unfold (all_data : AllData)
    (weights : option (list (string * Q))) :
  all_data <> [] ->
  calculate_portfolio_metrics all_data weights
  = TRY
      (weights <-
         match weights with
         | None => equal_weights all_data
         | Some w => Ok w
         end ;;
       acc <- foldM (metrics_step weights) all_data (Fin 0, Fin 0) ;;
       Ok [ ("portfolio_return", VNum (fmul (fst acc) (Fin 100)));
            ("portfolio_value", VNum (snd acc));
            ("num_stocks",
              VNum (Fin (inject_Z (Z.of_nat (length all_data))))) ])
    EXCEPT Ok [].
Proof. destruct all_data; [congruence | reflexivity]. Qed.

(** X13: without weights, [calculate_portfolio_metrics] weighs the series
    equally: when no series is empty and no first close is zero,
    [portfolio_value] is the mean of the last closes, [portfolio_return]
    is 100 times the mean of the returns of the series over their span,
    and [num_stocks] is the number of series. *)
Theorem equal_weights_average_the_stocks (series : list (string * list Bar)) :
  series <> [] ->
  Forall (fun sb => snd sb <> []) series ->
  Forall (fun sb => ~ first_close (snd sb) == 0) series ->
  exists m ret value,
    calculate_portfolio_metrics (frames_of series) None = Ok m
    /\ lookup "portfolio_value" m = Some (VNum (Fin value))
    /\ value == Qmean (map (fun sb => last_close (snd sb)) series)
    /\ lookup "portfolio_return" m = Some (VNum (Fin ret))
    /\ ret == 100 * Qmean (map (fun sb => span_return (snd sb)) series)
    /\ lookup "num_stocks" m
       = Some (VNum (Fin (inject_Z (Z.of_nat (length series))))).
Proof.
  intros Hne Hbars Hnz.
  assert (Hlen : length (frames_of series) = length series).
  { unfold frames_of. apply length_map. }
  assert (Hne' : frames_of series <> []).
  { destruct series; [congruence | discriminate]. }
  rewrite (portfolio_metrics_unfold _ None Hne').
  rewrite (equal_weights_ok _ Hne'). cbn [bind].
  destruct (metrics_fold series Hbars Hnz
              (1 / inject_Z (Z.of_nat (length (frames_of series)))) series 0 0
              (incl_refl series)) as (r & v & Efold & Hr & Hv).
  rewrite Efold. cbn [bind catch fst snd fmul].
  eexists. exists (r * 100), v. split; [reflexivity|].
  cbn [lookup String.eqb Ascii.eqb Bool.eqb]. rewrite Hlen in *.
  assert (Hn : ~ inject_Z (Z.of_nat (length series)) == 0).
  { intros E. destruct series; [congruence|].
    cbn [length] in E. unfold Qeq in E. simpl in E. lia. }
  split; [reflexivity|]. split.
  { rewrite Hv. unfold Qmean. rewrite length_map. field. exact Hn. }
  split; [reflexivity|]. split.
  { rewrite Hr. unfold Qmean. rewrite length_map. field. exact Hn. }
  reflexivity.
Qed.

Lemma equal_weights_average_the_stocks_witness :
  exists m ret value,
    calculate_portfolio_metrics (frames_of Samples.two_series) None = Ok m
    /\ lookup "portfolio_value" m = Some (VNum (Fin value))
    /\ value == Qmean (map (fun sb => last_close (snd sb)) Samples.two_series)
    /\ lookup "portfolio_return" m = Some (VNum (Fin ret))
    /\ ret == 100 * Qmean (map (fun sb => span_return (snd sb)) Samples.two_series)
    /\ lookup "num_stocks" m
       = Some (VNum (Fin (inject_Z (Z.of_nat (length Samples.two_series))))).
Proof.
  apply (equal_weights_average_the_stocks Samples.two_series).
  - discriminate.
  - repeat constructor; discriminate.
  - repeat constructor; intros H; vm_compute in H; discriminate.
Defined.

End PriceStatisticsFacts.

Module ExportedRowsFacts.
Import Float Pandas OHLCV ResultFacts PandasFacts RollingFacts DataExporter
  ExportFacts ExportedRows.
Local Open Scope string_scope.
Local Open Scope list_scope.

Lemma map_seq_nth {A B : Type} (l : list A) (F : nat -> B) (G : A -> B) :
  (forall i a, nth_error l i = Some a -> F i = G a) ->
  map F (seq 0 (length l)) = map G l.
Proof.
  revert F. induction l as [|x l IH]; intros F H; [reflexivity|].
  cbn [length seq map]. f_equal.
  - apply (H O). reflexivity.
  - rewrite <- seq_shift, map_map. apply IH. intros i a Hi. apply (H (S i)). exact Hi.
Qed.

Lemma nth_map_at {A B : Type} (f : A -> B) (l : list A) (i : nat) (a : A) (d : B) :
  nth_error l i = Some a -> nth i (map f l) d = f a.
Proof.
  revert i. induction l as [|x l IH]; intros [|i] H; try discriminate.
  - inversion H. reflexivity.
  - cbn [map nth]. apply IH. exact H.
Qed.

Lemma zip_with_map {A : Type} (f : fl -> fl -> fl) (g h : A -> fl) (l : list A) :
  zip_with f (map g l) (map h l) = map (fun x => f (g x) (h x)) l.
Proof.
  unfold zip_with. induction l as [|x l IH]; [reflexivity|].
  cbn [map combine fst snd]. f_equal. exact IH.
Qed.

Lemma rolling_at_early (w : nat) (agg : list Q -> fl) (s : Series) (i : nat) :
  (S i < w)%nat -> rolling_at w agg s i = NaN.
Proof.
  intros Hlt. unfold rolling_at, window. cbv zeta.
  rewrite length_skipn, length_firstn.
  replace (Nat.min (S i) (length s) - (S i - w) <? w)%nat with true; [reflexivity|].
  symmetry. apply Nat.ltb_lt. lia.
Qed.

Lemma nth_rolling (w : nat) (agg : list Q -> fl) (s : Series) (i : nat) (d : cell) :
  (i < length s)%nat ->
  nth i (map CNum (rolling w agg s)) d = CNum (rolling_at w agg s i).
Proof.
  intros Hi. unfold rolling. rewrite map_map.
  rewrite (nth_map_at _ _ i i); [reflexivity|].
  rewrite nth_error_nth' with (d := O) by (rewrite length_seq; exact Hi).
  rewrite seq_nth by exact Hi. reflexivity.
Qed.

Section WithEnvironment.
Variable sqrtQ : Q -> Q.
Variable data_fetcher : DataFetcher.
Variable now : string.
Variable py_str : pyval -> string.

(** X14: the equities export of any frame the enrichment accepts (columns
    of one length n > 0, whatever they are besides the ones it reads): the
    header is the nineteen columns of the export followed by the columns
    of the frame that are not among them, then comes the banner row, then
    n rows. *)
Theorem export_keeps_extra_columns (symbol period : string) (data : DataFrame)
    (info : dict) (n : nat) (d : DataFrame) :
  well_formed n data -> len data = n -> (0 < n)%nat ->
  get_stock_data data_fetcher symbol period = Ok (Some data) ->
  get_stock_info data_fetcher symbol = Ok info ->
  enrich sqrtQ data = Ok d ->
  exists banner rows,
    export_stock_historical_data sqrtQ data_fetcher now py_str symbol period
    = Ok (map CStr (equities_header ++ extra_columns data) :: banner :: rows)
    /\ length rows = n
    /\ nth_error banner 0 = Some (CStr "METADATA").
Proof.
  exact (export_of_any_frame sqrtQ data_fetcher now py_str symbol period data
           info n d).
Qed.

(** X15: the data rows of the equities export carry the bars, in their
    order: the first eight fields of a row are the date and the values of
    its bar, unchanged; its [Daily_Change] field is close - open, its
    [Price_Range] field is high - low; and [MA_7] is NaN in the first six
    rows, where the window of seven closes is not full. *)
Theorem equities_rows_carry_bars (symbol period : string) (bars : list Bar)
    (info : dict) :
  bars <> [] ->
  get_stock_data data_fetcher symbol period = Ok (Some (frame_of bars)) ->
  get_stock_info data_fetcher symbol = Ok info ->
  exists header banner rows,
    export_stock_historical_data sqrtQ data_fetcher now py_str symbol period
    = Ok (header :: banner :: rows)
    /\ map (firstn 8) rows = map bar_cells bars
    /\ map (fun r => nth_error r 8) rows
       = map (fun b => Some (CNum (Fin (close b - open b)))) bars
    /\ map (fun r => nth_error r 10) rows
       = map (fun b => Some (CNum (Fin (high b - low b)))) bars
    /\ (forall i r, (i < 6)%nat -> nth_error rows i = Some r ->
        nth_error r 12 = Some (CNum NaN)).
Proof.
  intros Hne Hdata Hinfo. unfold export_stock_historical_data.
  rewrite Hdata, Hinfo. cbn [bind]. unfold empty. rewrite len_frame_of.
  destruct (Nat.eqb_spec (length bars) 0) as [H0|_].
  { destruct bars; [congruence | discriminate]. }
  rewrite enrich_frame_of. cbn [bind catch].
  set (final := concat (metadata_row now py_str symbol period info)
                  (frame_of bars ++ derived_columns sqrtQ bars)).
  assert (Hlen : len final = S (length bars)).
  { subst final. cbn. now rewrite length_map. }
  assert (Hrow : forall i,
    row final (S i) = row (frame_of bars ++ derived_columns sqrtQ bars) i).
  { intros i. subst final. reflexivity. }
  assert (Hrows : map (row final) (seq 1 (length bars))
                  = map (row (frame_of bars ++ derived_columns sqrtQ bars))
                      (seq 0 (length bars))).
  { rewrite <- seq_shift, map_map. apply map_ext. exact Hrow. }
  unfold to_csv. rewrite Hlen. cbn [seq map]. rewrite Hrows.
  do 3 eexists. split; [reflexivity|].
  unfold row, frame_of, derived_columns, num_column, closes.
  cbn [app map snd]. rewrite !zip_with_map.
  split; [|split; [|split]].
  - rewrite map_map. apply map_seq_nth. intros i b Hb.
    cbn [firstn]. unfold bar_cells.
    now rewrite !(fun f d => nth_map_at f bars i b d Hb).
  - rewrite map_map. apply map_seq_nth. intros i b Hb.
    cbn [nth_error]. f_equal. rewrite map_map.
    now rewrite (nth_map_at _ bars i b _ Hb).
  - rewrite map_map. apply map_seq_nth. intros i b Hb.
    cbn [nth_error]. f_equal. rewrite map_map.
    now rewrite (nth_map_at _ bars i b _ Hb).
  - intros i r Hi Hr. rewrite nth_error_map in Hr.
    destruct (nth_error (seq 0 (length bars)) i) as [j|] eqn:Ej; [|discriminate].
    cbn [option_map] in Hr. injection Hr as <-.
    assert (Hj : (i < length bars)%nat).
    { rewrite <- (length_seq (length bars) 0). apply nth_error_Some.
      rewrite Ej. discriminate. }
    apply nth_error_nth with (d := O) in Ej. rewrite seq_nth in Ej by exact Hj.
    cbn [plus] in Ej. subst j. cbn [nth_error]. f_equal.
    unfold rolling_mean. rewrite nth_rolling by (rewrite length_map; exact Hj).
    f_equal. apply rolling_at_early. lia.
Qed.

(** X16: the crypto export of a non-empty series has the eight columns of
    the series followed by [Daily_Return], [Cumulative_Return] and
    [Rolling_Volatility]; it has no banner row: one row per bar, whose
    first eight fields are the date and the values of the bar; and the
    three derived fields of the first row are NaN, there being no earlier
    close. *)
Theorem crypto_export_shape (symbol period : string) (bars : list Bar) :
  bars <> [] ->
  get_crypto_data data_fetcher symbol period = Ok (Some (frame_of bars)) ->
  exists first rest,
    export_crypto_data sqrtQ data_fetcher symbol period
    = Ok (map CStr crypto_header :: first :: rest)
    /\ length (first :: rest) = length bars
    /\ map (firstn 8) (first :: rest) = map bar_cells bars
    /\ skipn 8 first = [CNum NaN; CNum NaN; CNum NaN].
Proof.
  intros Hne Hdata. unfold export_crypto_data.
  rewrite Hdata. cbn [bind]. unfold empty. rewrite len_frame_of.
  destruct (Nat.eqb_spec (length bars) 0) as [H0|_].
  { destruct bars; [congruence | discriminate]. }
  unfold get_num, getitem, set_num, frame_of.
  repeat (progress (cbn [lookup setitem String.eqb Ascii.eqb Bool.eqb bind app];
                    rewrite ?mapM_num_column)).
  cbn [catch].
  match goal with |- context [to_csv ?x] => set (d := x) end.
  assert (Hall : map (firstn 8) (map (row d) (seq 0 (length bars)))
                 = map bar_cells bars).
  { rewrite map_map. apply map_seq_nth. intros i b Hb.
    subst d. unfold row, num_column. cbn [map snd firstn]. unfold bar_cells.
    now rewrite !(fun f d => nth_map_at f bars i b d Hb). }
  assert (Hfirst : skipn 8 (row d 0) = [CNum NaN; CNum NaN; CNum NaN]).
  { subst d. destruct bars; [congruence | reflexivity]. }
  assert (Hlen : len d = length bars).
  { subst d. cbn [len]. apply length_map. }
  unfold to_csv. rewrite Hlen.
  destruct (length bars) as [|n] eqn:En.
  { destruct bars; [congruence | discriminate]. }
  cbn [seq map] in Hall |- *.
  exists (row d 0), (map (row d) (seq 1 n)).
  split; [reflexivity|]. split; [|split].
  - cbn [length]. now rewrite length_map, length_seq.
  - exact Hall.
  - exact Hfirst.
Qed.

End WithEnvironment.

Lemma export_keeps_extra_columns_witness :
  exists banner rows,
    export_stock_historical_data Concrete.sqrt6 Samples.adjusted_fetcher
      "2024-01-02 10:00:00" Concrete.py_str "AAPL" "1y"
    = Ok (map CStr (equities_header ++ extra_columns Samples.adjusted_frame)
            :: banner :: rows)
    /\ length rows = 2%nat
    /\ nth_error banner 0 = Some (CStr "METADATA").
Proof.
  eapply (export_keeps_extra_columns Concrete.sqrt6 Samples.adjusted_fetcher
            "2024-01-02 10:00:00" Concrete.py_str "AAPL" "1y"
            Samples.adjusted_frame [] 2).
  - repeat constructor.
  - reflexivity.
  - lia.
  - reflexivity.
  - reflexivity.
  - vm_compute. reflexivity.
Defined.

Lemma equities_rows_carry_bars_witness :
  exists header banner rows,
    export_stock_historical_data Concrete.sqrt6 Concrete.scenario_fetcher
      "2024-01-02 10:00:00" Concrete.py_str "AAPL" "1y"
    = Ok (header :: banner :: rows)
    /\ map (firstn 8) rows = map bar_cells Concrete.scenario1
    /\ map (fun r => nth_error r 8) rows
       = map (fun b => Some (CNum (Fin (close b - open b)))) Concrete.scenario1
    /\ map (fun r => nth_error r 10) rows
       = map (fun b => Some (CNum (Fin (high b - low b)))) Concrete.scenario1
    /\ (forall i r, (i < 6)%nat -> nth_error rows i = Some r ->
        nth_error r 12 = Some (CNum NaN)).
Proof.
  apply (equities_rows_carry_bars Concrete.sqrt6 Concrete.scenario_fetcher
           "2024-01-02 10:00:00" Concrete.py_str "AAPL" "1y"
           Concrete.scenario1 []).
  - discriminate.
  - reflexivity.
  - reflexivity.
Defined.

Lemma crypto_export_shape_witness :
  exists first rest,
    export_crypto_data Concrete.sqrt6
      (Fetchers.fetcher_of Samples.crypto_provider) "BTC" "1y"
    = Ok (map CStr crypto_header :: first :: rest)
    /\ length (first :: rest) = length Concrete.scenario1
    /\ map (firstn 8) (first :: rest) = map bar_cells Concrete.scenario1
    /\ skipn 8 first = [CNum NaN; CNum NaN; CNum NaN].
Proof.
  apply (crypto_export_shape Concrete.sqrt6
           (Fetchers.fetcher_of Samples.crypto_provider) "BTC" "1y"
           Concrete.scenario1).
  - discriminate.
  - reflexivity.
Defined.

Lemma foldM_app {A B : Type} (f : B -> A -> result B) (l1 l2 : list A) (b : B) :
  foldM f (l1 ++ l2) b = (b' <- foldM f l1 b ;; foldM f l2 b').
Proof.
  revert b. induction l1 as [|a l1 IH]; intros b; [reflexivity|].
  cbn [app foldM]. destruct (f b a) as [b'|e]; cbn [bind]; [apply IH | reflexivity].
Qed.

(** X17: a symbol for which the provider has no series (it answers [None]
    or an empty frame) does not change the comparison export: the text is
    the one the other symbols give. *)
Theorem comparison_skips_missing (fetcher : DataFetcher)
    (sort_values : list string -> DataFrame -> result DataFrame)
    (before after : list string) (symbol period : string) :
  no_series fetcher period symbol ->
  export_multiple_stocks_comparison fetcher sort_values
    (before ++ symbol :: after) period
  = export_multiple_stocks_comparison fetcher sort_values
      (before ++ after) period.
Proof.
  intros Hno. unfold export_multiple_stocks_comparison.
  rewrite !foldM_app. cbn [foldM]. do 2 f_equal.
  destruct (foldM (comparison_step fetcher period) before []) as [acc|e];
    cbn [bind]; [|reflexivity].
  unfold comparison_step at 1.
  destruct Hno as [Hs|(d & Hs & He)]; rewrite Hs; cbn [bind];
    [|rewrite He]; reflexivity.
Qed.

Lemma comparison_skips_missing_witness :
  export_multiple_stocks_comparison
    (Fetchers.fetcher_of Samples.two_series_provider) Samples.unsorted
    (["A"] ++ "ZZZZ" :: ["B"]) "1y"
  = export_multiple_stocks_comparison
      (Fetchers.fetcher_of Samples.two_series_provider) Samples.unsorted
      (["A"] ++ ["B"]) "1y".
Proof.
  apply (comparison_skips_missing
           (Fetchers.fetcher_of Samples.two_series_provider) Samples.unsorted
           ["A"] ["B"] "ZZZZ" "1y").
  left. reflexivity.
Defined.

End ExportedRowsFacts.

Module PyDictFacts.
Import Pandas PyDict.
Local Open Scope string_scope.
Local Open Scope list_scope.

Section Facts.
Context {V : Type}.
Implicit Types (d : list (string * V)) (k : string) (v : V).

Lemma lookup_set_eq d k v : lookup k (set d k v) = Some v.
Proof.
  induction d as [|[k' v'] d IH]; cbn [set lookup].
  - now rewrite String.eqb_refl.
  - destruct (String.eqb k k') eqn:E; cbn [lookup]; rewrite E; [reflexivity|].
    exact IH.
Qed.

Lemma lookup_set_ne d k other v :
  other <> k -> lookup other (set d k v) = lookup other d.
Proof.
  intros Hne. apply String.eqb_neq in Hne.
  induction d as [|[k' v'] d IH]; cbn [set lookup].
  - now rewrite Hne.
  - destruct (String.eqb k k') eqn:E; cbn [lookup].
    + apply String.eqb_eq in E. subst k'. now rewrite Hne.
    + destruct (String.eqb other k'); [reflexivity | exact IH].
Qed.

Lemma keys_set d k v :
  map fst (set d k v) = map fst d ++ (if mem k d then [] else [k]).
Proof.
  unfold mem. induction d as [|[k' v'] d IH]; [reflexivity|].
  cbn [set lookup]. destruct (String.eqb k k') eqn:E.
  - cbn [map fst]. now rewrite app_nil_r.
  - cbn [map fst app]. f_equal. exact IH.
Qed.

Lemma lookup_filter_eq d k :
  lookup k (filter (fun kv => negb (String.eqb k (fst kv))) d) = None.
Proof.
  induction d as [|[k' v'] d IH]; [reflexivity|]. cbn [filter fst].
  destruct (String.eqb k k') eqn:E; cbn [negb]; [exact IH|].
  cbn [lookup]. now rewrite E.
Qed.

Lemma lookup_filter_ne d k other :
  other <> k ->
  lookup other (filter (fun kv => negb (String.eqb k (fst kv))) d)
  = lookup other d.
Proof.
  intros Hne. apply String.eqb_neq in Hne.
  induction d as [|[k' v'] d IH]; [reflexivity|]. cbn [filter fst].
  destruct (String.eqb k k') eqn:E; cbn [negb lookup].
  - apply String.eqb_eq in E. subst k'. now rewrite Hne.
  - destruct (String.eqb other k'); [reflexivity | exact IH].
Qed.

Lemma lookup_update d other k :
  NoDup (map fst other) ->
  lookup k (update d other)
  = match lookup k other with
    | Some v => Some v
    | None => lookup k d
    end.
Proof.
  unfold update. revert d. induction other as [|[k' v'] other IH]; intros d Hnd.
  - reflexivity.
  - cbn [map fst] in Hnd. inversion Hnd as [|? ? Hk' Hnd']; subst.
    cbn [fold_left fst snd lookup]. rewrite (IH _ Hnd').
    destruct (String.eqb_spec k k') as [->|Hne].
    + destruct (lookup k' other) as [v|] eqn:El.
      * exfalso. apply Hk'. clear -El.
        induction other as [|[k v0] other IH]; [discriminate|].
        cbn [lookup] in El. cbn [map fst].
        destruct (String.eqb_spec k' k) as [Heq|Hne]; [now left|].
        right. now apply IH.
      * apply lookup_set_eq.
    + destruct (lookup k other); [reflexivity|]. now apply lookup_set_ne.
Qed.

Lemma lookup_None_keys d k : lookup k d = None -> ~ In k (map fst d).
Proof.
  induction d as [|[k' v'] d IH]; intros El; [intros []|].
  cbn [lookup] in El. cbn [map fst].
  destruct (String.eqb_spec k k') as [Heq|Hne]; [discriminate|].
  intros [Hx|Hx]; [congruence|]. now apply IH.
Qed.

Lemma NoDup_keys_set d k v : NoDup (map fst d) -> NoDup (map fst (set d k v)).
Proof.
  intros Hnd. rewrite keys_set. unfold mem.
  destruct (lookup k d) eqn:El; [now rewrite app_nil_r|].
  apply NoDup_app; [exact Hnd | repeat constructor; intros [] |].
  intros x Hx [E|[]]. subst x. exact (lookup_None_keys d k El Hx).
Qed.

Lemma NoDup_keys_update d other :
  NoDup (map fst d) -> NoDup (map fst (update d other)).
Proof.
  unfold update. revert d. induction other as [|kv other IH]; intros d Hnd.
  - exact Hnd.
  - cbn [fold_left]. apply IH. now apply NoDup_keys_set.
Qed.

End Facts.
End PyDictFacts.

Module PreferencesFacts.
Import Pandas PyDict PyDictFacts UserPreferences.
Local Open Scope string_scope.
Local Open Scope list_scope.

(** X18: after [save_user_preferences], [get_user_preferences] returns
    for a key the value just saved, and for a key that was not saved what
    the session held for it before: nothing when this is the first save,
    so the four defaults are no longer returned for the keys left out.
    Saving keeps the keys of the stored dictionary distinct. *)
Theorem saved_preferences_read_back (new_preferences : preferences)
    (st : preference_state) (k : string) :
  NoDup (map fst new_preferences) ->
  let st' := save_user_preferences new_preferences st in
  lookup k (get_user_preferences st')
  = match lookup k new_preferences with
    | Some v => Some v
    | None => stored st k
    end
  /\ (NoDup (map fst (get_user_preferences st)) ->
      NoDup (map fst (get_user_preferences st'))).
Proof.
  intros Hnd. cbv zeta. unfold save_user_preferences. cbn [get_user_preferences].
  split.
  - rewrite (lookup_update _ _ _ Hnd). destruct st; reflexivity.
  - intros Hst. apply NoDup_keys_update. destruct st as [d|]; [exact Hst|constructor].
Qed.

Lemma saved_preferences_read_back_witness :
  let saved :=
    [ ("show_technical_indicators", PBool false); ("auto_refresh", PBool true);
      ("default_period", PStr "3mo") ] in
  lookup "theme" (get_user_preferences None) = Some (PStr "light")
  /\ lookup "theme" (get_user_preferences (save_user_preferences saved None))
     = None.
Proof.
  cbv zeta. split; [reflexivity|].
  refine (proj1 (saved_preferences_read_back _ None "theme" _)).
  repeat constructor; cbn; intuition discriminate.
Defined.

End PreferencesFacts.

Module PortfolioStoreFacts.
Import Pandas PyDict PyDictFacts PortfolioManager PortfolioStore.
Local Open Scope string_scope.
Local Open Scope list_scope.

(** X19: [save_portfolio] succeeds, and [load_portfolio] then returns
    the holdings just saved under that name, with the two time stamps of
    the save (a portfolio saved again under its name gets a new creation
    date).  What is stored under other names is not touched, and the
    listing keeps its order: a new name goes to its end, a name that was
    there keeps its place. *)
Theorem saved_portfolio_loads_back (t1 t2 name other : string)
    (held : Holdings) (st : portfolio_state) :
  exists st',
    save_portfolio t1 t2 name held st = Ok (st', true)
    /\ load_portfolio name st'
       = Ok (Some {| holdings := held; created_date := t1; last_updated := t2 |})
    /\ (other <> name -> load_portfolio other st' = load_portfolio other st)
    /\ map fst (get_all_portfolios st')
       = map fst (get_all_portfolios st)
         ++ (if mem name (get_all_portfolios st) then [] else [name]).
Proof.
  unfold save_portfolio. cbn [catch]. eexists. split; [reflexivity|].
  unfold load_portfolio. cbn [catch get_all_portfolios].
  split; [now rewrite lookup_set_eq|]. split.
  - intros Hne. rewrite (lookup_set_ne _ _ _ _ Hne). destruct st; reflexivity.
  - rewrite keys_set. destruct st; reflexivity.
Qed.

(** X20: [delete_portfolio] returns whether the name was stored.
    Afterwards [load_portfolio] finds nothing under the name, what is
    stored under other names is not touched, the listing is the old one
    without the name, and deleting a name that is not stored leaves the
    session as it was. *)
Theorem deleted_portfolio_is_gone (name other : string) (st : portfolio_state) :
  exists st',
    delete_portfolio name st = Ok (st', mem name (get_all_portfolios st))
    /\ load_portfolio name st' = Ok None
    /\ (other <> name -> load_portfolio other st' = load_portfolio other st)
    /\ (mem name (get_all_portfolios st) = false -> st' = st)
    /\ map fst (get_all_portfolios st')
       = filter (fun k => negb (String.eqb name k))
           (map fst (get_all_portfolios st)).
Proof.
  assert (Hkeys : forall d : portfolios,
    mem name d = false ->
    filter (fun k => negb (String.eqb name k)) (map fst d) = map fst d).
  { intros d. unfold mem. induction d as [|[k v] d IH]; [reflexivity|].
    cbn [lookup map fst filter].
    destruct (String.eqb name k); [discriminate|]. cbn [negb].
    intros H. now rewrite (IH H). }
  assert (Hmap : forall d : portfolios,
    map fst (filter (fun kv => negb (String.eqb name (fst kv))) d)
    = filter (fun k => negb (String.eqb name k)) (map fst d)).
  { induction d as [|[k v] d IH]; [reflexivity|]. cbn [filter map fst].
    destruct (String.eqb name k); cbn [negb map fst]; now rewrite IH. }
  unfold delete_portfolio, load_portfolio. destruct st as [d|].
  - cbn [get_all_portfolios]. unfold del.
    destruct (mem name d) eqn:Em; cbn [bind catch].
    + eexists. split; [reflexivity|]. cbn [get_all_portfolios].
      split; [now rewrite lookup_filter_eq|]. split.
      * intros Hne. now rewrite (lookup_filter_ne _ _ _ Hne).
      * split; [discriminate | apply Hmap].
    + exists (Some d). split; [reflexivity|]. cbn [get_all_portfolios]. split.
      * unfold mem in Em. destruct (lookup name d); [discriminate | reflexivity].
      * split; [reflexivity|]. split; [reflexivity|].
        symmetry. now apply Hkeys.
  - exists None. cbn. repeat split; reflexivity.
Qed.

End PortfolioStoreFacts.

Module HistoryFacts.
Import CacheManager CacheManagerFacts.
Local Open Scope string_scope.
Local Open Scope list_scope.

Lemma remove_first_absent (x : string) (l : list string) :
  contains x l = false -> remove_first x l = l.
Proof.
  induction l as [|y l IH]; [reflexivity|]. cbn [contains remove_first].
  destruct (String.eqb x y); [discriminate|]. intros H. now rewrite (IH H).
Qed.

(** X21: searching a symbol again, in whatever letter case, right after
    it was searched leaves the history as it is, whatever the session held
    before. *)
Theorem repeated_search_changes_nothing (first again : string)
    (st : session_state) :
  upper again = upper first ->
  add_to_search_history again (add_to_search_history first st)
  = add_to_search_history first st.
Proof.
  intros Hup. rewrite (add_unfold first). cbv zeta.
  set (h := moved_to_front first (get_search_history st)).
  assert (Hh : exists t, h = upper first :: t) by (eexists; reflexivity).
  destruct Hh as [t Hh]. clearbody h. subst h.
  assert (Hcut : exists t',
    (if (max_history <? length (upper first :: t))%nat
     then firstn max_history (upper first :: t) else upper first :: t)
    = upper first :: t' /\ (length t' < max_history)%nat).
  { destruct (Nat.ltb_spec max_history (length (upper first :: t))) as [H|H].
    - exists (firstn 9 t). split; [reflexivity|].
      rewrite length_firstn. unfold max_history. lia.
    - exists t. split; [reflexivity|]. cbn [length] in H. lia. }
  destruct Hcut as (t' & -> & Hlen).
  rewrite add_unfold. cbv zeta. unfold moved_to_front.
  cbn [get_search_history]. rewrite Hup.
  cbn [contains remove_first]. rewrite String.eqb_refl.
  destruct (Nat.ltb_spec max_history (length (upper first :: t'))) as [H|H].
  - cbn [length] in H. lia.
  - reflexivity.
Qed.

Lemma repeated_search_changes_nothing_witness :
  add_to_search_history "aapl" (add_to_search_history "AAPL" (Some ["MSFT"]))
  = add_to_search_history "AAPL" (Some ["MSFT"]).
Proof. apply repeated_search_changes_nothing. reflexivity. Defined.

(** X22: when the history is full (ten entries) and the symbol is not in
    it, the symbol is put in front and the oldest entry, the last one, is
    dropped. *)
Theorem full_history_drops_oldest (symbol : string) (h : list string) :
  length h = max_history ->
  contains (upper symbol) h = false ->
  get_search_history (add_to_search_history symbol (Some h))
  = upper symbol :: removelast h.
Proof.
  intros Hlen Hc. rewrite add_unfold. cbv zeta. unfold moved_to_front.
  cbn [get_search_history]. rewrite Hc. cbn [length]. rewrite Hlen.
  unfold max_history. cbn [Nat.ltb Nat.leb]. rewrite firstn_cons. f_equal.
  assert (Hne : h <> []) by (intros ->; discriminate).
  destruct (exists_last Hne) as (pre & x & ->).
  rewrite removelast_last. rewrite length_app in Hlen. cbn [length] in Hlen.
  unfold max_history in Hlen.
  assert (Hp : length pre = 9%nat) by lia.
  rewrite firstn_app, Hp, Nat.sub_diag, firstn_O, app_nil_r.
  apply firstn_all2. lia.
Qed.

Lemma full_history_drops_oldest_witness :
  get_search_history
    (add_to_search_history "nvda"
       (Some ["A"; "B"; "C"; "D"; "E"; "F"; "G"; "H"; "I"; "J"]))
  = "NVDA" :: ["A"; "B"; "C"; "D"; "E"; "F"; "G"; "H"; "I"].
Proof.
  apply (full_history_drops_oldest "nvda"
           ["A"; "B"; "C"; "D"; "E"; "F"; "G"; "H"; "I"; "J"]);
    reflexivity.
Defined.

End HistoryFacts.

Module FetcherFacts.
Import Float Pandas OHLCV ResultFacts PyDict PyDictFacts DataExporter Fetchers.
Local Open Scope string_scope.
Local Open Scope list_scope.

Lemma fetch_cases (h : result History) :
  exists r,
    (TRY
       (data <- h ;;
        if history_empty data then Ok None
        else data <- reset_index data ;; Ok (Some data))
     EXCEPT Ok None) = Ok r
    /\ forall df, r = Some df ->
       empty df = false
       /\ exists data, h = Ok data
          /\ df = (index_name data, index data) :: columns data.
Proof.
  destruct h as [data|e]; cbn [bind catch].
  - destruct (history_empty data) eqn:Ee.
    + exists None. split; [reflexivity | discriminate].
    + unfold reset_index. destruct (mem (index_name data) (columns data));
        cbn [bind catch].
      * exists None. split; [reflexivity | discriminate].
      * eexists. split; [reflexivity|]. intros df [= <-]. split.
        -- unfold history_empty in Ee. apply orb_false_iff in Ee as [Ee _].
           exact Ee.
        -- exists data. split; reflexivity.
  - exists None. split; [reflexivity | discriminate].
Qed.

(** X23: [get_stock_data] never raises.  What it returns is [None] or a
    frame that is not empty: the history the provider returned, with its
    index as the first column.  So, for the exporters, the provider has no
    series for a symbol exactly when the fetcher answers [None]. *)
Theorem fetched_frame_is_never_empty (p : Provider) (symbol period : string) :
  exists r,
    get_stock_data p symbol period = Ok r
    /\ (forall df, r = Some df ->
        empty df = false
        /\ exists data, history p symbol period = Ok data
           /\ df = (index_name data, index data) :: columns data)
    /\ (no_series (fetcher_of p) period symbol <-> r = None).
Proof.
  unfold get_stock_data.
  destruct (fetch_cases (history p symbol period)) as (r & Er & Hr).
  exists r. split; [exact Er|]. split; [exact Hr|].
  unfold no_series, fetcher_of. cbn [DataExporter.get_stock_data].
  unfold get_stock_data. rewrite Er. split.
  - intros [H|(df & H & He)]; [congruence|].
    injection H as ->. destruct (Hr df eq_refl) as [Hne _]. congruence.
  - intros ->. now left.
Qed.

Lemma substring_append_r (s t : string) (m : nat) :
  substring (String.length s) m (s ++ t) = substring 0 m t.
Proof. induction s as [|c s IH]; [reflexivity | exact IH]. Qed.

Lemma substring_all (t : string) : substring 0 (String.length t) t = t.
Proof. induction t as [|c t IH]; [reflexivity|]. cbn. now rewrite IH. Qed.

Lemma length_append (s t : string) :
  String.length (s ++ t) = (String.length s + String.length t)%nat.
Proof. induction s as [|c s IH]; [reflexivity|]. cbn. now rewrite IH. Qed.

Lemma endswith_append (s suffix : string) : endswith (s ++ suffix) suffix = true.
Proof.
  unfold endswith. cbv zeta. rewrite length_append.
  replace (String.length s + String.length suffix - String.length suffix)%nat
    with (String.length s) by lia.
  rewrite substring_append_r, substring_all, String.eqb_refl.
  rewrite andb_true_r. apply Nat.leb_le. lia.
Qed.

(** X24: [get_crypto_data] asks the provider for a symbol that ends in
    [-USD]: the symbol it is given when that ends in [-USD], and the
    symbol with [-USD] appended otherwise.  Normalising twice changes
    nothing, the answer is the one [get_stock_data] gives for the
    normalised symbol, and the fetcher and the crypto export answer the
    same for a symbol and for its normalised form. *)
Theorem crypto_symbol_is_normalised (sqrtQ : Q -> Q) (p : Provider)
    (symbol period : string) :
  endswith (crypto_symbol symbol) "-USD" = true
  /\ crypto_symbol (crypto_symbol symbol) = crypto_symbol symbol
  /\ get_crypto_data p symbol period
     = get_stock_data p (crypto_symbol symbol) period
  /\ get_crypto_data p (crypto_symbol symbol) period
     = get_crypto_data p symbol period
  /\ export_crypto_data sqrtQ (fetcher_of p) (crypto_symbol symbol) period
     = export_crypto_data sqrtQ (fetcher_of p) symbol period.
Proof.
  assert (H1 : endswith (crypto_symbol symbol) "-USD" = true).
  { unfold crypto_symbol. destruct (endswith symbol "-USD") eqn:E; cbn [negb].
    - exact E.
    - apply endswith_append. }
  assert (H2 : crypto_symbol (crypto_symbol symbol) = crypto_symbol symbol).
  { unfold crypto_symbol at 1. now rewrite H1. }
  assert (H3 : get_crypto_data p (crypto_symbol symbol) period
               = get_crypto_data p symbol period).
  { unfold get_crypto_data. cbv zeta. now rewrite H2. }
  split; [exact H1|]. split; [exact H2|]. split; [reflexivity|].
  split; [exact H3|].
  unfold export_crypto_data, fetcher_of. cbn [DataExporter.get_crypto_data].
  now rewrite H3.
Qed.

Lemma multiple_fold (p : Provider) (period : string) (symbols : list string)
    (acc : list (string * DataFrame)) :
  exists results,
    foldM (multiple_step p period) symbols acc = Ok results
    /\ (forall s,
        lookup s results
        = if existsb (String.eqb s) symbols
          then match fetched p period s with
               | Some df => Some df
               | None => lookup s acc
               end
          else lookup s acc)
    /\ (NoDup (map fst acc) -> NoDup (map fst results)).
Proof.
  revert acc. induction symbols as [|symbol symbols IH]; intros acc.
  - exists acc. split; [reflexivity|]. split; [reflexivity | auto].
  - cbn [foldM]. unfold multiple_step at 1.
    destruct (fetch_cases (history p symbol period)) as (r & Er & _).
    fold (get_stock_data p symbol period) in Er.
    assert (Hf : fetched p period symbol = r) by (unfold fetched; now rewrite Er).
    rewrite Er. cbn [bind]. destruct r as [df|].
    + destruct (IH (set acc symbol df)) as (results & Ef & Hl & Hnd).
      exists results. split; [exact Ef|]. split.
      * intros s. rewrite Hl. cbn [existsb].
        destruct (String.eqb_spec s symbol) as [->|Hne]; cbn [orb].
        -- rewrite Hf, lookup_set_eq.
           destruct (existsb (String.eqb symbol) symbols); reflexivity.
        -- now rewrite (lookup_set_ne _ _ _ _ Hne).
      * intros H. apply Hnd. now apply NoDup_keys_set.
    + destruct (IH acc) as (results & Ef & Hl & Hnd).
      exists results. split; [exact Ef|]. split; [|exact Hnd].
      intros s. rewrite Hl. cbn [existsb].
      destruct (String.eqb_spec s symbol) as [->|Hne]; cbn [orb]; [|reflexivity].
      rewrite Hf. destruct (existsb (String.eqb symbol) symbols); reflexivity.
Qed.

(** X25: [get_multiple_stocks_data] never raises; its result maps a
    symbol to what [get_stock_data] returns for it when the symbol is among
    the requested ones and has data, and has no entry otherwise; its keys
    are distinct and none of its frames is empty. *)
Theorem multiple_stocks_lookup (p : Provider) (symbols : list string)
    (period : string) :
  exists results,
    get_multiple_stocks_data p symbols period = Ok results
    /\ (forall s,
        lookup s results
        = if existsb (String.eqb s) symbols then fetched p period s else None)
    /\ NoDup (map fst results)
    /\ (forall s df, lookup s results = Some df -> empty df = false).
Proof.
  unfold get_multiple_stocks_data.
  destruct (multiple_fold p period symbols []) as (results & Ef & Hl & Hnd).
  assert (Hl' : forall s,
    lookup s results
    = if existsb (String.eqb s) symbols then fetched p period s else None).
  { intros s. rewrite Hl. cbn [lookup].
    destruct (existsb (String.eqb s) symbols); [|reflexivity].
    destruct (fetched p period s); reflexivity. }
  exists results. split; [exact Ef|]. split; [exact Hl'|].
  split; [apply Hnd; constructor|].
  intros s df. rewrite Hl'.
  destruct (existsb (String.eqb s) symbols); [|discriminate].
  unfold fetched, get_stock_data.
  destruct (fetch_cases (history p s period)) as (r & Er & Hr).
  rewrite Er. intros ->. exact (proj1 (Hr df eq_refl)).
Qed.

End FetcherFacts.

Module BackendFacts.
Import Float Pandas OHLCV ResultFacts PandasFacts PortfolioManager PortfolioFacts
  DrawdownFacts ValuationDefs ValuationFacts Fetchers Backend.
Local Open Scope string_scope.
Local Open Scope list_scope.

Lemma reset_index_history_of (bars : list Bar) :
  reset_index (history_of bars) = Ok (frame_of bars).
Proof. reflexivity. Qed.

Lemma history_of_empty (bars : list Bar) :
  history_empty (history_of bars) = (length bars =? 0)%nat.
Proof.
  unfold history_empty, history_of. cbn [index columns frame_of tl].
  rewrite length_map. apply orb_false_r.
Qed.

Lemma last_close_of_records (bars : list Bar) :
  bars <> [] ->
  last_close_of (to_records (frame_of bars)) = Ok (Fin (last_close bars)).
Proof.
  intros Hne. destruct (exists_last Hne) as (pre & b & ->).
  unfold last_close_of, to_records. rewrite length_map, length_seq, len_frame_of.
  rewrite length_app. cbn [length].
  replace (length pre + 1)%nat with (S (length pre)) by lia.
  rewrite seq_S, map_app. cbn [map plus].
  rewrite nth_error_app2 by (rewrite length_map, length_seq; lia).
  rewrite length_map, length_seq.
  replace (S (length pre) - 1 - length pre)%nat with O by lia.
  cbn [nth_error frame_of map fst snd lookup String.eqb Ascii.eqb Bool.eqb].
  unfold num_column. rewrite map_app. cbn [map].
  rewrite app_nth2 by (rewrite length_map; lia).
  rewrite length_map, Nat.sub_diag. cbn [nth as_float].
  unfold last_close. rewrite map_app. cbn [map]. now rewrite last_last.
Qed.

Section Agreement.
Variable p : Provider.
Variable holdings : Holdings.
Variable series : list (string * list Bar).
Hypothesis served : serves p series.
Hypothesis series_nonempty : Forall (fun sb => snd sb <> []) series.

Lemma backend_fold_totals (hs : Holdings) (acc : totals) (cv0 : Q) :
  Backend.current_value acc = Fin cv0 ->
  exists acc' cv,
    foldM (portfolio_step p) hs acc = Ok acc'
    /\ Backend.total_investment acc'
       == Backend.total_investment acc + Qsum (map (held_investment series) hs)
    /\ Backend.current_value acc' = Fin cv
    /\ cv == cv0 + Qsum (map (held_value series) hs).
Proof.
  revert acc cv0. induction hs as [|[symbol holding] hs IH]; intros acc cv0 Hcv.
  - exists acc, cv0. cbn [foldM map Qsum fold_right].
    split; [reflexivity|]. split; [ring|]. split; [exact Hcv | ring].
  - cbn [foldM]. unfold portfolio_step at 1. cbv zeta.
    unfold service_get_stock_data.
    rewrite !map_cons, !Qsum_cons.
    unfold held_investment at 1, held_value at 1. cbn [fst snd].
    pose proof (served symbol "1mo") as Hserved.
    destruct (lookup symbol series) as [bars|] eqn:El.
    + rewrite Hserved. destruct (lookup_In _ _ _ El) as [s' Hin].
      assert (Hne : bars <> []).
      { rewrite Forall_forall in series_nonempty.
        apply (series_nonempty (s', bars) Hin). }
      cbn [bind]. rewrite history_of_empty.
      destruct (Nat.eqb_spec (length bars) 0) as [H0|_].
      { destruct bars; [congruence | discriminate]. }
      rewrite reset_index_history_of. cbn [bind catch].
      pose proof (last_close_of_records bars Hne) as Hlast.
      destruct (to_records (frame_of bars)) as [|r0 rs] eqn:Er.
      { discriminate. }
      cbv beta iota. rewrite Hlast. cbn [bind].
      match goal with
      | |- context [foldM _ hs ?a] =>
          destruct (IH a (cv0 + shares holding * last_close bars))
            as (acc' & cv & Efold & Hti & Hcv' & Hcvq)
      end.
      { cbn [Backend.current_value]. rewrite Hcv. reflexivity. }
      exists acc', cv. split; [exact Efold|].
      cbn [Backend.total_investment] in Hti. split.
      * rewrite Hti. unfold investment_of. ring.
      * split; [exact Hcv'|]. rewrite Hcvq. ring.
    + assert (Hnone :
        (TRY
           (data <- history p symbol "1mo" ;;
            if history_empty data then Ok None
            else data <- reset_index data ;; Ok (Some (to_records data)))
         EXCEPT Ok None) = Ok None).
      { destruct (history p symbol "1mo") as [h|e]; [|reflexivity].
        cbn [bind]. now rewrite (Hserved h eq_refl). }
      rewrite Hnone. cbn [bind].
      destruct (IH acc cv0 Hcv) as (acc' & cv & Efold & Hti & Hcv' & Hcvq).
      exists acc', cv. split; [exact Efold|]. split.
      * rewrite Hti. ring.
      * split; [exact Hcv'|]. rewrite Hcvq. ring.
Qed.

Hypothesis invested : ~ sum_investments holdings == 0.
Variable sqrtQ : Q -> Q.

(** X26: the REST service and the portfolio manager agree.  For a
    provider that has the given series (none of them empty) and holdings
    whose total cost is not zero, [calculate_portfolio] of the service
    answers, and its [total_investment], [current_value] and [return_pct]
    are the numbers [calculate_portfolio_performance] reports as
    [total_investment], [current_value] and [total_return_pct] for the
    frames of those series. *)
Theorem rest_totals_agree_with_portfolio_manager :
  exists m answer,
    calculate_portfolio_performance sqrtQ holdings (frames_of series) = Ok m
    /\ calculate_portfolio p holdings = Ok answer
    /\ (exists ti ti',
          lookup "total_investment" m = Some (VNum (Fin ti))
          /\ lookup "total_investment" answer = Some (VNum (Fin ti'))
          /\ ti == ti')
    /\ (exists cv cv',
          lookup "current_value" m = Some (VNum (Fin cv))
          /\ lookup "current_value" answer = Some (VNum (Fin cv'))
          /\ cv == cv')
    /\ (exists pct pct',
          lookup "total_return_pct" m = Some (VNum (Fin pct))
          /\ lookup "return_pct" answer = Some (VNum (Fin pct'))
          /\ pct == pct').
Proof.
  unfold calculate_portfolio_performance, perf_loop, calculate_portfolio.
  destruct (perf_fold_totals holdings series series_nonempty invested holdings
              perf_init 0 eq_refl) as (acc & cv & Efold & Hti & Hcv & Hcvq).
  destruct (backend_fold_totals holdings
              {| Backend.total_investment := 0; Backend.current_value := Fin 0 |}
              0 eq_refl) as (acc' & cv' & Efold' & Hti' & Hcv' & Hcvq').
  rewrite Efold, Efold'. cbn [bind].
  destruct (volatility_ok sqrtQ holdings (frames_of series) 30) as [v Ev].
  rewrite Ev. cbn [bind].
  destruct (max_drawdown_ok holdings (frames_of series)) as [d Ed].
  rewrite Ed. cbn [bind catch].
  cbn [perf_init PortfolioManager.total_investment] in Hti.
  cbn [Backend.total_investment] in Hti'.
  assert (Eti : PortfolioManager.total_investment acc
                == Backend.total_investment acc') by (rewrite Hti, Hti'; reflexivity).
  assert (Ecv : cv == cv') by (rewrite Hcvq, Hcvq'; reflexivity).
  do 2 eexists. split; [reflexivity|]. split; [reflexivity|].
  cbn [lookup String.eqb Ascii.eqb Bool.eqb]. rewrite Hcv, Hcv'.
  split; [|split].
  - do 2 eexists. split; [reflexivity|]. split; [reflexivity | exact Eti].
  - do 2 eexists. split; [reflexivity|]. split; [reflexivity | exact Ecv].
  - destruct (Qlt_le_dec 0 (PortfolioManager.total_investment acc)) as [Hp|Hp];
      destruct (Qlt_le_dec 0 (Backend.total_investment acc')) as [Hp'|Hp'];
      try (exfalso; lra).
    + cbn [fsub fopp fadd fdiv fmul].
      destruct (Qeq_bool (PortfolioManager.total_investment acc) 0) eqn:E.
      { apply Qeq_bool_eq in E. lra. }
      destruct (Qeq_bool (Backend.total_investment acc') 0) eqn:E'.
      { apply Qeq_bool_eq in E'. lra. }
      do 2 eexists. split; [reflexivity|]. split; [reflexivity|].
      rewrite Ecv, Eti. reflexivity.
    + do 2 eexists. split; [reflexivity|]. split; [reflexivity|]. reflexivity.
Qed.

End Agreement.

Lemma rest_totals_agree_with_portfolio_manager_witness :
  exists m answer,
    calculate_portfolio_performance Concrete.sqrt6 Concrete.two_holdings
      (frames_of Samples.two_series) = Ok m
    /\ calculate_portfolio Samples.two_series_provider
         Concrete.two_holdings = Ok answer
    /\ (exists ti ti',
          lookup "total_investment" m = Some (VNum (Fin ti))
          /\ lookup "total_investment" answer = Some (VNum (Fin ti'))
          /\ ti == ti')
    /\ (exists cv cv',
          lookup "current_value" m = Some (VNum (Fin cv))
          /\ lookup "current_value" answer = Some (VNum (Fin cv'))
          /\ cv == cv')
    /\ (exists pct pct',
          lookup "total_return_pct" m = Some (VNum (Fin pct))
          /\ lookup "return_pct" answer = Some (VNum (Fin pct'))
          /\ pct == pct').
Proof.
  apply (rest_totals_agree_with_portfolio_manager
           Samples.two_series_provider Concrete.two_holdings
           Samples.two_series).
  - intros symbol period. cbn [Samples.two_series_provider Samples.provider_of
      history].
    destruct (lookup symbol Samples.two_series); [reflexivity | discriminate].
  - repeat constructor; discriminate.
  - intros H. vm_compute in H. discriminate.
Defined.

End BackendFacts.

Module ChartFacts.
Import Float Pandas OHLCV ResultFacts PandasFacts PortfolioManager PortfolioFacts
  DrawdownFacts ValuationDefs ValuationFacts PortfolioCharts.
Local Open Scope string_scope.
Local Open Scope list_scope.

Lemma color_at_ok (i : nat) :
  color_at i = Ok (nth (i mod 10) color_palette EmptyString).
Proof.
  unfold color_at. change (length color_palette) with 10%nat.
  assert (H : (i mod 10 < length color_palette)%nat).
  { change (length color_palette) with 10%nat. apply Nat.mod_upper_bound. lia. }
  rewrite (nth_error_nth' _ EmptyString H). reflexivity.
Qed.

Section Allocation.
Variable series : list (string * list Bar).
Hypothesis series_nonempty : Forall (fun sb => snd sb <> []) series.

Lemma allocation_fold (ihs : list (nat * (string * Holding))) (acc : Pie) :
  foldM (allocation_step (frames_of series)) ihs acc
  = Ok {| labels :=
            labels acc
            ++ map (fun ikv => fst (snd ikv))
                 (filter (fun ikv => mem (fst (snd ikv)) series) ihs);
          values :=
            values acc
            ++ map (fun ikv => Fin (held_value series (snd ikv)))
                 (filter (fun ikv => mem (fst (snd ikv)) series) ihs);
          marker_colors :=
            marker_colors acc
            ++ map slice_color
                 (filter (fun ikv => mem (fst (snd ikv)) series) ihs) |}.
Proof.
  revert acc. induction ihs as [|[i [symbol holding]] ihs IH]; intros acc.
  - cbn [foldM filter map]. rewrite !app_nil_r. now destruct acc.
  - cbn [foldM filter fst snd]. unfold allocation_step at 1.
    rewrite lookup_frames_of.
    assert (Hmem : mem symbol series
                   = match lookup symbol series with
                     | Some _ => true
                     | None => false
                     end) by reflexivity.
    rewrite Hmem.
    destruct (lookup symbol series) as [bars|] eqn:El; cbn [option_map].
    + destruct (lookup_In _ _ _ El) as [s' Hin].
      assert (Hne : bars <> []).
      { rewrite Forall_forall in series_nonempty.
        apply (series_nonempty (s', bars) Hin). }
      assert (Hv : held_value series (symbol, holding)
                   = shares holding * last_close bars).
      { unfold held_value. cbn [fst snd]. now rewrite El. }
      rewrite get_num_frame_close. cbn [bind].
      rewrite (iloc_neg_last_close bars Hne), color_at_ok. cbn [bind fmul].
      rewrite IH. cbn [labels values marker_colors map fst snd].
      rewrite Hv, <- !app_assoc. reflexivity.
    + cbn [bind]. apply IH.
Qed.

End Allocation.

Lemma filter_enumerate {A B : Type} (p : A -> bool) (f : A -> B) (l : list A)
    (start : nat) :
  map (fun ikv => f (snd ikv))
    (filter (fun ikv => p (snd ikv)) (combine (seq start (length l)) l))
  = map f (filter p l).
Proof.
  revert start. induction l as [|a l IH]; intros start; [reflexivity|].
  cbn [length seq combine filter snd]. destruct (p a); cbn [map snd];
    now rewrite IH.
Qed.

Lemma Qsum_filter_held (series : list (string * list Bar)) (hs : Holdings) :
  Qsum (map (held_value series) (filter (fun kv => mem (fst kv) series) hs))
  == Qsum (map (held_value series) hs).
Proof.
  induction hs as [|kv hs IH]; [reflexivity|]. cbn [filter map].
  unfold mem at 1. unfold held_value at 2.
  destruct (lookup (fst kv) series) eqn:El.
  - rewrite !map_cons, !Qsum_cons, IH. unfold held_value at 1. rewrite El.
    reflexivity.
  - rewrite Qsum_cons, IH. ring.
Qed.

(** X27: the pie of [generate_portfolio_allocation_chart] has one slice
    per holding that has price data, in the order of the holdings: its
    label is the symbol, its value the shares valued at the last close of
    the series, so the slices add up to the value of all holdings; and
    its colour is chosen by the position of the holding among all
    holdings, not among the slices. *)
Theorem allocation_slices_are_the_priced_holdings (holdings : Holdings)
    (series : list (string * list Bar)) :
  Forall (fun sb => snd sb <> []) series ->
  let priced := filter (fun kv => mem (fst kv) series) holdings in
  exists pie vs,
    generate_portfolio_allocation_chart holdings (frames_of series)
    = Ok (Some pie)
    /\ labels pie = map fst priced
    /\ values pie = map Fin vs
    /\ vs = map (held_value series) priced
    /\ Qsum vs == Qsum (map (held_value series) holdings)
    /\ marker_colors pie
       = map slice_color
           (filter (fun ikv => mem (fst (snd ikv)) series) (enumerate holdings)).
Proof.
  intros Hne. cbv zeta. unfold generate_portfolio_allocation_chart.
  rewrite (allocation_fold series Hne). cbn [bind catch labels values
    marker_colors app].
  eexists. exists (map (held_value series)
                     (filter (fun kv => mem (fst kv) series) holdings)).
  split; [reflexivity|]. cbn [labels values marker_colors].
  unfold enumerate. split; [|split; [|split; [|split]]].
  - apply (filter_enumerate (fun kv => mem (fst kv) series) fst).
  - rewrite map_map.
    apply (filter_enumerate (fun kv => mem (fst kv) series)
             (fun kv => Fin (held_value series kv))).
  - reflexivity.
  - apply Qsum_filter_held.
  - reflexivity.
Qed.





Section Timeline.
Variable series : list (string * list Bar).
Variable n : nat.
Hypothesis same_length : Forall (fun sb => length (snd sb) = n) series.


End Timeline.




Lemma allocation_slices_are_the_priced_holdings_witness :
  exists pie vs,
    generate_portfolio_allocation_chart Concrete.two_holdings
      (frames_of Samples.two_series) = Ok (Some pie)
    /\ labels pie = ["A"; "B"]
    /\ values pie = map Fin vs
    /\ vs = map (held_value Samples.two_series) Concrete.two_holdings
    /\ Qsum vs
       == Qsum (map (held_value Samples.two_series) Concrete.two_holdings)
    /\ marker_colors pie = ["#0052CC"; "#00875A"].
Proof.
  apply (allocation_slices_are_the_priced_holdings Concrete.two_holdings
           Samples.two_series).
  repeat constructor; discriminate.
Defined.



End ChartFacts.
